(** * Attendance: face-recognition attendance core, shallow embedding

    Sources embedded here:
    - [face-storage.js]   (class FaceStorage, the local IndexedDB backend),
    - [cloud-storage.js]  (class CloudStorage, the Firebase backend),
    - [face-recognition.js] (class FaceRecognitionSystem and FirebaseLiveSync),
    - [leave.js]          (leave applications).

    Conventions.
    - JavaScript values that the code only compares, tests for truthiness or
      prints are values of [jsval]; numbers are integers ([Z]), there is no NaN.
    - An object store or a Firebase node with children is a [gmap] from the
      key to the child.
    - Functions that throw return a [result].
    - DOM rendering, toasts and calls into collaborators are recorded as
      [event]s in a trace carried by the system state; console output is not
      traced, except the line printed when a day-change notification is
      skipped.
    - An [async] method is a first synchronous segment followed by a [task]:
      the segments that run when the awaited operations complete. *)

From stdpp Require Import gmap strings list fin_maps pretty sorting.
From Stdlib Require Import ZArith Lia Ascii.

Open Scope string_scope.
Open Scope Z_scope.

(** ** JavaScript values *)

Inductive jsval : Type :=
| JUndefined
| JNull
| JBool (b : bool)
| JNum (n : Z)
| JStr (s : string).

#[global] Instance jsval_eq_dec : EqDecision jsval.
Proof. solve_decision. Defined.

(** [if (v)], [!v], [a && b], [a || b] *)
Definition truthy (v : jsval) : bool :=
  match v with
  | JUndefined | JNull => false
  | JBool b => b
  | JNum n => negb (Z.eqb n 0)
  | JStr s => negb (String.eqb s EmptyString)
  end.

(** [a === b] and [a !== b]; without NaN and without objects strict equality
    is equality of the values. *)
Definition strict_eq (a b : jsval) : bool := bool_decide (a = b).
Definition strict_ne (a b : jsval) : bool := negb (strict_eq a b).

(** Conversion used by template literals: [`${v}`]. *)
Definition ToString (v : jsval) : string :=
  match v with
  | JUndefined => "undefined"
  | JNull => "null"
  | JBool true => "true"
  | JBool false => "false"
  | JNum n => pretty n
  | JStr s => s
  end.

(** The line feed written [\n] in the source. *)
Definition nl : string := String (Ascii.ascii_of_nat 10) EmptyString.

(** ** Results of code that can throw *)

Inductive exn : Type :=
| Error (msg : string)
| TypeError.

Inductive result (A : Type) : Type :=
| Ok (a : A)
| Throw (e : exn).
Arguments Ok {A} a.
Arguments Throw {A} e.

Definition rbind {A B} (r : result A) (k : A -> result B) : result B :=
  match r with
  | Ok a => k a
  | Throw e => Throw e
  end.

Fixpoint rmapM {A B} (f : A -> result B) (l : list A) : result (list B) :=
  match l with
  | [] => Ok []
  | a :: l' =>
      rbind (f a) (fun b => rbind (rmapM f l') (fun bs => Ok (b :: bs)))
  end.

(** ** Face descriptors

    A descriptor is an array of numbers.  [new Float32Array(d)] rounds every
    component to single precision; rounding a rounded number changes
    nothing. *)

Class Float32 (num : Type) := {
  fround : num -> num;
  fround_idem : forall x, fround (fround x) = fround x
}.

Definition Float32Array `{Float32 num} (d : list num) : list num :=
  fround <$> d.

(** Integer components are exactly representable: the instance used by the
    concrete examples. *)
#[global] Instance Float32_Z : Float32 Z := {| fround := fun z => z; fround_idem := fun _ => eq_refl |}.

(** ** Person records, as stored and as returned by the stores *)

Module Face.

Record t (num : Type) : Type := mk {
  id : string;
  name : string;
  descriptors : option (list (list num));   (* absent in legacy records *)
  descriptor : option (list num);           (* legacy single descriptor *)
  imageData : string;
  timestamp : Z;
  attendanceToday : bool;
  lastSeen : option Z;                      (* [None] is [null] *)
  department : jsval;
  course : jsval;
  academicYear : jsval;
  division : jsval
}.
Arguments mk {num}.
Arguments id {num}.
Arguments name {num}.
Arguments descriptors {num}.
Arguments descriptor {num}.
Arguments imageData {num}.
Arguments timestamp {num}.
Arguments attendanceToday {num}.
Arguments lastSeen {num}.
Arguments department {num}.
Arguments course {num}.
Arguments academicYear {num}.
Arguments division {num}.

(** [{ ...face, descriptors: ds }] *)
Definition with_descriptors {num} (ds : list (list num)) (f : t num) : t num :=
  mk (id f) (name f) (Some ds) (descriptor f) (imageData f) (timestamp f)
     (attendanceToday f) (lastSeen f)
     (department f) (course f) (academicYear f) (division f).

(** [face.attendanceToday = a; face.lastSeen = ls] *)
Definition with_attendance {num} (a : bool) (ls : option Z) (f : t num) : t num :=
  mk (id f) (name f) (descriptors f) (descriptor f) (imageData f) (timestamp f)
     a ls
     (department f) (course f) (academicYear f) (division f).

(** [face.attendanceToday = a], [lastSeen] untouched *)
Definition with_attendanceToday {num} (a : bool) (f : t num) : t num :=
  with_attendance a (lastSeen f) f.

(** What a caller can read from [face.descriptors]. *)
Definition descriptors_list {num} (f : t num) : list (list num) :=
  default [] (descriptors f).

End Face.

(** One element of the array returned by [getLabeledDescriptors]. *)
Record labeled (num : Type) : Type := mkLabeled {
  label : string;
  ldescriptors : list (list num)
}.
Arguments mkLabeled {num}.
Arguments label {num}.
Arguments ldescriptors {num}.

(** [`${face.id}|${face.name}`] *)
Definition label_of {num} (f : Face.t num) : string :=
  Face.id f +:+ "|" +:+ Face.name f.

(** How the promise returned by a store method ends.  A promise whose
    executor returns without calling [resolve] or [reject], and is given no
    other way to call them, never settles. *)
Inductive settled (A : Type) : Type :=
| Resolved (a : A)
| Rejected (e : exn)
| Unsettled.
Arguments Resolved {A} a.
Arguments Rejected {A} e.
Arguments Unsettled {A}.

(** The object returned by [getStats]. *)
Module Stats.

Record t : Type := mk {
  total : nat;
  presentToday : nat;
  absentToday : nat
}.

End Stats.

(** One element of the array returned by [exportAttendanceData]. *)
Module Exported.

Record t : Type := mk {
  id : string;
  name : string;
  status : string;
  timestamp : option Z
}.

End Exported.

(** [{ id: face.id, name: face.name, status: ..., timestamp: face.lastSeen }] *)
Definition export_row {num} (face : Face.t num) : Exported.t :=
  Exported.mk (Face.id face) (Face.name face)
    (if Face.attendanceToday face then "Present" else "Absent")
    (Face.lastSeen face).

(** [{ total, presentToday, absentToday }] of an array of faces. *)
Definition stats_of {num} (faces : list (Face.t num)) : Stats.t :=
  Stats.mk (length faces)
    (length (List.filter (fun f => Face.attendanceToday f) faces))
    (length (List.filter (fun f => negb (Face.attendanceToday f)) faces)).

(** ** The teaching context held by the recognition page

    [this.mainSystemConfig] of [FaceRecognitionSystem]; the cloud store reads
    it through [window.faceSystem.mainSystemConfig]. *)

Module Config.

Record t : Type := mk {
  currentDate : jsval;
  selectedSubject : jsval;
  selectedMonth : jsval;
  selectedYear : jsval;
  currentDay : jsval;
  selectedDepartment : jsval;
  selectedCourse : jsval;
  selectedAcademicYear : jsval;
  selectedDivision : jsval
}.

(** The constructor's initial value: every field [null]. *)
Definition initial : t :=
  mk JNull JNull JNull JNull JNull JNull JNull JNull JNull.

Definition set_currentDay (v : jsval) (c : t) : t :=
  mk (currentDate c) (selectedSubject c) (selectedMonth c) (selectedYear c) v
     (selectedDepartment c) (selectedCourse c) (selectedAcademicYear c)
     (selectedDivision c).

(** The four assignments [selectedDepartment = ..., ..., selectedDivision = ...]. *)
Definition set_division (dept crs ay dv : jsval) (c : t) : t :=
  mk (currentDate c) (selectedSubject c) (selectedMonth c) (selectedYear c)
     (currentDay c) dept crs ay dv.

(** The four assignments [selectedSubject], [selectedMonth], [selectedYear],
    [currentDay]. *)
Definition set_session (subj mo yr dy : jsval) (c : t) : t :=
  mk (currentDate c) subj mo yr dy
     (selectedDepartment c) (selectedCourse c) (selectedAcademicYear c)
     (selectedDivision c).

(** [selectedSubject = v], and likewise below. *)
Definition set_selectedSubject (v : jsval) (c : t) : t :=
  mk (currentDate c) v (selectedMonth c) (selectedYear c) (currentDay c)
     (selectedDepartment c) (selectedCourse c) (selectedAcademicYear c)
     (selectedDivision c).

Definition set_selectedMonth (v : jsval) (c : t) : t :=
  mk (currentDate c) (selectedSubject c) v (selectedYear c) (currentDay c)
     (selectedDepartment c) (selectedCourse c) (selectedAcademicYear c)
     (selectedDivision c).

Definition set_selectedYear (v : jsval) (c : t) : t :=
  mk (currentDate c) (selectedSubject c) (selectedMonth c) v (currentDay c)
     (selectedDepartment c) (selectedCourse c) (selectedAcademicYear c)
     (selectedDivision c).

Definition set_currentDate (v : jsval) (c : t) : t :=
  mk v (selectedSubject c) (selectedMonth c) (selectedYear c) (currentDay c)
     (selectedDepartment c) (selectedCourse c) (selectedAcademicYear c)
     (selectedDivision c).

End Config.

#[global] Instance Config_eq_dec : EqDecision Config.t.
Proof. solve_decision. Defined.

(** ** face-storage.js: the local backend

    The object store [faces] has key path [id]: a record is stored under the
    value of its own [id] field.  The database is assumed open ([this.db] set
    by [init]) and its requests succeed. *)

Module FaceStorage.

Section WithNum.
Context {num : Type} `{Float32 num}.

(** Key path [id]: what IndexedDB guarantees of every stored record. *)
Definition keyPath_ok (db : gmap string (Face.t num)) : Prop :=
  map_Forall (fun k f => Face.id f = k) db.

(** [store.put(face)] *)
Definition put (face : Face.t num) (db : gmap string (Face.t num))
  : gmap string (Face.t num) :=
  <[Face.id face := face]> db.

(** The conversion shared by [getAllFaces] and [getFace]: new format, legacy
    format, or neither. *)
Definition upgrade (face : Face.t num) : Face.t num :=
  let descriptors :=
    match Face.descriptors face with
    | Some ds => Float32Array <$> ds
    | None =>
        match Face.descriptor face with
        | Some d => [Float32Array d]
        | None => []
        end
    end in
  Face.with_descriptors descriptors face.

(** [store.getAll()] then the conversion of every record. *)
Definition getAllFaces (db : gmap string (Face.t num)) : list (Face.t num) :=
  upgrade <$> (map_to_list db).*2.

(** [store.get(studentId)]: [None] is [null]. *)
Definition getFace (studentId : string) (db : gmap string (Face.t num))
  : option (Face.t num) :=
  match db !! studentId with
  | Some r => Some (upgrade r)
  | None => None
  end.

(** [markAttendance(studentId)] at time [now]: the returned boolean and the
    store afterwards. *)
Definition markAttendance (now : Z) (studentId : string)
    (db : gmap string (Face.t num)) : bool * gmap string (Face.t num) :=
  match getFace studentId db with
  | None => (false, db)
  | Some face => (true, put (Face.with_attendance true (Some now) face) db)
  end.

(** [resetAllAttendance()]: every face read is modified and put back. *)
Definition resetAllAttendance (db : gmap string (Face.t num))
  : gmap string (Face.t num) :=
  let faces := getAllFaces db in
  if (length faces =? 0)%nat then db
  else foldl (fun d face => put (Face.with_attendance false None face) d) db faces.

(** [getLabeledDescriptors()]: the method declares no parameter; whatever a
    caller passes ([_args]) is not read. *)
Definition getLabeledDescriptors (_args : list (list (Face.t num)))
    (db : gmap string (Face.t num)) : list (labeled num) :=
  (fun face => mkLabeled (label_of face) (Face.descriptors_list face))
    <$> getAllFaces db.

(** The [faceData] object built by the four methods that write a person: it
    has these seven fields and no other. *)
Definition faceData (studentId studentName : string)
    (descriptors : list (list num)) (imageData : string) (timestamp : Z)
    (attendanceToday : bool) (lastSeen : option Z) : Face.t num :=
  Face.mk studentId studentName (Some descriptors) None imageData timestamp
          attendanceToday lastSeen JUndefined JUndefined JUndefined JUndefined.

(** [saveFace(studentId, studentName, descriptor, imageData)] at time [now]:
    the object the promise resolves with and the store afterwards. *)
Definition saveFace (now : Z) (studentId studentName : string)
    (descriptor : list num) (imageData : string)
    (db : gmap string (Face.t num)) : Face.t num * gmap string (Face.t num) :=
  let face := faceData studentId studentName [descriptor] imageData now false None in
  (face, put face db).

(** [addFaceToExisting(studentId, studentName, newDescriptor, newImageData)].
    The method returns [new Promise(async (resolve, reject) => ...)]; when
    the student is not in the store the executor returns the promise of
    [saveFace], which nobody reads, and calls neither [resolve] nor
    [reject]. *)
Definition addFaceToExisting (now : Z) (studentId studentName : string)
    (newDescriptor : list num) (newImageData : string)
    (db : gmap string (Face.t num))
  : settled (Face.t num) * gmap string (Face.t num) :=
  match getFace studentId db with
  | None =>
      (Unsettled, (saveFace now studentId studentName newDescriptor newImageData db).2)
  | Some existingFace =>
      let updatedDescriptors :=
        (Face.descriptors_list existingFace ++ [newDescriptor])%list in
      let face :=
        faceData studentId studentName updatedDescriptors newImageData
                 (Face.timestamp existingFace)
                 (Face.attendanceToday existingFace)
                 (Face.lastSeen existingFace) in
      (Resolved face, put face db)
  end.

(** [saveBulkFaces(studentId, studentName, descriptors, sampleFile)]:
    [sampleFile] is what [FileReader.readAsDataURL] yields for the file,
    [None] when the reader fails. *)
Definition saveBulkFaces (now : Z) (studentId studentName : string)
    (descriptors : list (list num)) (sampleFile : option string)
    (db : gmap string (Face.t num))
  : settled (Face.t num) * gmap string (Face.t num) :=
  match sampleFile with
  | None => (Rejected (Error "Failed to read image file"), db)
  | Some imageData =>
      let face := faceData studentId studentName descriptors imageData now false None in
      (Resolved face, put face db)
  end.

(** [addBulkFacesToExisting(studentId, studentName, newDescriptors,
    sampleFile)]: as [addFaceToExisting], with [saveBulkFaces] for a student
    who is not in the store. *)
Definition addBulkFacesToExisting (now : Z) (studentId studentName : string)
    (newDescriptors : list (list num)) (sampleFile : option string)
    (db : gmap string (Face.t num))
  : settled (Face.t num) * gmap string (Face.t num) :=
  match getFace studentId db with
  | None =>
      (Unsettled,
       (saveBulkFaces now studentId studentName newDescriptors sampleFile db).2)
  | Some existingFace =>
      match sampleFile with
      | None => (Rejected (Error "Failed to read image file"), db)
      | Some imageData =>
          let allDescriptors :=
            (Face.descriptors_list existingFace ++ newDescriptors)%list in
          let face :=
            faceData studentId studentName allDescriptors imageData
                     (Face.timestamp existingFace)
                     (Face.attendanceToday existingFace)
                     (Face.lastSeen existingFace) in
          (Resolved face, put face db)
      end
  end.

(** [deleteFace(studentId)]: [store.delete(studentId)]. *)
Definition deleteFace (studentId : string) (db : gmap string (Face.t num))
  : gmap string (Face.t num) :=
  delete studentId db.

(** [clearAllFaces()]: [store.clear()]. *)
Definition clearAllFaces (db : gmap string (Face.t num))
  : gmap string (Face.t num) := ∅.

(** [clearTodayAttendance()]: every face read has its flag cleared and is put
    back; [lastSeen] is not assigned. *)
Definition clearTodayAttendance (db : gmap string (Face.t num))
  : gmap string (Face.t num) :=
  let faces := getAllFaces db in
  if (length faces =? 0)%nat then db
  else foldl (fun d face => put (Face.with_attendanceToday false face) d) db faces.

(** [getStats()] *)
Definition getStats (db : gmap string (Face.t num)) : Stats.t :=
  stats_of (getAllFaces db).

(** [exportAttendanceData()] *)
Definition exportAttendanceData (db : gmap string (Face.t num))
  : list Exported.t :=
  export_row <$> getAllFaces db.

End WithNum.

End FaceStorage.

(** ** cloud-storage.js: the remote backend

    The Firebase tree under [faces/] is a map from the division path to the
    children of that node, each child a person record under its student id.
    Reads and writes of the remote tree succeed; what the code itself throws
    is kept. *)

Module CloudStorage.

Section WithNum.
Context {num : Type} `{Float32 num}.

Record t : Type := mk {
  db : gmap string (gmap string (Face.t num));
  isInitialized : bool
}.

Definition set_db (d : gmap string (gmap string (Face.t num))) (st : t) : t :=
  mk d (isInitialized st).

Definition not_initialized : exn := Error "Cloud storage not initialized".

(** [getDivisionPath()]: [None] is [null]. *)
Definition getDivisionPath (config : Config.t) : option string :=
  let dept := Config.selectedDepartment config in
  let course := Config.selectedCourse config in
  let academicYear := Config.selectedAcademicYear config in
  let division := Config.selectedDivision config in
  if negb (truthy dept) || negb (truthy course) ||
     negb (truthy academicYear) || negb (truthy division)
  then None
  else Some ("faces/" +:+ ToString dept +:+ "/" +:+ ToString course +:+ "/" +:+
             ToString academicYear +:+ "/" +:+ ToString division).

(** [getFacesRef()]: the reference is its path. *)
Definition getFacesRef (config : Config.t) : option string :=
  getDivisionPath config.

(** [{ ...face, descriptors: face.descriptors.map(d => new Float32Array(d)) }];
    [undefined.map] is a TypeError. *)
Definition restore (face : Face.t num) : result (Face.t num) :=
  match Face.descriptors face with
  | Some ds => Ok (Face.with_descriptors (Float32Array <$> ds) face)
  | None => Throw TypeError
  end.

(** [getAllFaces()] *)
Definition getAllFaces (config : Config.t) (st : t) : result (list (Face.t num)) :=
  if negb (isInitialized st) then Throw not_initialized
  else
    match getFacesRef config with
    | None => Ok []
    | Some facesRef =>
        match db st !! facesRef with
        | None => Ok []
        | Some facesData => rmapM restore (map_to_list facesData).*2
        end
    end.

(** [facesRef.child(studentId).once('value')] then [snapshot.val()]. *)
Definition child (facesRef studentId : string)
    (d : gmap string (gmap string (Face.t num))) : option (Face.t num) :=
  d !! facesRef ≫= (.!! studentId).

(** [getFace(studentId)] *)
Definition getFace (config : Config.t) (studentId : string) (st : t)
  : result (option (Face.t num)) :=
  if negb (isInitialized st) then Throw not_initialized
  else
    match getFacesRef config with
    | None => Ok None
    | Some facesRef =>
        match child facesRef studentId (db st) with
        | None => Ok None
        | Some face => rbind (restore face) (fun f => Ok (Some f))
        end
    end.

(** [ref.child(id).update({...})] and the paths of a multi-path update: the
    fields this module writes. *)
Inductive field_write : Type :=
| Field_attendanceToday (b : bool)
| Field_lastSeen (v : option Z).

Definition write_field (w : field_write) (face : Face.t num) : Face.t num :=
  match w with
  | Field_attendanceToday b => Face.with_attendance b (Face.lastSeen face) face
  | Field_lastSeen v => Face.with_attendance (Face.attendanceToday face) v face
  end.

(** [facesRef.update(updates)] with keys [`${studentId}/field`].  The student
    ids of the callers below come from the snapshot just read, so every path
    addresses an existing child. *)
Definition update (facesRef : string) (updates : list (string * field_write))
    (d : gmap string (gmap string (Face.t num)))
  : gmap string (gmap string (Face.t num)) :=
  foldl (fun d' u => alter (alter (write_field u.2) u.1) facesRef d') d updates.

(** [markAttendance(studentId)] at time [now]. *)
Definition markAttendance (config : Config.t) (now : Z) (studentId : string)
    (st : t) : result (bool * t) :=
  if negb (isInitialized st) then Throw not_initialized
  else
    match getFacesRef config with
    | None => Ok (false, st)
    | Some facesRef =>
        match child facesRef studentId (db st) with
        | None => Ok (false, st)
        | Some face =>
            Ok (true,
                set_db (update facesRef
                          [(studentId, Field_attendanceToday true);
                           (studentId, Field_lastSeen (Some now))] (db st)) st)
        end
    end.

(** [resetAllAttendance()] *)
Definition resetAllAttendance (config : Config.t) (st : t) : result t :=
  if negb (isInitialized st) then Throw not_initialized
  else
    match getFacesRef config with
    | None => Ok st
    | Some facesRef =>
        match db st !! facesRef with
        | None => Ok st
        | Some facesData =>
            let updates :=
              flat_map (fun studentId =>
                          [(studentId, Field_attendanceToday false);
                           (studentId, Field_lastSeen None)])
                       (map_to_list facesData).*1 in
            Ok (set_db (update facesRef updates (db st)) st)
        end
    end.

(** [getLabeledDescriptors()]: no parameter here either; [_args] is what a
    caller passes. *)
Definition getLabeledDescriptors (_args : list (list (Face.t num)))
    (config : Config.t) (st : t) : result (list (labeled num)) :=
  if negb (isInitialized st) then Throw not_initialized
  else
    rbind (getAllFaces config st) (fun faces =>
      Ok ((fun face => mkLabeled (label_of face) (Face.descriptors_list face))
            <$> faces)).

(** *** Writing and removing people

    The map under a division path holds the children of that node, one per
    key.  The definitions below are what the calls do for a student id that
    is one key of the tree and for division fields that are each one level
    of the path: an id or a field with a [/] in it addresses a deeper node,
    which this map does not hold, and the tree refuses a key with a dot, a
    hash, a dollar sign or a square bracket.  A record is read back as it
    was written when the
    descriptors written are non-empty arrays of numbers: the remote tree
    keeps nothing of an empty array.  A node without children does not
    exist.  The properties stated of these definitions carry these
    conditions. *)

Definition no_division : exn :=
  Error "Please select Department, Course, Academic Year, and Division first".

(** [facesRef.child(studentId).set(face)], for [studentId] one key of the
    tree. *)
Definition set_child (facesRef studentId : string) (face : Face.t num)
    (d : gmap string (gmap string (Face.t num)))
  : gmap string (gmap string (Face.t num)) :=
  <[facesRef := <[studentId := face]> (default ∅ (d !! facesRef))]> d.

(** [facesRef.child(studentId).remove()], for [studentId] one key of the
    tree: the child under that key goes, with all it holds. *)
Definition remove_child (facesRef studentId : string)
    (d : gmap string (gmap string (Face.t num)))
  : gmap string (gmap string (Face.t num)) :=
  match d !! facesRef with
  | None => d
  | Some facesData =>
      let rest := delete studentId facesData in
      if decide (rest = ∅) then delete facesRef d else <[facesRef := rest]> d
  end.

(** The [faceData] object of [saveFace] and [saveBulkFaces]: the division
    fields are those of the teaching context. *)
Definition faceData (config : Config.t) (studentId studentName : string)
    (descriptors : list (list num)) (imageData : string) (timestamp : Z)
  : Face.t num :=
  Face.mk studentId studentName (Some descriptors) None imageData timestamp
          false None
          (Config.selectedDepartment config) (Config.selectedCourse config)
          (Config.selectedAcademicYear config) (Config.selectedDivision config).

(** [saveFace(studentId, studentName, descriptor, imageData)] at time [now]. *)
Definition saveFace (config : Config.t) (now : Z) (studentId studentName : string)
    (descriptor : list num) (imageData : string) (st : t)
  : result (Face.t num * t) :=
  if negb (isInitialized st) then Throw not_initialized
  else
    match getFacesRef config with
    | None => Throw no_division
    | Some facesRef =>
        let face := faceData config studentId studentName [descriptor] imageData now in
        Ok (face, set_db (set_child facesRef studentId face (db st)) st)
    end.

(** [{ ...existingFace, name, descriptors, imageData }] *)
Definition updatedData (existingFace : Face.t num) (studentName : string)
    (descriptors : list (list num)) (imageData : string) : Face.t num :=
  Face.mk (Face.id existingFace) studentName (Some descriptors)
          (Face.descriptor existingFace) imageData (Face.timestamp existingFace)
          (Face.attendanceToday existingFace) (Face.lastSeen existingFace)
          (Face.department existingFace) (Face.course existingFace)
          (Face.academicYear existingFace) (Face.division existingFace).

(** [addFaceToExisting(studentId, studentName, newDescriptor, newImageData)]:
    [...existingFace.descriptors] of a record without [descriptors] is a
    TypeError. *)
Definition addFaceToExisting (config : Config.t) (now : Z)
    (studentId studentName : string) (newDescriptor : list num)
    (newImageData : string) (st : t) : result (Face.t num * t) :=
  if negb (isInitialized st) then Throw not_initialized
  else
    match getFacesRef config with
    | None => Throw no_division
    | Some facesRef =>
        match child facesRef studentId (db st) with
        | None => saveFace config now studentId studentName newDescriptor newImageData st
        | Some existingFace =>
            match Face.descriptors existingFace with
            | None => Throw TypeError
            | Some ds =>
                let face :=
                  updatedData existingFace studentName (ds ++ [newDescriptor])%list
                              newImageData in
                Ok (face, set_db (set_child facesRef studentId face (db st)) st)
            end
        end
    end.

(** [_fileToBase64(file)]: [file] is what the reader yields, [None] when it
    fails. *)
Definition _fileToBase64 (file : option string) : result string :=
  match file with
  | Some data => Ok data
  | None => Throw (Error "Failed to read file")
  end.

(** [saveBulkFaces(studentId, studentName, descriptors, sampleFile)] *)
Definition saveBulkFaces (config : Config.t) (now : Z)
    (studentId studentName : string) (descriptors : list (list num))
    (sampleFile : option string) (st : t) : result (Face.t num * t) :=
  if negb (isInitialized st) then Throw not_initialized
  else
    match getFacesRef config with
    | None => Throw no_division
    | Some facesRef =>
        rbind (_fileToBase64 sampleFile) (fun imageData =>
          let face := faceData config studentId studentName descriptors imageData now in
          Ok (face, set_db (set_child facesRef studentId face (db st)) st))
    end.

(** [addBulkFacesToExisting(studentId, studentName, newDescriptors,
    sampleFile)] *)
Definition addBulkFacesToExisting (config : Config.t) (now : Z)
    (studentId studentName : string) (newDescriptors : list (list num))
    (sampleFile : option string) (st : t) : result (Face.t num * t) :=
  if negb (isInitialized st) then Throw not_initialized
  else
    match getFacesRef config with
    | None => Throw no_division
    | Some facesRef =>
        match child facesRef studentId (db st) with
        | None =>
            saveBulkFaces config now studentId studentName newDescriptors sampleFile st
        | Some existingFace =>
            rbind (_fileToBase64 sampleFile) (fun imageData =>
              match Face.descriptors existingFace with
              | None => Throw TypeError
              | Some ds =>
                  let face :=
                    updatedData existingFace studentName (ds ++ newDescriptors)%list
                                imageData in
                  Ok (face, set_db (set_child facesRef studentId face (db st)) st)
              end)
        end
    end.

(** [deleteFace(studentId)] *)
Definition deleteFace (config : Config.t) (studentId : string) (st : t)
  : result t :=
  if negb (isInitialized st) then Throw not_initialized
  else
    match getFacesRef config with
    | None => Throw no_division
    | Some facesRef => Ok (set_db (remove_child facesRef studentId (db st)) st)
    end.

(** [clearAllFaces()]: [facesRef.remove()]. *)
Definition clearAllFaces (config : Config.t) (st : t) : result t :=
  if negb (isInitialized st) then Throw not_initialized
  else
    match getFacesRef config with
    | None => Throw no_division
    | Some facesRef => Ok (set_db (delete facesRef (db st)) st)
    end.

(** [getStats()]: over [Object.values(facesData)], the records as stored. *)
Definition getStats (config : Config.t) (st : t) : result Stats.t :=
  if negb (isInitialized st) then Throw not_initialized
  else
    match getFacesRef config with
    | None => Ok (Stats.mk 0 0 0)
    | Some facesRef =>
        match db st !! facesRef with
        | None => Ok (Stats.mk 0 0 0)
        | Some facesData => Ok (stats_of (map_to_list facesData).*2)
        end
    end.

(** [exportAttendanceData()] *)
Definition exportAttendanceData (config : Config.t) (st : t)
  : result (list Exported.t) :=
  if negb (isInitialized st) then Throw not_initialized
  else
    match getFacesRef config with
    | None => Ok []
    | Some facesRef =>
        match db st !! facesRef with
        | None => Ok []
        | Some facesData => Ok (export_row <$> (map_to_list facesData).*2)
        end
    end.

End WithNum.

Arguments t num : clear implicits.

End CloudStorage.

(** ** face-recognition.js: state of [FaceRecognitionSystem] *)

(** What the page does to its collaborators, most recent first in the trace. *)
Inductive event : Type :=
| ShowToast (message type : string)
| ConsoleLog (message : string)
| Call_updateConfigDisplay
| Call_updateStudentList
| Call_updateStats
| Call_loadFaceMatcher
| Call_stopCamera
| Call_storage_resetAllAttendance
| Call_storage_markAttendance (studentId : string)
| Call_saveAttendanceToFirebase (studentId studentName : string) (day : jsval)
| Call_watchQRExpiration (qrId : jsval)
| LocalStorage_setItem (qrId : jsval) (config : Config.t) (scannedAt : Z)
| Call_detachListeners
| Call_setupLiveListeners (config : Config.t) (year : jsval)
| Call_showCodeError (message : string)
| Call_showCodeSuccess (message : string)
| Call_verifyDynamicCode (userEnteredCode : string).

#[global] Instance event_eq_dec : EqDecision event.
Proof. solve_decision. Defined.

(** [new Date()]: the three readings the page takes. *)
Record date : Type := mkDate {
  getDate : Z;
  getMonth : Z;
  getFullYear : Z
}.

(** The outcome of one [ref(path).once('value')]: the read fails, or yields
    [snapshot.val()], [None] being [null]. *)
Inductive remote (A : Type) : Type :=
| ReadError
| Snapshot (val : option A).
Arguments ReadError {A}.
Arguments Snapshot {A} val.

(** [FirebaseLiveSync]: [isConnected] is written by [init] only. *)
Record FirebaseLiveSync : Type := mkSync {
  isConnected : bool
}.

(** The session token: [JSON.parse(qrDataString)].  A field the token lacks
    is [undefined]. *)
Module QRData.

Record t : Type := mk {
  qrId : jsval;
  department : jsval;
  course : jsval;
  academicYear : jsval;
  division : jsval;
  subject : jsval;
  month : jsval;
  year : jsval;
  day : jsval
}.

End QRData.

(** A record of the remote registry [mainSystem/activeQRs/<qrId>]. *)
Module ActiveQR.

Record t : Type := mk {
  expiresAt : option Z     (* [None]: no number there *)
}.

End ActiveQR.

(** The remote record [mainSystem/dynamicCode]. *)
Module DynamicCode.

Record t : Type := mk {
  code : jsval;
  expiresAt : option Z
}.

End DynamicCode.

(** [now > record.expiresAt]; against a missing [expiresAt] the comparison is
    false. *)
Definition expired (now : Z) (expiresAt : option Z) : bool :=
  match expiresAt with
  | Some e => now >? e
  | None => false
  end.

(** The object returned by [verifyDynamicCode]. *)
Module Verification.

Record t : Type := mk {
  valid : bool;
  reason : option string
}.

End Verification.

(** *** Text entered in the code field *)

Definition is_digit (c : Ascii.ascii) : bool :=
  let n := Ascii.nat_of_ascii c in
  (48 <=? n)%nat && (n <=? 57)%nat.

(** [value.replace(/[^0-9]/g, '')] *)
Fixpoint digits_only (value : string) : string :=
  match value with
  | EmptyString => EmptyString
  | String c rest =>
      if is_digit c then String c (digits_only rest) else digits_only rest
  end.

(** White space removed by [trim()]: tab, line feed, vertical tab, form feed,
    carriage return and space (the white space beyond ASCII is left out). *)
Definition is_space (c : Ascii.ascii) : bool :=
  let n := Ascii.nat_of_ascii c in
  ((9 <=? n)%nat && (n <=? 13)%nat) || (n =? 32)%nat.

Fixpoint trim_start (value : string) : string :=
  match value with
  | EmptyString => EmptyString
  | String c rest => if is_space c then trim_start rest else value
  end.

(** Drops trailing white space: a character is kept when it is no space or
    when something is kept after it. *)
Fixpoint trim_end (value : string) : string :=
  match value with
  | EmptyString => EmptyString
  | String c rest =>
      match trim_end rest with
      | EmptyString => if is_space c then EmptyString else String c EmptyString
      | kept => String c kept
      end
  end.

(** [value.trim()] *)
Definition trim (value : string) : string := trim_end (trim_start value).

(** *** Splitting and joining

    The separators of this code are ASCII characters, which occur in the
    bytes of a text only as themselves. *)

(** [s.split(sep)] for a separator of one character: at least one part. *)
Fixpoint split (sep : Ascii.ascii) (s : string) : list string :=
  match s with
  | EmptyString => [EmptyString]
  | String c rest =>
      if Ascii.eqb c sep then EmptyString :: split sep rest
      else
        match split sep rest with
        | [] => [String c EmptyString]
        | part :: parts => String c part :: parts
        end
  end.

(** [parts.join(sep)] *)
Fixpoint join (sep : string) (parts : list string) : string :=
  match parts with
  | [] => EmptyString
  | part :: rest =>
      match rest with
      | [] => part
      | _ => part +:+ sep +:+ join sep rest
      end
  end.

(** [s.includes(c)] for one character [c]. *)
Fixpoint includes (c : Ascii.ascii) (s : string) : bool :=
  match s with
  | EmptyString => false
  | String c' rest => Ascii.eqb c' c || includes c rest
  end.

(** [s.toLowerCase()] on the letters A to Z; the code compares the result
    with words in the letters a to z, which no other character lowers to. *)
Definition lower (c : Ascii.ascii) : Ascii.ascii :=
  let n := Ascii.nat_of_ascii c in
  if (65 <=? n)%nat && (n <=? 90)%nat then Ascii.ascii_of_nat (n + 32) else c.

Fixpoint toLowerCase (s : string) : string :=
  match s with
  | EmptyString => EmptyString
  | String c rest => String (lower c) (toLowerCase rest)
  end.

(** [String(v + 1)]: [+] adds numbers and appends to text. *)
Definition String_plus_one (v : jsval) : string :=
  match v with
  | JUndefined => "NaN"
  | JNull => "1"
  | JBool true => "2"
  | JBool false => "1"
  | JNum n => pretty (n + 1)
  | JStr s => s +:+ "1"
  end.

(** [s.padStart(2, '0')] *)
Definition padStart2 (s : string) : string :=
  match String.length s with
  | 0%nat => "00"
  | 1%nat => "0" +:+ s
  | _ => s
  end.

(** A [File] of a folder selection. *)
Module File.

Record t : Type := mk {
  webkitRelativePath : string;
  name : string;
  type : string;
  size : Z
}.

End File.

(** One entry of the object built by [groupFilesByStudent]. *)
Module Group.

Record t : Type := mk {
  name : string;
  files : list File.t
}.

End Group.

(** The property names every object inherits from [Object.prototype]; each
    of their values is truthy. *)
Definition Object_prototype_members : list string :=
  ["constructor"; "__defineGetter__"; "__defineSetter__"; "hasOwnProperty";
   "__lookupGetter__"; "__lookupSetter__"; "isPrototypeOf";
   "propertyIsEnumerable"; "toString"; "valueOf"; "__proto__";
   "toLocaleString"].

Module System.

Section WithNum.
Context {num : Type} `{Float32 num}.

(** [this.storage]: [cloudStorage], or [faceStorage] when the cloud is
    unavailable. *)
Inductive backend : Type :=
| Local (db : gmap string (Face.t num))
| Cloud (st : CloudStorage.t num).

Record t : Type := mk {
  userRole : jsval;
  mainSystemConfig : Config.t;
  isHandlingDayChange : bool;
  recognizedToday : gset string;
  lastAttendanceTime : gmap string Z;
  storage : backend;
  firebaseSync : option FirebaseLiveSync;
  currentQRId : jsval;
  isCameraRunning : bool;
  faceMatcher : option (list (labeled num));
  startCameraBtn_disabled : bool;
  securityCodeSection_shown : bool;
  trace : list event
}.

Definition set_mainSystemConfig (c : Config.t) (s : t) : t :=
  mk (userRole s) c (isHandlingDayChange s) (recognizedToday s)
     (lastAttendanceTime s) (storage s) (firebaseSync s) (currentQRId s)
     (isCameraRunning s) (faceMatcher s) (startCameraBtn_disabled s)
     (securityCodeSection_shown s) (trace s).

Definition set_isHandlingDayChange (b : bool) (s : t) : t :=
  mk (userRole s) (mainSystemConfig s) b (recognizedToday s)
     (lastAttendanceTime s) (storage s) (firebaseSync s) (currentQRId s)
     (isCameraRunning s) (faceMatcher s) (startCameraBtn_disabled s)
     (securityCodeSection_shown s) (trace s).

Definition set_recognizedToday (r : gset string) (s : t) : t :=
  mk (userRole s) (mainSystemConfig s) (isHandlingDayChange s) r
     (lastAttendanceTime s) (storage s) (firebaseSync s) (currentQRId s)
     (isCameraRunning s) (faceMatcher s) (startCameraBtn_disabled s)
     (securityCodeSection_shown s) (trace s).

Definition set_lastAttendanceTime (l : gmap string Z) (s : t) : t :=
  mk (userRole s) (mainSystemConfig s) (isHandlingDayChange s)
     (recognizedToday s) l (storage s) (firebaseSync s) (currentQRId s)
     (isCameraRunning s) (faceMatcher s) (startCameraBtn_disabled s)
     (securityCodeSection_shown s) (trace s).

Definition set_storage (b : backend) (s : t) : t :=
  mk (userRole s) (mainSystemConfig s) (isHandlingDayChange s)
     (recognizedToday s) (lastAttendanceTime s) b (firebaseSync s)
     (currentQRId s) (isCameraRunning s) (faceMatcher s)
     (startCameraBtn_disabled s) (securityCodeSection_shown s) (trace s).

Definition set_currentQRId (q : jsval) (s : t) : t :=
  mk (userRole s) (mainSystemConfig s) (isHandlingDayChange s)
     (recognizedToday s) (lastAttendanceTime s) (storage s) (firebaseSync s) q
     (isCameraRunning s) (faceMatcher s) (startCameraBtn_disabled s)
     (securityCodeSection_shown s) (trace s).

Definition set_isCameraRunning (b : bool) (s : t) : t :=
  mk (userRole s) (mainSystemConfig s) (isHandlingDayChange s)
     (recognizedToday s) (lastAttendanceTime s) (storage s) (firebaseSync s)
     (currentQRId s) b (faceMatcher s) (startCameraBtn_disabled s)
     (securityCodeSection_shown s) (trace s).

Definition set_faceMatcher (m : option (list (labeled num))) (s : t) : t :=
  mk (userRole s) (mainSystemConfig s) (isHandlingDayChange s)
     (recognizedToday s) (lastAttendanceTime s) (storage s) (firebaseSync s)
     (currentQRId s) (isCameraRunning s) m (startCameraBtn_disabled s)
     (securityCodeSection_shown s) (trace s).

Definition set_cameraButton (disabled shown : bool) (s : t) : t :=
  mk (userRole s) (mainSystemConfig s) (isHandlingDayChange s)
     (recognizedToday s) (lastAttendanceTime s) (storage s) (firebaseSync s)
     (currentQRId s) (isCameraRunning s) (faceMatcher s) disabled shown
     (trace s).

(** Record an event in the trace. *)
Definition emit (e : event) (s : t) : t :=
  mk (userRole s) (mainSystemConfig s) (isHandlingDayChange s)
     (recognizedToday s) (lastAttendanceTime s) (storage s) (firebaseSync s)
     (currentQRId s) (isCameraRunning s) (faceMatcher s)
     (startCameraBtn_disabled s) (securityCodeSection_shown s) (e :: trace s).

Definition showToast (message type : string) (s : t) : t :=
  emit (ShowToast message type) s.

(** The negation of [!this.firebaseSync || !this.firebaseSync.isConnected]. *)
Definition connected (s : t) : bool :=
  match firebaseSync s with
  | Some sync => isConnected sync
  | None => false
  end.

(** [this.userRole === 'student'] *)
Definition is_student (s : t) : bool := strict_eq (userRole s) (JStr "student").

(** *** Calls through [this.storage] *)

Definition storage_getAllFaces (s : t) : result (list (Face.t num)) :=
  match storage s with
  | Local db => Ok (FaceStorage.getAllFaces db)
  | Cloud st => CloudStorage.getAllFaces (mainSystemConfig s) st
  end.

Definition storage_markAttendance (now : Z) (studentId : string) (s : t)
  : result (bool * t) :=
  match storage s with
  | Local db =>
      let r := FaceStorage.markAttendance now studentId db in
      Ok (r.1, set_storage (Local r.2) s)
  | Cloud st =>
      rbind (CloudStorage.markAttendance (mainSystemConfig s) now studentId st)
            (fun r => Ok (r.1, set_storage (Cloud r.2) s))
  end.

Definition storage_resetAllAttendance (s : t) : result t :=
  match storage s with
  | Local db => Ok (set_storage (Local (FaceStorage.resetAllAttendance db)) s)
  | Cloud st =>
      rbind (CloudStorage.resetAllAttendance (mainSystemConfig s) st)
            (fun st' => Ok (set_storage (Cloud st') s))
  end.

Definition storage_getLabeledDescriptors (args : list (list (Face.t num)))
    (s : t) : result (list (labeled num)) :=
  match storage s with
  | Local db => Ok (FaceStorage.getLabeledDescriptors args db)
  | Cloud st => CloudStorage.getLabeledDescriptors args (mainSystemConfig s) st
  end.

(** How a method that can throw after changing the state ends. *)
Inductive completion : Type :=
| Normal (s : t)
| Abrupt (s : t) (e : exn).

(** The state a method leaves, however it ends. *)
Definition state_of (c : completion) : t :=
  match c with
  | Normal s => s
  | Abrupt s _ => s
  end.

(** *** Dates *)

Definition monthNames : list string :=
  ["January"; "February"; "March"; "April"; "May"; "June";
   "July"; "August"; "September"; "October"; "November"; "December"].

(** The table of [getMonthName]. *)
Definition shortMonthNames : list string :=
  ["Jan"; "Feb"; "Mar"; "Apr"; "May"; "Jun";
   "Jul"; "Aug"; "Sep"; "Oct"; "Nov"; "Dec"].

(** [array[v]] for an array of strings: the element whose index prints as the
    property key [`${v}`], [undefined] otherwise (the array's own [length]
    and inherited members are not looked up by this code's keys). *)
Definition array_get (array : list string) (v : jsval) : jsval :=
  match List.find (fun i => String.eqb (pretty (Z.of_nat i)) (ToString v))
                  (seq 0 (length array)) with
  | Some i =>
      match array !! i with
      | Some x => JStr x
      | None => JUndefined
      end
  | None => JUndefined
  end.

Definition getMonthName (monthIndex : jsval) : jsval :=
  array_get shortMonthNames monthIndex.

(** [`${day} ${monthNames[month]} ${year}`] *)
Definition date_text (day month year : jsval) : string :=
  ToString day +:+ " " +:+ ToString (array_get monthNames month) +:+ " " +:+
  ToString year.

Record dateValidation : Type := mkValidation {
  valid : bool;
  targetDay : jsval;
  targetMonth : jsval;
  targetYear : jsval;
  message : string
}.

Definition msg_not_connected : string :=
  "⚠️ Firebase not connected. Please check your connection.".

Definition msg_select_date : string :=
  "⚠️ Please select a date in the main system first!".

Definition msg_students_today_only (todayDay todayMonth todayYear
    selectedDay selectedMonth selectedYear : jsval) : string :=
  "⚠️ STUDENTS CAN ONLY MARK ATTENDANCE FOR TODAY!" +:+ nl +:+ nl +:+
  "Today is: " +:+ date_text todayDay todayMonth todayYear +:+ nl +:+
  "Main system shows: " +:+ date_text selectedDay selectedMonth selectedYear +:+
  nl +:+ nl +:+
  "You can view other dates in the main system, but face recognition only works for today.".

(** [validateDateForRole()] with [today = new Date()]. *)
Definition validateDateForRole (today : date) (s : t) : dateValidation :=
  let todayDay := JNum (getDate today) in
  let todayMonth := JNum (getMonth today) in
  let todayYear := JNum (getFullYear today) in
  if negb (connected s) then
    mkValidation false JUndefined JUndefined JUndefined msg_not_connected
  else
    let selectedDay := Config.currentDay (mainSystemConfig s) in
    let selectedMonth := Config.selectedMonth (mainSystemConfig s) in
    let selectedYear := Config.selectedYear (mainSystemConfig s) in
    if strict_eq selectedDay JNull || strict_eq selectedMonth JNull ||
       strict_eq selectedYear JNull
    then mkValidation false JUndefined JUndefined JUndefined msg_select_date
    else if is_student s then
      if strict_ne selectedDay todayDay || strict_ne selectedMonth todayMonth ||
         strict_ne selectedYear todayYear
      then
        mkValidation false JUndefined JUndefined JUndefined
          (msg_students_today_only todayDay todayMonth todayYear
             selectedDay selectedMonth selectedYear)
      else
        mkValidation true todayDay todayMonth todayYear
          ("✅ Marking attendance for TODAY (" +:+
           date_text todayDay todayMonth todayYear +:+ ")")
    else
      mkValidation true selectedDay selectedMonth selectedYear
        ("✅ Marking attendance for: " +:+
         date_text selectedDay selectedMonth selectedYear).

(** *** Camera and UI refreshes *)

(** [stopCamera()] *)
Definition stopCamera (s : t) : t :=
  emit Call_stopCamera (set_isCameraRunning false s).

(** [updateStudentList()], run to completion: it reads
    [storage.getAllFaces()] and renders; the remote overlay's failures are
    caught inside, a failing store read is not. *)
Definition updateStudentList (s : t) : completion :=
  let s := emit Call_updateStudentList s in
  match storage_getAllFaces s with
  | Ok _ => Normal s
  | Throw e => Abrupt s e
  end.

(** [updateStats()], run to completion: as [updateStudentList]. *)
Definition updateStats (s : t) : completion :=
  let s := emit Call_updateStats s in
  match storage_getAllFaces s with
  | Ok _ => Normal s
  | Throw e => Abrupt s e
  end.

(** *** Matcher construction *)

(** The predicate of [allFaces.filter(...)] in [loadFaceMatcher]. *)
Definition in_division (dept course academicYear division : jsval)
    (face : Face.t num) : bool :=
  strict_eq (Face.department face) dept &&
  strict_eq (Face.course face) course &&
  strict_eq (Face.academicYear face) academicYear &&
  strict_eq (Face.division face) division.

(** [loadFaceMatcher()]: the matcher is the list of labeled descriptors it is
    built from. *)
Definition loadFaceMatcher (s : t) : completion :=
  let s := emit Call_loadFaceMatcher s in
  match storage_getAllFaces s with
  | Throw e => Abrupt s e
  | Ok allFaces =>
      let dept := Config.selectedDepartment (mainSystemConfig s) in
      let course := Config.selectedCourse (mainSystemConfig s) in
      let academicYear := Config.selectedAcademicYear (mainSystemConfig s) in
      let division := Config.selectedDivision (mainSystemConfig s) in
      let labeledDescriptors :=
        if truthy dept && truthy course && truthy academicYear && truthy division
        then
          let divisionFaces :=
            List.filter (in_division dept course academicYear division) allFaces in
          storage_getLabeledDescriptors [divisionFaces] s
        else
          storage_getLabeledDescriptors [allFaces] s in
      match labeledDescriptors with
      | Throw e => Abrupt s e
      | Ok labeledDescriptors =>
          if (length labeledDescriptors =? 0)%nat
          then Normal (set_faceMatcher None s)
          else Normal (set_faceMatcher (Some labeledDescriptors) s)
      end
  end.

(** *** Marking attendance *)

Definition ATTENDANCE_COOLDOWN : Z := 3000.

(** [this.lastAttendanceTime] is a plain object, [{}], used as a map from
    the student id to the time of the last mark: the map holds its own
    properties.  What [this.lastAttendanceTime[studentId]] yields: the number
    stored under the id; for an id that is no own property but names a
    member of [Object.prototype], that member, a function or, for
    [__proto__], the prototype itself; [undefined] otherwise.  [__proto__] is
    never an own property. *)
Inductive lastTime_read : Type :=
| Own (lastTime : Z)
| Inherited
| Undefined.

Definition lastAttendanceTime_get (studentId : string) (s : t) : lastTime_read :=
  if String.eqb studentId "__proto__" then Inherited
  else
    match lastAttendanceTime s !! studentId with
    | Some lastTime => Own lastTime
    | None =>
        if bool_decide (studentId ∈ Object_prototype_members) then Inherited
        else Undefined
    end.

(** [this.lastAttendanceTime[studentId] = now]: an assignment of a number to
    [__proto__] changes nothing. *)
Definition lastAttendanceTime_set (studentId : string) (now : Z) (s : t) : t :=
  if String.eqb studentId "__proto__" then s
  else set_lastAttendanceTime (<[studentId := now]> (lastAttendanceTime s)) s.

(** [now - lastTime < this.ATTENDANCE_COOLDOWN] with
    [lastTime = this.lastAttendanceTime[studentId] || 0]: an inherited member
    is truthy and makes the difference [NaN], which is less than nothing. *)
Definition in_cooldown (now : Z) (studentId : string) (s : t) : bool :=
  match lastAttendanceTime_get studentId s with
  | Own lastTime => now - lastTime <? ATTENDANCE_COOLDOWN
  | Inherited => false
  | Undefined => now - 0 <? ATTENDANCE_COOLDOWN
  end.

(** [markAttendanceWithCooldown(studentId, studentName)] with
    [now = Date.now()] and [today = new Date()], run to completion. *)
Definition markAttendanceWithCooldown (now : Z) (today : date)
    (studentId studentName : string) (s : t) : completion :=
  if in_cooldown now studentId s then Normal s
  else
    let dateValidation := validateDateForRole today s in
    if negb (valid dateValidation) then
      let s := showToast ("⚠️ Date validation failed!" +:+ nl +:+
                          message dateValidation +:+ nl +:+ nl +:+
                          "Camera stopped.") "danger" s in
      Normal (stopCamera s)
    else
      let s := emit (Call_storage_markAttendance studentId) s in
      match storage_markAttendance now studentId s with
      | Throw e => Abrupt s e
      | Ok (success, s) =>
          if success then
            let s := lastAttendanceTime_set studentId now s in
            let push :=
              emit (Call_saveAttendanceToFirebase studentId studentName
                      (targetDay dateValidation)) in
            if negb (bool_decide (studentId ∈ recognizedToday s)) then
              let s := set_recognizedToday ({[studentId]} ∪ recognizedToday s) s in
              let dateStr := ToString (targetDay dateValidation) +:+ " " +:+
                             ToString (getMonthName (targetMonth dateValidation)) in
              let s := showToast ("✓ Attendance marked for " +:+ studentName +:+
                                  nl +:+ "Date: " +:+ dateStr) "success" s in
              match updateStudentList s with
              | Abrupt s e => Abrupt s e
              | Normal s => Normal (push s)
              end
            else Normal (push s)
          else Normal s
      end.

(** *** Asynchronous methods

    An [async] method started on a state runs its first synchronous segment
    and returns the state it leaves and the [task] that remains: [Fin], or
    [Await resume] when it is suspended at an [await]; [resume] runs when the
    awaited operation completes, on the state of that moment.  An awaited
    store or refresh operation takes effect atomically at its completion. *)

Inductive task : Type :=
| Fin
| Await (resume : t -> outcome)
with outcome : Type :=
| Out (s : t) (rest : task).

Definition async : Type := t -> outcome.

(** [await op(); k] inside [try { ... } catch { h }]: the call is made, the
    method is suspended; at completion [k] continues on success and [h] on a
    rejection. *)
Definition await (call : event) (complete : t -> result t) (k h : async) : async :=
  fun s =>
    Out (emit call s)
        (Await (fun s' =>
                  match complete s' with
                  | Ok s'' => k s''
                  | Throw _ => h s'
                  end)).

(** Completion of [updateStudentList()] or [updateStats()]: it rejects when
    [storage.getAllFaces()] does. *)
Definition refresh_read (s : t) : result t :=
  match storage_getAllFaces s with
  | Ok _ => Ok s
  | Throw e => Throw e
  end.

(** [this.recognizedToday.clear(); this.lastAttendanceTime = {}] *)
Definition clear_tracking (s : t) : t :=
  set_lastAttendanceTime ∅ (set_recognizedToday ∅ s).

(** The notification chosen by [handleDayChange] from its argument. *)
Definition reset_toast (newDay : string) : string :=
  if String.eqb newDay "calendar-auto-reset" then
    "📅 New calendar day! All attendance reset."
  else if String.eqb newDay "subject-change" then
    "📚 Subject changed! All attendance reset."
  else if String.eqb newDay "month-change" then
    "📅 Month changed! All attendance reset."
  else if String.eqb newDay "year-change" then
    "📅 Year changed! All attendance reset."
  else if negb (String.eqb newDay EmptyString) && String.prefix "day-" newDay then
    "📅 Day changed to Day " +:+
    String.substring 4 (String.length newDay - 4) newDay +:+
    ". Attendance reset."
  else
    "📅 Day changed to Day " +:+ newDay +:+ ". All attendance reset.".

(** [handleDayChange(newDay)] followed by [k], what its caller does after
    [await this.handleDayChange(...)].  It catches whatever its body throws,
    so it always returns to its caller. *)
Definition handleDayChange (newDay : string) (k : async) : async :=
  let catch : async :=
    fun s => k (showToast "Failed to reset attendance for new day" "danger" s) in
  fun s =>
    let s := clear_tracking s in
    await Call_storage_resetAllAttendance storage_resetAllAttendance
      (await Call_updateStudentList refresh_read
         (await Call_updateStats refresh_read
            (fun s => k (showToast (reset_toast newDay) "info" s))
            catch)
         catch)
      catch s.

Definition msg_skipping : string :=
  "⚠️ Already handling day change, skipping...".

(** The notification at the end of [handleFirebaseDayChange]. *)
Definition day_changed_toast (todayDate : Z) (newDay : jsval) (s : t) : t :=
  if is_student s then
    let today := JNum todayDate in
    if strict_ne newDay today then
      showToast ("📅 Day changed to Day " +:+ ToString newDay +:+ nl +:+ nl +:+
                 "⚠️ NOTE: As a student, you can VIEW this date," +:+ nl +:+
                 "but face recognition ONLY works for TODAY (Day " +:+
                 ToString today +:+ ")") "info" s
    else
      showToast ("📅 Day changed to TODAY (Day " +:+ ToString newDay +:+
                 "). Attendance cleared!") "info" s
  else
    showToast ("📅 Day changed to Day " +:+ ToString newDay +:+
               ". Attendance cleared!") "info" s.

(** [handleFirebaseDayChange(newDay, oldDay)], with
    [todayDate = new Date().getDate()]. *)
Definition handleFirebaseDayChange (todayDate : Z) (newDay oldDay : jsval)
  : async :=
  let finally : async := fun s => Out (set_isHandlingDayChange false s) Fin in
  let catch : async :=
    fun s => finally (showToast "Failed to handle day change" "danger" s) in
  fun s =>
    if isHandlingDayChange s then
      Out (emit (ConsoleLog msg_skipping) s) Fin
    else
      let previousDay := Config.currentDay (mainSystemConfig s) in
      let s := set_mainSystemConfig
                 (Config.set_currentDay newDay (mainSystemConfig s)) s in
      let s := emit Call_updateConfigDisplay s in
      if strict_ne newDay JNull && strict_ne newDay JUndefined &&
         strict_ne newDay previousDay
      then
        let s := set_isHandlingDayChange true s in
        let s := clear_tracking s in
        handleDayChange ("day-" +:+ ToString newDay)
          (await Call_updateStudentList refresh_read
             (await Call_updateStats refresh_read
                (fun s => finally (day_changed_toast todayDate newDay s))
                catch)
             catch)
          s
      else Out s Fin.

(** *** The event loop around the day-change handler

    A machine is the page state and the suspended handlers.  A notification
    from the [currentDay] listener starts a handler; a completion resumes the
    suspended handler it belongs to. *)

Record machine : Type := mkMachine {
  st : t;
  pending : list task
}.

Inductive input : Type :=
| DayChanged (newDay oldDay : jsval)
| Completed (i : nat).

Definition idle (s : t) : machine := mkMachine s [].

Definition deliver (todayDate : Z) (inp : input) (m : machine) : machine :=
  match inp with
  | DayChanged newDay oldDay =>
      match handleFirebaseDayChange todayDate newDay oldDay (st m) with
      | Out s Fin => mkMachine s (pending m)
      | Out s rest => mkMachine s (pending m ++ [rest])
      end
  | Completed i =>
      match pending m !! i with
      | None => m
      | Some Fin => mkMachine (st m) (delete i (pending m))
      | Some (Await resume) =>
          match resume (st m) with
          | Out s Fin => mkMachine s (delete i (pending m))
          | Out s rest => mkMachine s (<[i := rest]> (pending m))
          end
      end
  end.

Definition run (todayDate : Z) (inputs : list input) (m : machine) : machine :=
  foldl (fun m inp => deliver todayDate inp m) m inputs.

(** *** Session tokens *)

(** [enableCameraButton()]: it also hides the security code section. *)
Definition enableCameraButton (s : t) : t := set_cameraButton false false s.

(** [disableCameraButton()] *)
Definition disableCameraButton (s : t) : t :=
  set_cameraButton true (securityCodeSection_shown s) s.

(** The first of the two methods named [validateQRSession] in the class body
    (the one with the offline check and the [try]/[catch]).  The class keeps
    the later definition of a method name, so no call reaches this one. *)
Definition validateQRSession_overridden (now : Z) (read : remote ActiveQR.t)
    (s : t) : bool :=
  if negb (connected s) then false
  else
    match read with
    | Snapshot None => false
    | Snapshot (Some qrData) =>
        if expired now (ActiveQR.expiresAt qrData) then false else true
    | ReadError => true          (* On error, allow (fail open) *)
    end.

(** [validateQRSession(qrId)]: the later definition, the one [handleQRScan]
    calls.  [read] is the outcome of reading [mainSystem/activeQRs/<qrId>];
    a failed read rejects the promise. *)
Definition validateQRSession (now : Z) (read : remote ActiveQR.t) (s : t)
  : result bool :=
  match firebaseSync s with
  | None => Throw TypeError
  | Some _ =>
      match read with
      | ReadError => Throw (Error "read failed")
      | Snapshot None => Ok false
      | Snapshot (Some qrData) =>
          if expired now (ActiveQR.expiresAt qrData) then Ok false else Ok true
      end
  end.

Definition msg_invalid_qr : string :=
  "❌ INVALID QR CODE!" +:+ nl +:+ nl +:+
  "This QR code is outdated or missing required data." +:+ nl +:+ nl +:+
  "Please generate a NEW QR code from the main system.".

Definition msg_wrong_division (qrData : QRData.t) (config : Config.t) : string :=
  "❌ WRONG DIVISION!" +:+ nl +:+ nl +:+
  "This QR is for: " +:+ ToString (QRData.department qrData) +:+ "/" +:+
  ToString (QRData.course qrData) +:+ "/" +:+
  ToString (QRData.academicYear qrData) +:+ "/" +:+
  ToString (QRData.division qrData) +:+ nl +:+ nl +:+
  "Your division: " +:+ ToString (Config.selectedDepartment config) +:+ "/" +:+
  ToString (Config.selectedCourse config) +:+ "/" +:+
  ToString (Config.selectedAcademicYear config) +:+ "/" +:+
  ToString (Config.selectedDivision config) +:+ nl +:+ nl +:+
  "⚠️ You can ONLY scan QR codes for YOUR OWN division!".

Definition msg_firebase_not_connected : string :=
  "⚠️ Firebase Not Connected!" +:+ nl +:+ nl +:+
  "Cannot validate QR code without Firebase." +:+ nl +:+
  "Please check your internet connection.".

Definition msg_qr_expired : string :=
  "⚠️ QR CODE EXPIRED OR INVALID!" +:+ nl +:+ nl +:+
  "This QR code has expired or been replaced." +:+ nl +:+ nl +:+
  "Please scan a NEW QR code.".

Definition msg_qr_scanned : string :=
  "✅ QR CODE SCANNED!" +:+ nl +:+ nl +:+
  "Now enter the 4-digit security code from the teacher's screen.".

Definition msg_invalid_format : string := "❌ Invalid QR code format".

(** The comparison of the token's division with the account's. *)
Definition division_mismatch (qrData : QRData.t) (config : Config.t) : bool :=
  strict_ne (Config.selectedDepartment config) (QRData.department qrData) ||
  strict_ne (Config.selectedCourse config) (QRData.course qrData) ||
  strict_ne (Config.selectedAcademicYear config) (QRData.academicYear qrData) ||
  strict_ne (Config.selectedDivision config) (QRData.division qrData).

(** [qrData.qrId.substring(0, 8)]: a TypeError unless [qrId] is a string. *)
Definition qrId_prefix (qrId : jsval) : result string :=
  match qrId with
  | JStr id => Ok (String.substring 0 8 id)
  | _ => Throw TypeError
  end.

(** [handleQRScan(qrDataString)], run to completion, with [now = Date.now()].
    [parsed] is [JSON.parse(qrDataString)], [None] when it throws or yields
    [null] (reading [null.qrId] throws into the same handler). *)
Definition handleQRScan (now : Z) (read : remote ActiveQR.t)
    (parsed : option QRData.t) (s : t) : t :=
  let catch (s : t) : t := showToast msg_invalid_format "danger" s in
  match parsed with
  | None => catch s
  | Some qrData =>
      if negb (truthy (QRData.qrId qrData)) then
        showToast msg_invalid_qr "danger" s
      else if is_student s && division_mismatch qrData (mainSystemConfig s) then
        showToast (msg_wrong_division qrData (mainSystemConfig s)) "danger" s
      else if negb (connected s) then
        showToast msg_firebase_not_connected "danger" s
      else
        match validateQRSession now read s with
        | Throw _ => catch s
        | Ok false => showToast msg_qr_expired "danger" s
        | Ok true =>
            let s := set_currentQRId (QRData.qrId qrData) s in
            let s := emit (Call_watchQRExpiration (QRData.qrId qrData)) s in
            let s :=
              if negb (is_student s) then
                set_mainSystemConfig
                  (Config.set_division
                     (QRData.department qrData) (QRData.course qrData)
                     (QRData.academicYear qrData) (QRData.division qrData)
                     (mainSystemConfig s)) s
              else s in
            let s :=
              set_mainSystemConfig
                (Config.set_session
                   (QRData.subject qrData) (QRData.month qrData)
                   (QRData.year qrData) (QRData.day qrData)
                   (mainSystemConfig s)) s in
            let s := emit (LocalStorage_setItem (QRData.qrId qrData)
                             (mainSystemConfig s) now) s in
            let s := emit Call_detachListeners s in
            let s := emit (Call_setupLiveListeners (mainSystemConfig s)
                             (QRData.year qrData)) s in
            let s := emit Call_updateConfigDisplay s in
            if is_student s then
              let s := disableCameraButton s in
              let s := set_cameraButton (startCameraBtn_disabled s) true s in
              showToast msg_qr_scanned "info" s
            else
              let s := enableCameraButton s in
              match loadFaceMatcher s with
              | Abrupt s _ => catch s
              | Normal s =>
                  match updateStudentList s with
                  | Abrupt s _ => catch s
                  | Normal s =>
                      match updateStats s with
                      | Abrupt s _ => catch s
                      | Normal s =>
                          let divisionName :=
                            ToString (Config.selectedDepartment (mainSystemConfig s))
                            +:+ "/" +:+
                            ToString (Config.selectedCourse (mainSystemConfig s))
                            +:+ "/" +:+
                            ToString (Config.selectedAcademicYear (mainSystemConfig s))
                            +:+ "/" +:+
                            ToString (Config.selectedDivision (mainSystemConfig s)) in
                          match qrId_prefix (QRData.qrId qrData) with
                          | Throw _ => catch s
                          | Ok prefix =>
                              showToast
                                ("✅ QR CODE ACCEPTED!" +:+ nl +:+ nl +:+
                                 "Division: " +:+ divisionName +:+ nl +:+
                                 "Subject: " +:+ ToString (QRData.subject qrData)
                                 +:+ nl +:+
                                 "QR ID: " +:+ prefix +:+ "...") "success" s
                          end
                      end
                  end
              end
        end
  end.

(** *** The security code *)

(** [verifyDynamicCode(userEnteredCode)], with [now = Date.now()]; [read] is
    the outcome of reading [mainSystem/dynamicCode]. *)
Definition verifyDynamicCode (now : Z) (read : remote DynamicCode.t)
    (userEnteredCode : string) (s : t) : Verification.t :=
  if negb (connected s) then Verification.mk true None   (* Allow if offline *)
  else
    match read with
    | Snapshot None =>
        Verification.mk false
          (Some "No active code found. Ask teacher to generate a new QR code.")
    | Snapshot (Some data) =>
        if expired now (DynamicCode.expiresAt data) then
          Verification.mk false
            (Some "Code expired. Get the new code from the teacher's screen.")
        else if strict_ne (DynamicCode.code data) (JStr userEnteredCode) then
          Verification.mk false
            (Some "Wrong code. Check the number on the teacher's screen.")
        else Verification.mk true None
    | ReadError =>
        Verification.mk false (Some "Connection error. Please try again.")
    end.

(** [this.showCodeError(verification.reason)] *)
Definition showCodeError (reason : option string) (s : t) : t :=
  emit (Call_showCodeError (ToString (from_option JStr JUndefined reason))) s.

(** The [try] block of the [input] listener after a valid code and its
    [catch]: load the face data, or lock the button again. *)
Definition load_face_data (s : t) : t :=
  let catch (s : t) : t :=
    disableCameraButton
      (emit (Call_showCodeError "Failed to load face data. Please try again.")
            s) in
  match loadFaceMatcher s with
  | Abrupt s _ => catch s
  | Normal s =>
      match updateStudentList s with
      | Abrupt s _ => catch s
      | Normal s =>
          match updateStats s with
          | Abrupt s _ => catch s
          | Normal s =>
              showToast "✅ System ready! You can now start the camera."
                        "success" s
          end
      end
  end.

(** The [input] listener of the code field, run to completion: [value] is the
    text in the field when the event fires. *)
Definition codeInput_onInput (now : Z) (read : remote DynamicCode.t)
    (value : string) (s : t) : t :=
  let value := digits_only value in
  if (String.length value =? 4)%nat then
    let s := emit (Call_verifyDynamicCode value) s in
    let verification := verifyDynamicCode now read value s in
    if Verification.valid verification then
      let s := emit (Call_showCodeSuccess
                       "✅ Code verified! Loading face data...") s in
      let s := enableCameraButton s in
      load_face_data s
    else showCodeError (Verification.reason verification) s
  else s.

(** The [click] listener of the verify button, run to completion. *)
Definition verifyBtn_onClick (now : Z) (read : remote DynamicCode.t)
    (value : string) (s : t) : t :=
  let enteredCode := trim value in
  if negb (String.length enteredCode =? 4)%nat then
    emit (Call_showCodeError "Please enter a 4-digit code") s
  else
    let s := emit (Call_verifyDynamicCode enteredCode) s in
    let verification := verifyDynamicCode now read enteredCode s in
    if Verification.valid verification then
      let s := emit (Call_showCodeSuccess
                       "✅ Code verified! You can now start the camera.") s in
      enableCameraButton s
    else showCodeError (Verification.reason verification) s.

(** What the user does in the security code section: type in the field, or
    press the verify button; each with the clock and the outcome of the read
    of [mainSystem/dynamicCode] at that moment. *)
Inductive code_action : Type :=
| CodeInput (now : Z) (read : remote DynamicCode.t) (value : string)
| VerifyClick (now : Z) (read : remote DynamicCode.t) (value : string).

Definition code_step (s : t) (a : code_action) : t :=
  match a with
  | CodeInput now read value => codeInput_onInput now read value s
  | VerifyClick now read value => verifyBtn_onClick now read value s
  end.

(** *** More calls through [this.storage]

    The local store returns promises built by hand, which may never settle;
    the remote store's methods are [async] functions, which resolve or
    reject. *)

Definition storage_getFace (studentId : string) (s : t)
  : result (option (Face.t num)) :=
  match storage s with
  | Local db => Ok (FaceStorage.getFace studentId db)
  | Cloud st => CloudStorage.getFace (mainSystemConfig s) studentId st
  end.

Definition storage_saveFace (now : Z) (studentId studentName : string)
    (descriptor : list num) (imageData : string) (s : t) : settled t :=
  match storage s with
  | Local db =>
      Resolved (set_storage
                  (Local (FaceStorage.saveFace now studentId studentName
                            descriptor imageData db).2) s)
  | Cloud st =>
      match CloudStorage.saveFace (mainSystemConfig s) now studentId studentName
              descriptor imageData st with
      | Ok r => Resolved (set_storage (Cloud r.2) s)
      | Throw e => Rejected e
      end
  end.

(** The state returned beside the promise holds what the store has become,
    also when the promise does not resolve. *)
Definition storage_addFaceToExisting (now : Z) (studentId studentName : string)
    (newDescriptor : list num) (newImageData : string) (s : t)
  : settled t * t :=
  match storage s with
  | Local db =>
      let r := FaceStorage.addFaceToExisting now studentId studentName
                 newDescriptor newImageData db in
      let s' := set_storage (Local r.2) s in
      match r.1 with
      | Resolved _ => (Resolved s', s')
      | Rejected e => (Rejected e, s')
      | Unsettled => (Unsettled, s')
      end
  | Cloud st =>
      match CloudStorage.addFaceToExisting (mainSystemConfig s) now studentId
              studentName newDescriptor newImageData st with
      | Ok r => (Resolved (set_storage (Cloud r.2) s), set_storage (Cloud r.2) s)
      | Throw e => (Rejected e, s)
      end
  end.

Definition storage_clearAllFaces (s : t) : result t :=
  match storage s with
  | Local db => Ok (set_storage (Local (FaceStorage.clearAllFaces db)) s)
  | Cloud st =>
      rbind (CloudStorage.clearAllFaces (mainSystemConfig s) st)
            (fun st' => Ok (set_storage (Cloud st') s))
  end.

(** *** Recognition

    The canvas, the status badge and [unknownCount] are not part of the
    state. *)

(** [const [studentId, studentName] = bestMatch.label.split('|')] *)
Definition split_label (label : string) : string * jsval :=
  match split "|"%char label with
  | [] => (EmptyString, JUndefined)
  | [studentId] => (studentId, JUndefined)
  | studentId :: studentName :: _ => (studentId, JStr studentName)
  end.

(** One detection when its turn comes in the loop of [recognizeFaces]: what
    [faceMatcher.findBestMatch] returns for it, [label] and whether
    [distance < this.MATCH_THRESHOLD], and the clock at that moment. *)
Record detection : Type := mkDetection {
  bestMatch_label : string;
  bestMatch_within_threshold : bool;
  detected_now : Z;
  detected_today : date
}.

(** The [for (const detection of detections)] loop. *)
Fixpoint recognize_each (detections : list detection) (s : t) : completion :=
  match detections with
  | [] => Normal s
  | d :: rest =>
      if bestMatch_within_threshold d then
        let '(studentId, studentName) := split_label (bestMatch_label d) in
        match markAttendanceWithCooldown (detected_now d) (detected_today d)
                studentId (ToString studentName) s with
        | Abrupt s e => Abrupt s e
        | Normal s => recognize_each rest s
        end
      else recognize_each rest s
  end.

(** [recognizeFaces(detections)], run to completion. *)
Definition recognizeFaces (detections : list detection) (s : t) : completion :=
  let loaded :=
    match faceMatcher s with
    | None => loadFaceMatcher s
    | Some _ => Normal s
    end in
  match loaded with
  | Abrupt s e => Abrupt s e
  | Normal s =>
      match faceMatcher s with
      | None => Normal s
      | Some _ =>
          match recognize_each detections s with
          | Abrupt s e => Abrupt s e
          | Normal s => updateStats s
          end
      end
  end.

(** *** The push of one mark to the remote tree *)

(** [ref(path).update(fields)] *)
Record remote_update : Type := mkUpdate {
  update_path : string;
  update_fields : list (string * jsval)
}.

(** [`${year}-${String(month + 1).padStart(2, '0')}`] *)
Definition monthKey (year month : jsval) : string :=
  ToString year +:+ "-" +:+ padStart2 (String_plus_one month).

(** [saveAttendanceToFirebase(studentId, studentName, dateValidation)] with
    [day = dateValidation.targetDay]: the update it issues, [None] when it
    returns without one. *)
Definition saveAttendanceToFirebase (studentId studentName : string)
    (day : jsval) (s : t) : option remote_update :=
  if negb (connected s) then None
  else
    let subject := Config.selectedSubject (mainSystemConfig s) in
    let month := Config.selectedMonth (mainSystemConfig s) in
    let year := Config.selectedYear (mainSystemConfig s) in
    if negb (truthy subject) || strict_eq month JNull || strict_eq year JNull
    then None
    else
      let dept := Config.selectedDepartment (mainSystemConfig s) in
      let course := Config.selectedCourse (mainSystemConfig s) in
      let academicYear := Config.selectedAcademicYear (mainSystemConfig s) in
      let division := Config.selectedDivision (mainSystemConfig s) in
      if negb (truthy dept) || negb (truthy course) ||
         negb (truthy academicYear) || negb (truthy division)
      then None
      else
        Some (mkUpdate
                ("mainSystem/attendanceData/" +:+ ToString year +:+ "/" +:+
                 ToString dept +:+ "/" +:+ ToString course +:+ "/" +:+
                 ToString academicYear +:+ "/" +:+ ToString division +:+
                 "/months/" +:+ monthKey year month +:+ "/subjects/" +:+
                 ToString subject +:+ "/attendance/" +:+ studentId)
                [("_name", JStr studentName); (ToString day, JStr "Present")]).

(** *** Expiry of the scanned token *)

(** [handleQRExpiration(reason)] *)
Definition handleQRExpiration (reason : string) (s : t) : t :=
  let s := if isCameraRunning s then stopCamera s else s in
  let s :=
    showToast (if String.eqb reason "expired"
               then "⏰ QR Code Expired! Scan new QR."
               else "🔄 QR Replaced! Scan new QR.") "warning" s in
  set_currentQRId JNull s.

(** The [value] handler installed by [watchQRExpiration(qrId)], with
    [now = Date.now()] and [val = snapshot.val()]. *)
Definition watchQRExpiration_handler (now : Z) (val : option ActiveQR.t)
    (s : t) : t :=
  match val with
  | None => handleQRExpiration "removed" s
  | Some qrData =>
      if expired now (ActiveQR.expiresAt qrData)
      then handleQRExpiration "expired" s
      else s
  end.

(** *** Changes of subject, month, year and date *)

(** A handler run alone: every awaited operation completes before anything
    else happens. *)
Fixpoint finish (fuel : nat) (o : outcome) : option t :=
  match o with
  | Out s Fin => Some s
  | Out s (Await resume) =>
      match fuel with
      | O => None
      | S fuel' => finish fuel' (resume s)
      end
  end.

(** The end of an [async] method. *)
Definition finished : async := fun s => Out s Fin.

(** [await m(); k] for a method [m] given run to completion: it takes effect
    when it completes; what it throws ends the caller, which has no
    handler. *)
Definition await_method (m : t -> completion) (k : async) : async :=
  fun s =>
    Out s (Await (fun s' =>
                    match m s' with
                    | Normal s'' => k s''
                    | Abrupt s'' _ => Out s'' Fin
                    end)).

(** [handleFirebaseSubjectChange(newSubject, oldSubject)] *)
Definition handleFirebaseSubjectChange (newSubject oldSubject : jsval) : async :=
  fun s =>
    let s := set_mainSystemConfig
               (Config.set_selectedSubject newSubject (mainSystemConfig s)) s in
    let s := emit Call_updateConfigDisplay s in
    let s :=
      if negb (truthy newSubject)
      then showToast "⚠️ No subject selected in main system" "warning" s
      else showToast ("📚 Subject changed to: " +:+ ToString newSubject) "info" s in
    let rest := await_method loadFaceMatcher (await_method updateStudentList finished) in
    if truthy oldSubject && strict_ne oldSubject newSubject
    then handleDayChange "subject-change" rest s
    else rest s.

(** [handleFirebaseMonthChange(newMonth, oldMonth)] *)
Definition handleFirebaseMonthChange (newMonth oldMonth : jsval) : async :=
  fun s =>
    let s := set_mainSystemConfig
               (Config.set_selectedMonth newMonth (mainSystemConfig s)) s in
    let s := emit Call_updateConfigDisplay s in
    if strict_ne newMonth JNull && strict_ne newMonth JUndefined then
      let s := showToast ("📅 Month changed to: " +:+
                          ToString (array_get monthNames newMonth)) "info" s in
      if strict_ne oldMonth JNull && strict_ne oldMonth newMonth
      then handleDayChange "month-change" finished s
      else finished s
    else finished s.

(** [handleFirebaseYearChange(newYear, oldYear)] *)
Definition handleFirebaseYearChange (newYear oldYear : jsval) : async :=
  fun s =>
    let s := set_mainSystemConfig
               (Config.set_selectedYear newYear (mainSystemConfig s)) s in
    let s := emit Call_updateConfigDisplay s in
    if truthy newYear then
      let s := showToast ("📅 Year changed to: " +:+ ToString newYear) "info" s in
      if truthy oldYear && strict_ne oldYear newYear
      then handleDayChange "year-change" finished s
      else finished s
    else finished s.

(** [handleFirebaseDateChange(newDate, oldDate)] *)
Definition handleFirebaseDateChange (newDate oldDate : jsval) : async :=
  fun s =>
    let s := set_mainSystemConfig
               (Config.set_currentDate newDate (mainSystemConfig s)) s in
    finished (showToast ("📅 Date updated: " +:+ ToString newDate) "info" s).

(** The object passed to [setupLiveListeners]: the division, the year and the
    four callbacks, each taking the new and the old value. *)
Record callbacks : Type := mkCallbacks {
  cb_department : jsval;
  cb_course : jsval;
  cb_academicYear : jsval;
  cb_division : jsval;
  cb_year : jsval;
  onSubjectChange : option (jsval -> jsval -> async);
  onMonthChange : option (jsval -> jsval -> async);
  onYearChange : option (jsval -> jsval -> async);
  onDayChange : option (jsval -> jsval -> async)
}.

(** What a listener does with [snapshot.val()]:
    [if (callbacks.onChange) callbacks.onChange(newValue, null)]. *)
Definition notify (onChange : option (jsval -> jsval -> async)) (val : jsval)
  : async :=
  match onChange with
  | Some f => f val JNull
  | None => finished
  end.

(** [FirebaseLiveSync.setupLiveListeners(callbacks)] with
    [currentYear = new Date().getFullYear()]: the references it listens to and
    the listener of each. *)
Definition setupLiveListeners (sync : FirebaseLiveSync) (currentYear : Z)
    (cb : callbacks) : list (string * (jsval -> async)) :=
  if negb (isConnected sync) then []
  else
    let year := if truthy (cb_year cb) then cb_year cb else JNum currentYear in
    let dept := cb_department cb in
    let course := cb_course cb in
    let academicYear := cb_academicYear cb in
    let division := cb_division cb in
    if negb (truthy dept) || negb (truthy course) ||
       negb (truthy academicYear) || negb (truthy division)
    then []
    else
      let basePath :=
        "mainSystem/attendanceData/" +:+ ToString year +:+ "/" +:+
        ToString dept +:+ "/" +:+ ToString course +:+ "/" +:+
        ToString academicYear +:+ "/" +:+ ToString division in
      [(basePath +:+ "/selectedSubject", notify (onSubjectChange cb));
       (basePath +:+ "/selectedMonth", notify (onMonthChange cb));
       (basePath +:+ "/selectedYear", notify (onYearChange cb));
       (basePath +:+ "/currentDay", notify (onDayChange cb))].

(** The callbacks object of [handleQRScan] and of [init]: the division and
    the year given, and the four handlers of the page, with
    [todayDate = new Date().getDate()] when the day handler reads it. *)
Definition page_callbacks (todayDate : Z)
    (department course academicYear division year : jsval) : callbacks :=
  mkCallbacks department course academicYear division year
    (Some handleFirebaseSubjectChange)
    (Some handleFirebaseMonthChange)
    (Some handleFirebaseYearChange)
    (Some (handleFirebaseDayChange todayDate)).

(** *** Clearing *)

(** The page's [clearTodayAttendance()], run to completion; [confirmed] is
    the answer to the dialog. *)
Definition clearTodayAttendance (confirmed : bool) (s : t) : completion :=
  if negb confirmed then Normal s
  else
    let s := emit Call_storage_resetAllAttendance s in
    match storage_resetAllAttendance s with
    | Throw e => Abrupt s e
    | Ok s =>
        let s := clear_tracking s in
        match updateStudentList s with
        | Abrupt s e => Abrupt s e
        | Normal s =>
            match updateStats s with
            | Abrupt s e => Abrupt s e
            | Normal s => Normal (showToast "Today's attendance cleared" "info" s)
            end
        end
    end.

(** The page's [clearAllFaces()], run to completion. *)
Definition clearAllFaces (confirmed : bool) (s : t) : completion :=
  if negb confirmed then Normal s
  else
    match storage_clearAllFaces s with
    | Throw e => Abrupt s e
    | Ok s =>
        let s := set_faceMatcher None s in
        let s := clear_tracking s in
        match updateStudentList s with
        | Abrupt s e => Abrupt s e
        | Normal s =>
            match updateStats s with
            | Abrupt s e => Abrupt s e
            | Normal s => Normal (showToast "All faces cleared" "warning" s)
            end
        end
    end.

(** *** Registration by the camera *)

(** [showFaceExistsDialog(existingFace)]: [choice] is what [prompt] returns,
    [None] for [null]; [confirmed] is the answer to [confirm]. *)
Definition showFaceExistsDialog (choice : option string) (confirmed : bool)
  : string :=
  match choice with
  | None => "cancel"
  | Some choice =>
      if String.eqb choice EmptyString then "cancel"
      else
        let action := toLowerCase (trim choice) in
        if String.eqb action "replace" then
          if confirmed then "replace" else "cancel"
        else if String.eqb action "add" then "add"
        else "cancel"
  end.

(** What the [catch] block of [captureFace] receives. *)
Inductive capture_error : Type :=
| Thrown (e : exn)
| ReferenceError (identifier : string).

(** How [captureFace] ends: it returns; its [catch] block shows
    ['Failed to capture face: ' + error.message]; or it waits for a promise
    that never settles. *)
Inductive captured : Type :=
| Captured (s : t)
| CaptureFailed (s : t) (e : capture_error)
| CaptureSuspended (s : t).

(** The refreshes after a save. *)
Definition capture_refresh (s : t) : captured :=
  match loadFaceMatcher s with
  | Abrupt s e => CaptureFailed s (Thrown e)
  | Normal s =>
      match updateStudentList s with
      | Abrupt s e => CaptureFailed s (Thrown e)
      | Normal s =>
          match updateStats s with
          | Abrupt s e => CaptureFailed s (Thrown e)
          | Normal s => Captured s
          end
      end
  end.

(** [captureFace()], run to completion.  [studentIdInput] and
    [studentNameInput] are the values of the two fields, [choice] and
    [confirmed] the answers to the dialogs, [detection] the descriptor of the
    face detected, [None] without a face, [imageData] the image captured.
    The [action] chosen in the dialog is a [const] of the first
    [if (existingFace)] block; the [action] read in the second one is looked
    up in the global scope: [action_global] is the value found there, [None]
    when no global of that name exists. *)
Definition captureFace (now : Z) (studentIdInput studentNameInput : string)
    (choice : option string) (confirmed : bool)
    (detection : option (list num)) (imageData : string)
    (action_global : option jsval) (s : t) : captured :=
  let studentId := trim studentIdInput in
  let studentName := trim studentNameInput in
  if String.eqb studentId EmptyString || String.eqb studentName EmptyString then
    Captured (showToast "Please enter both Student ID and Name" "warning" s)
  else
    let dept := Config.selectedDepartment (mainSystemConfig s) in
    let course := Config.selectedCourse (mainSystemConfig s) in
    let academicYear := Config.selectedAcademicYear (mainSystemConfig s) in
    let division := Config.selectedDivision (mainSystemConfig s) in
    if negb (truthy dept) || negb (truthy course) ||
       negb (truthy academicYear) || negb (truthy division)
    then
      Captured (showToast "⚠️ Please select Department, Course, Academic Year, and Division in the main system first!" "warning" s)
    else
      match storage_getFace studentId s with
      | Throw e => CaptureFailed s (Thrown e)
      | Ok existingFace =>
          let cancelled :=
            match existingFace with
            | Some _ => String.eqb (showFaceExistsDialog choice confirmed) "cancel"
            | None => false
            end in
          if cancelled then Captured (showToast "Registration cancelled" "info" s)
          else
            match detection with
            | None =>
                Captured (showToast "No face detected. Please face the camera."
                                    "warning" s)
            | Some descriptor =>
                let who := studentName +:+ " (" +:+ studentId +:+ ")" in
                match existingFace with
                | Some _ =>
                    match action_global with
                    | None => CaptureFailed s (ReferenceError "action")
                    | Some action =>
                        if strict_eq action (JStr "replace") then
                          match storage_saveFace now studentId studentName
                                  descriptor imageData s with
                          | Resolved s =>
                              capture_refresh
                                (showToast ("✓ Face replaced for " +:+ who)
                                           "success" s)
                          | Rejected e => CaptureFailed s (Thrown e)
                          | Unsettled => CaptureSuspended s
                          end
                        else if strict_eq action (JStr "add") then
                          match storage_addFaceToExisting now studentId
                                  studentName descriptor imageData s with
                          | (Resolved s, _) =>
                              capture_refresh
                                (showToast ("✓ Face added to existing record for "
                                            +:+ who) "success" s)
                          | (Rejected e, s) => CaptureFailed s (Thrown e)
                          | (Unsettled, s) => CaptureSuspended s
                          end
                        else Captured s
                    end
                | None =>
                    match storage_saveFace now studentId studentName
                            descriptor imageData s with
                    | Resolved s =>
                        capture_refresh
                          (showToast ("✓ Face registered for " +:+ who)
                                     "success" s)
                    | Rejected e => CaptureFailed s (Thrown e)
                    | Unsettled => CaptureSuspended s
                    end
                end
            end
      end.

(** *** Folder import *)

(** [isValidImageFile(file)] *)
Definition isValidImageFile (file : File.t) : bool :=
  let validTypes := ["image/jpeg"; "image/jpg"; "image/png"] in
  let maxSize := 10 * 1024 * 1024 in
  if negb (bool_decide (File.type file ∈ validTypes)) then false
  else if File.size file >? maxSize then false
  else true.

(** The student id and name read from a folder name: [ID_Name], or the
    whole name for both. *)
Definition parse_folder (folderName : string) : string * string :=
  if includes "_"%char folderName then
    let parts := split "_"%char folderName in
    (trim (hd EmptyString parts), trim (join "_" (tl parts)))
  else (trim folderName, trim folderName).

(** The body of the [forEach] of [groupFilesByStudent] for one file.
    [grouped] starts as [{}]: [grouped[studentId]] of a name inherited from
    [Object.prototype] is truthy and has no [files], and [push] on it is a
    TypeError. *)
Definition group_file (file : File.t) (grouped : gmap string Group.t)
  : result (gmap string Group.t) :=
  let pathParts := split "/"%char (File.webkitRelativePath file) in
  if (length pathParts <? 3)%nat then Ok grouped
  else
    let folderName := nth 1 pathParts EmptyString in
    let '(studentId, studentName) := parse_folder folderName in
    if negb (isValidImageFile file) then Ok grouped
    else
      match grouped !! studentId with
      | Some g =>
          Ok (<[studentId := Group.mk (Group.name g) (Group.files g ++ [file])%list]>
                grouped)
      | None =>
          if bool_decide (studentId ∈ Object_prototype_members)
          then Throw TypeError
          else Ok (<[studentId := Group.mk studentName [file]]> grouped)
      end.

(** [groupFilesByStudent(files)] *)
Definition groupFilesByStudent (files : list File.t)
  : result (gmap string Group.t) :=
  foldl (fun grouped file => rbind grouped (group_file file)) (Ok ∅) files.

End WithNum.

Arguments t num : clear implicits.
Arguments backend num : clear implicits.
Arguments completion num : clear implicits.
Arguments task num : clear implicits.
Arguments outcome num : clear implicits.
Arguments machine num : clear implicits.
Arguments async num : clear implicits.

End System.

(** ** leave.js: leave applications

    The applications of a division live under one remote node, or, without
    the cloud, under the key [leaveApplications] of the page's local
    database; both are maps from the leave id to the application.  Reads and
    writes succeed.  A remote [update] is applied to the application stored
    under the id: the ids passed to the functions below come from the list
    loaded from that very node. *)

Module Leave.

Record application : Type := mkApplication {
  studentId : string;
  studentName : string;
  fromDate : string;
  toDate : string;
  days : list Z;
  month : Z;
  year : Z;
  reason : string;
  status : string;
  submittedBy : string;
  submittedAt : Z;
  approvedBy : option string;
  approvedAt : option Z;
  rejectedBy : option string;
  rejectedAt : option Z
}.

(** [{ ...leave, status: 'approved', approvedBy, approvedAt }] *)
Definition approved (by_ : string) (at_ : Z) (l : application) : application :=
  mkApplication (studentId l) (studentName l) (fromDate l) (toDate l) (days l)
    (month l) (year l) (reason l) "approved" (submittedBy l) (submittedAt l)
    (Some by_) (Some at_) (rejectedBy l) (rejectedAt l).

(** [{ ...leave, status: 'rejected', rejectedBy, rejectedAt }] *)
Definition rejected (by_ : string) (at_ : Z) (l : application) : application :=
  mkApplication (studentId l) (studentName l) (fromDate l) (toDate l) (days l)
    (month l) (year l) (reason l) "rejected" (submittedBy l) (submittedAt l)
    (approvedBy l) (approvedAt l) (Some by_) (Some at_).

(** [appState] *)
Record appState : Type := mkAppState {
  selectedDepartment : jsval;
  selectedCourse : jsval;
  selectedAcademicYear : jsval;
  selectedDivision : jsval;
  selectedMonth : jsval;
  selectedYear : jsval;
  selectedSubject : jsval
}.

(** The page: [appState], [useCloud], the remote tree, the local database
    entry ([None] when it was never saved), [leaveState] and the alerts
    shown, most recent first. *)
Record t : Type := mk {
  app : appState;
  useCloud : bool;
  firebaseDB : gmap string (gmap string application);
  localDB : option (gmap string application);
  applications : list (string * application);
  filter_status : string;
  filter_month : string;
  alerts : list (string * string)
}.

Definition set_firebaseDB (d : gmap string (gmap string application)) (s : t) : t :=
  mk (app s) (useCloud s) d (localDB s) (applications s)
     (filter_status s) (filter_month s) (alerts s).

Definition set_localDB (d : option (gmap string application)) (s : t) : t :=
  mk (app s) (useCloud s) (firebaseDB s) d (applications s)
     (filter_status s) (filter_month s) (alerts s).

Definition set_applications (a : list (string * application)) (s : t) : t :=
  mk (app s) (useCloud s) (firebaseDB s) (localDB s) a
     (filter_status s) (filter_month s) (alerts s).

Definition showAlert (message type : string) (s : t) : t :=
  mk (app s) (useCloud s) (firebaseDB s) (localDB s) (applications s)
     (filter_status s) (filter_month s) ((message, type) :: alerts s).

(** [getLeaveApplicationsPath()] *)
Definition getLeaveApplicationsPath (a : appState) : option string :=
  let year := selectedYear a in
  let dept := selectedDepartment a in
  let course := selectedCourse a in
  let academicYear := selectedAcademicYear a in
  let division := selectedDivision a in
  if negb (truthy year) || negb (truthy dept) || negb (truthy course) ||
     negb (truthy academicYear) || negb (truthy division)
  then None
  else Some ("mainSystem/attendanceData/" +:+ ToString year +:+ "/" +:+
             ToString dept +:+ "/" +:+ ToString course +:+ "/" +:+
             ToString academicYear +:+ "/" +:+ ToString division +:+
             "/leaveApplications").

(** The map of applications the page reads: [snapshot.val() || {}] or
    [await loadFromDatabase('leaveApplications') || {}]. *)
Definition stored (leavePath : string) (s : t) : gmap string application :=
  if useCloud s then default ∅ (firebaseDB s !! leavePath)
  else default ∅ (localDB s).

(** The order of [sort((a, b) => b.submittedAt - a.submittedAt)]. *)
Definition later_first (a b : string * application) : Prop :=
  submittedAt b.2 <= submittedAt a.2.

#[global] Instance later_first_dec : RelDecision later_first.
Proof. intros a b. unfold later_first. apply _. Defined.

(** [loadLeaveApplications()]: the list holds every stored application with
    its id, latest submission first. *)
Definition loadLeaveApplications (s : t) : t :=
  match getLeaveApplicationsPath (app s) with
  | None => set_applications [] s
  | Some leavePath =>
      set_applications
        (merge_sort later_first (map_to_list (stored leavePath s))) s
  end.

(** [leaveState.applications.find(l => l.id === leaveId)] *)
Definition find_application (leaveId : string) (s : t) : option application :=
  snd <$> List.find (fun l => String.eqb l.1 leaveId) (applications s).

(** The write shared by [approveLeave] and [rejectLeave]: the remote
    [update], or the local read, merge and save when the id is there. *)
Definition update_application (leavePath leaveId : string)
    (f : application -> application) (s : t) : t :=
  if useCloud s then
    set_firebaseDB (alter (alter f leaveId) leavePath (firebaseDB s)) s
  else
    let allLeaves := default ∅ (localDB s) in
    match allLeaves !! leaveId with
    | Some l => set_localDB (Some (<[leaveId := f l]> allLeaves)) s
    | None => s
    end.

(** [approveLeave(leaveId)]: [confirmed] is the answer to the dialog, [user]
    the e-mail of the current user, [None] when it cannot be read, [now] the
    clock. *)
Definition approveLeave (confirmed : bool) (user : option string) (now : Z)
    (leaveId : string) (s : t) : t :=
  match find_application leaveId s with
  | None => showAlert "Leave application not found" "danger" s
  | Some leave =>
      if negb confirmed then s
      else
        let approvedBy := default "unknown" user in
        match getLeaveApplicationsPath (app s) with
        | None =>
            showAlert "Cannot approve leave: division context incomplete"
                      "danger" s
        | Some leavePath =>
            let s := update_application leavePath leaveId
                       (approved approvedBy now) s in
            let s := loadLeaveApplications s in
            showAlert ("Leave approved for " +:+ studentName leave) "success" s
        end
  end.

(** [rejectLeave(leaveId)] *)
Definition rejectLeave (confirmed : bool) (user : option string) (now : Z)
    (leaveId : string) (s : t) : t :=
  match find_application leaveId s with
  | None => showAlert "Leave application not found" "danger" s
  | Some leave =>
      if negb confirmed then s
      else
        let rejectedBy := default "unknown" user in
        match getLeaveApplicationsPath (app s) with
        | None =>
            showAlert "Cannot reject leave: division context incomplete"
                      "danger" s
        | Some leavePath =>
            let s := update_application leavePath leaveId
                       (rejected rejectedBy now) s in
            let s := loadLeaveApplications s in
            showAlert ("Leave rejected for " +:+ studentName leave) "info" s
        end
  end.

(** [deleteLeave(leaveId)] *)
Definition deleteLeave (confirmed : bool) (leaveId : string) (s : t) : t :=
  match find_application leaveId s with
  | None => showAlert "Leave application not found" "danger" s
  | Some leave =>
      if negb confirmed then s
      else
        match getLeaveApplicationsPath (app s) with
        | None =>
            showAlert "Cannot delete leave: division context incomplete"
                      "danger" s
        | Some leavePath =>
            let s :=
              if useCloud s then
                set_firebaseDB
                  (alter (delete leaveId) leavePath (firebaseDB s)) s
              else
                set_localDB (Some (delete leaveId (default ∅ (localDB s)))) s in
            let s := loadLeaveApplications s in
            showAlert "Leave application deleted" "info" s
        end
  end.

(** The buttons of a table row, each an [onclick] call. *)
Inductive action : Type :=
| Call_approveLeave (leaveId : string)
| Call_rejectLeave (leaveId : string)
| Call_deleteLeave (leaveId : string).

(** The [actionButtons] of the row of one application. *)
Definition actionButtons (leaveId : string) (leave : application) : list action :=
  if String.eqb (status leave) "pending"
  then [Call_approveLeave leaveId; Call_rejectLeave leaveId]
  else [Call_deleteLeave leaveId].

(** [renderLeaveTable()]: the buttons of the rows shown under the filters. *)
Definition renderLeaveTable (s : t) : list (list action) :=
  let filteredLeaves := applications s in
  let filteredLeaves :=
    if negb (String.eqb (filter_status s) "all")
    then List.filter (fun l => String.eqb (status l.2) (filter_status s))
                     filteredLeaves
    else filteredLeaves in
  let filteredLeaves :=
    if String.eqb (filter_month s) "current"
    then List.filter
           (fun l => strict_eq (JNum (month l.2)) (selectedMonth (app s)) &&
                     strict_eq (JNum (year l.2)) (selectedYear (app s)))
           filteredLeaves
    else filteredLeaves in
  (fun l => actionButtons l.1 l.2) <$> filteredLeaves.

(** A click on a button of the table. *)
Definition click (confirmed : bool) (user : option string) (now : Z)
    (a : action) (s : t) : t :=
  match a with
  | Call_approveLeave leaveId => approveLeave confirmed user now leaveId s
  | Call_rejectLeave leaveId => rejectLeave confirmed user now leaveId s
  | Call_deleteLeave leaveId => deleteLeave confirmed leaveId s
  end.

(** [validateDivisionContext()]: [valid] and [missing]. *)
Definition validateDivisionContext (a : appState) : bool * list string :=
  let missing :=
    ((if negb (truthy (selectedDepartment a)) then ["Department"] else []) ++
     (if negb (truthy (selectedCourse a)) then ["Course"] else []) ++
     (if negb (truthy (selectedAcademicYear a)) then ["Academic Year"] else []) ++
     (if negb (truthy (selectedDivision a)) then ["Division"] else []) ++
     (if strict_eq (selectedMonth a) JNull then ["Month"] else []) ++
     (if strict_eq (selectedYear a) JNull then ["Year"] else []))%list in
  ((length missing =? 0)%nat, missing).

(** The numbers [updateStats()] writes to the page, under the ids of their
    elements. *)
Record counters : Type := mkCounters {
  statsTotalLeaves : nat;
  statsPendingLeaves : nat;
  statsApprovedLeaves : nat;
  statsRejectedLeaves : nat
}.

Definition count_status (st : string) (s : t) : nat :=
  length (List.filter (fun l => String.eqb (status l.2) st) (applications s)).

(** [updateStats()] *)
Definition updateStats (s : t) : counters :=
  mkCounters (length (applications s))
             (count_status "pending" s)
             (count_status "approved" s)
             (count_status "rejected" s).

End Leave.

(** ** Notions used to state the properties *)

Section Notions.
Context {num : Type} `{Float32 num}.

(** The children of one node after a list of field writes. *)
Definition apply_writes (updates : list (string * CloudStorage.field_write))
    (facesData : gmap string (Face.t num)) : gmap string (Face.t num) :=
  foldl (fun fd u => alter (CloudStorage.write_field u.2) u.1 fd) facesData updates.

(** The writes [resetAllAttendance] collects for the student ids [ids]. *)
Definition reset_writes (ids : list string)
  : list (string * CloudStorage.field_write) :=
  flat_map (fun studentId =>
              [(studentId, CloudStorage.Field_attendanceToday false);
               (studentId, CloudStorage.Field_lastSeen None)]) ids.

(** The record the remote backend addresses for [studentId] under the
    current division, if any. *)
Definition cloud_record (config : Config.t) (studentId : string)
    (st : CloudStorage.t num) : option (Face.t num) :=
  CloudStorage.getFacesRef config ≫=
    (fun facesRef => CloudStorage.child facesRef studentId (CloudStorage.db st)).

(** What a reset must do to the list [getAllFaces] returns: every person is
    still there with the same [id] and [descriptors] and is not present, and
    nobody else is there. *)
Definition reset_view (before after : list (Face.t num)) : Prop :=
  (forall P, P ∈ before ->
     exists P', P' ∈ after /\ Face.id P' = Face.id P /\
                Face.descriptors P' = Face.descriptors P /\
                Face.attendanceToday P' = false) /\
  (forall P', P' ∈ after ->
     Face.attendanceToday P' = false /\
     exists P, P ∈ before /\ Face.id P = Face.id P').

(** How many times the trace records [e]. *)
Definition calls (e : event) (s : System.t num) : nat :=
  count_occ event_eq_dec (System.trace s) e.

(** What a segment of a day-change handler for day [d1] may do to the state
    [s] it is resumed on: it leaves the context day alone and makes no call of
    [resetAllAttendance]; of the [a] calls of [updateStudentList] and the [b]
    calls of [updateStats] it may still make, [a'] and [b'] are left to the
    rest. *)
Definition segment_effect (d1 : jsval) (a b a' b' : nat)
    (s s' : System.t num) : Prop :=
  Config.currentDay (System.mainSystemConfig s') = d1 /\
  calls Call_storage_resetAllAttendance s' =
    calls Call_storage_resetAllAttendance s /\
  (calls Call_updateStudentList s' + a' <= calls Call_updateStudentList s + a)%nat /\
  (calls Call_updateStats s' + b' <= calls Call_updateStats s + b)%nat.

(** [inflight d1 n a b task]: a suspended day-change handler for day [d1]
    that, resumed while the guard is set, keeps the guard set until it
    finishes, clears it when it does, and finishes within [n] completions. *)
Inductive inflight (d1 : jsval) : nat -> nat -> nat -> System.task num -> Prop :=
| inflight_await (n a b : nat) (resume : System.t num -> System.outcome num) :
    (forall s,
        System.isHandlingDayChange s = true ->
        Config.currentDay (System.mainSystemConfig s) = d1 ->
        resumed d1 n a b s (resume s)) ->
    inflight d1 (S n) a b (System.Await resume)
with resumed (d1 : jsval)
  : nat -> nat -> nat -> System.t num -> System.outcome num -> Prop :=
| resumed_finished (n a b : nat) (s s' : System.t num) :
    segment_effect d1 a b 0 0 s s' ->
    System.isHandlingDayChange s' = false ->
    resumed d1 n a b s (System.Out s' System.Fin)
| resumed_suspended (n a b a' b' : nat) (s s' : System.t num)
    (rest : System.task num) :
    segment_effect d1 a b a' b' s s' ->
    System.isHandlingDayChange s' = true ->
    inflight d1 n a' b' rest ->
    resumed d1 n a b s (System.Out s' rest).

(** The same for a method positioned at a synchronous point. *)
Definition async_inflight (d1 : jsval) (n a b : nat) (k : System.async num) : Prop :=
  forall s,
    System.isHandlingDayChange s = true ->
    Config.currentDay (System.mainSystemConfig s) = d1 ->
    resumed d1 n a b s (k s).

(** A state change that the day-change bookkeeping does not see: the guard,
    the context and the traced calls of the store reset and of the two
    refreshes are the same. *)
Definition unobserved (s s' : System.t num) : Prop :=
  System.isHandlingDayChange s' = System.isHandlingDayChange s /\
  System.mainSystemConfig s' = System.mainSystemConfig s /\
  calls Call_storage_resetAllAttendance s' =
    calls Call_storage_resetAllAttendance s /\
  calls Call_updateStudentList s' = calls Call_updateStudentList s /\
  calls Call_updateStats s' = calls Call_updateStats s.

(** [text] occurs in [message]. *)
Definition names (message text : string) : Prop :=
  exists before after, message = before +:+ text +:+ after.

(** The code an action submits for verification. *)
Definition entered_code (a : System.code_action) : string :=
  match a with
  | System.CodeInput _ _ value => digits_only value
  | System.VerifyClick _ _ value => trim value
  end.

(** The action submits four characters that are strictly equal to the code of
    the remote record it reads, and that record has not expired then. *)
Definition code_matches (a : System.code_action) : Prop :=
  let '(now, read) :=
    match a with
    | System.CodeInput now read _ => (now, read)
    | System.VerifyClick now read _ => (now, read)
    end in
  exists data,
    read = Snapshot (Some data) /\
    DynamicCode.code data = JStr (entered_code a) /\
    String.length (entered_code a) = 4%nat /\
    expired now (DynamicCode.expiresAt data) = false.

(** One call of a method of the remote store that writes. *)
Inductive cloud_op : Type :=
| Op_saveFace (now : Z) (studentId studentName : string)
    (descriptor : list num) (imageData : string)
| Op_addFaceToExisting (now : Z) (studentId studentName : string)
    (newDescriptor : list num) (newImageData : string)
| Op_saveBulkFaces (now : Z) (studentId studentName : string)
    (descriptors : list (list num)) (sampleFile : option string)
| Op_addBulkFacesToExisting (now : Z) (studentId studentName : string)
    (newDescriptors : list (list num)) (sampleFile : option string)
| Op_deleteFace (studentId : string)
| Op_clearAllFaces
| Op_markAttendance (now : Z) (studentId : string)
| Op_resetAllAttendance.

(** The store after the call, or what the call throws. *)
Definition cloud_run (config : Config.t) (op : cloud_op)
    (st : CloudStorage.t num) : result (CloudStorage.t num) :=
  match op with
  | Op_saveFace now studentId studentName descriptor imageData =>
      rbind (CloudStorage.saveFace config now studentId studentName
               descriptor imageData st) (fun r => Ok r.2)
  | Op_addFaceToExisting now studentId studentName newDescriptor newImageData =>
      rbind (CloudStorage.addFaceToExisting config now studentId studentName
               newDescriptor newImageData st) (fun r => Ok r.2)
  | Op_saveBulkFaces now studentId studentName descriptors sampleFile =>
      rbind (CloudStorage.saveBulkFaces config now studentId studentName
               descriptors sampleFile st) (fun r => Ok r.2)
  | Op_addBulkFacesToExisting now studentId studentName newDescriptors sampleFile =>
      rbind (CloudStorage.addBulkFacesToExisting config now studentId studentName
               newDescriptors sampleFile st) (fun r => Ok r.2)
  | Op_deleteFace studentId => CloudStorage.deleteFace config studentId st
  | Op_clearAllFaces => CloudStorage.clearAllFaces config st
  | Op_markAttendance now studentId =>
      rbind (CloudStorage.markAttendance config now studentId st)
            (fun r => Ok r.2)
  | Op_resetAllAttendance => CloudStorage.resetAllAttendance config st
  end.

(** [c] does not occur in [s]. *)
Definition free_of (c : Ascii.ascii) (s : string) : Prop := includes c s = false.

(** The files of [files], in their order, that [groupFilesByStudent] keeps
    for the student id [studentId]: those with a path of three parts or more
    whose folder names that id and that are valid images. *)
Definition kept_for (studentId : string) (files : list File.t) : list File.t :=
  List.filter
    (fun file =>
       let pathParts := split "/"%char (File.webkitRelativePath file) in
       negb (length pathParts <? 3)%nat &&
       System.isValidImageFile file &&
       String.eqb (System.parse_folder (nth 1 pathParts EmptyString)).1 studentId)
    files.

End Notions.

(** ** Concrete data for the examples *)

Module Examples.

Definition asha : Face.t Z :=
  Face.mk "101" "Asha" (Some [[1; 2; 3]]) None "img-101" 1000 true (Some 5000)
          (JStr "CS") (JStr "BTech") (JStr "2024") (JStr "A").

(** A record of another division. *)
Definition bala : Face.t Z :=
  Face.mk "201" "Bala" (Some [[7; 8; 9]]) None "img-201" 1100 false None
          (JStr "CS") (JStr "BTech") (JStr "2024") (JStr "B").

(** A legacy record: a single [descriptor], no [descriptors]. *)
Definition ravi : Face.t Z :=
  Face.mk "102" "Ravi" None (Some [4; 5; 6]) "img-102" 900 true (Some 4000)
          JUndefined JUndefined JUndefined JUndefined.

Definition local_db : gmap string (Face.t Z) :=
  <["101" := asha]> (<["102" := ravi]> ∅).

Definition config_CS_A : Config.t :=
  Config.mk JNull (JStr "Maths") (JNum 10) (JNum 2026) (JNum 5)
            (JStr "CS") (JStr "BTech") (JStr "2024") (JStr "A").

Definition cloud_st : CloudStorage.t Z :=
  CloudStorage.mk {[ "faces/CS/BTech/2024/A" := {[ "101" := asha ]} ]} true.

Definition cloud_legacy_st : CloudStorage.t Z :=
  CloudStorage.mk {[ "faces/CS/BTech/2024/A" := {[ "102" := ravi ]} ]} true.

(** Two people enrolled through the local store, whose [saveFace] writes no
    division fields. *)
Definition local_asha : Face.t Z :=
  Face.mk "101" "Asha" (Some [[1; 2; 3]]) None "img-101" 1000 false None
          JUndefined JUndefined JUndefined JUndefined.

Definition local_bala : Face.t Z :=
  Face.mk "201" "Bala" (Some [[7; 8; 9]]) None "img-201" 1100 false None
          JUndefined JUndefined JUndefined JUndefined.

(** A teacher's page on the local store, connected, context on division
    CS/BTech/2024/A and day 5. *)
Definition teacher_page : System.t Z :=
  System.mk (JStr "teacher") config_CS_A false ∅ ∅
            (System.Local (<["101" := local_asha]> (<["201" := local_bala]> ∅)))
            (Some (mkSync true)) JNull false None false false [].

(** Two day-change notifications, for day 6 and then for day 7, the second
    one delivered after [k] completions of the first handler, and five more
    completions. *)
Definition two_notifications (k : nat) : list System.input :=
  System.DayChanged (JNum 6) JNull :: repeat (System.Completed 0%nat) k ++
  System.DayChanged (JNum 7) JNull :: repeat (System.Completed 0%nat) 5.

(** A student's page: the context shows day 5 of November 2026. *)
Definition student_page : System.t Z :=
  System.mk (JStr "student") config_CS_A false ∅ {[ "101" := 99000 ]}
            (System.Local (<["101" := asha]> ∅))
            (Some (mkSync true)) (JStr "qr-1") true None false false [].



(** Tokens for division A and for division B of the same course. *)
Definition token_A : QRData.t :=
  QRData.mk (JStr "qr-0001-abcdef") (JStr "CS") (JStr "BTech") (JStr "2024")
            (JStr "A") (JStr "Physics") (JNum 10) (JNum 2026) (JNum 12).

Definition token_B : QRData.t :=
  QRData.mk (JStr "qr-0002-abcdef") (JStr "CS") (JStr "BTech") (JStr "2024")
            (JStr "B") (JStr "Physics") (JNum 10) (JNum 2026) (JNum 12).

(** The registry entry of a token that expires at time 5000. *)
Definition live_entry : remote ActiveQR.t :=
  Snapshot (Some (ActiveQR.mk (Some 5000))).

(** A teacher's page without a live remote connection. *)
Definition teacher_page_offline : System.t Z :=
  System.mk (JStr "teacher") config_CS_A false ∅ ∅
            (System.Local (<["101" := asha]> ∅))
            None JNull false None false false [].

(** The current code 4821, valid until time 9000. *)
Definition current_code : remote DynamicCode.t :=
  Snapshot (Some (DynamicCode.mk (JStr "4821") (Some 9000))).

(** Leave applications of student 101: one pending, one rejected. *)
Definition leave_pending : Leave.application :=
  Leave.mkApplication "101" "Asha" "2026-11-03" "2026-11-05" [3; 4; 5] 10 2026
    "Family function" "pending" "teacher@example.org" 1000 None None None None.

Definition leave_rejected : Leave.application :=
  Leave.mkApplication "101" "Asha" "2026-11-10" "2026-11-10" [10] 10 2026
    "Travel" "rejected" "teacher@example.org" 2000 None None
    (Some "head@example.org") (Some 2500).

Definition leave_path : string :=
  "mainSystem/attendanceData/2026/CS/BTech/2024/A/leaveApplications".

(** The leave page of division CS/BTech/2024/A on the cloud, its list
    loaded. *)
Definition leave_page : Leave.t :=
  Leave.loadLeaveApplications
    (Leave.mk
       (Leave.mkAppState (JStr "CS") (JStr "BTech") (JStr "2024") (JStr "A")
                         (JNum 10) (JNum 2026) (JStr "Maths"))
       true
       {[ leave_path := {[ "leave_1000" := leave_pending;
                           "leave_2000" := leave_rejected ]} ]}
       None [] "all" "current" []).

End Examples.

(** ** Notions for the folder import *)

(** The folder a file lies in: the second part of its path. *)
Definition folder_of (file : File.t) : string :=
  nth 1 (split "/"%char (File.webkitRelativePath file)) EmptyString.

(** The group the import must hold for [studentId]: none when no file is
    kept for that id; otherwise the files kept, in their order, under the
    name read from the folder of the first of them. *)
Definition group_of (studentId : string) (files : list File.t)
  : option Group.t :=
  match kept_for studentId files with
  | [] => None
  | first :: _ =>
      Some (Group.mk (System.parse_folder (folder_of first)).2
                     (kept_for studentId files))
  end.

(** ** Notions for the remote tree

    The model of the remote store keeps, for each division path, the map from
    the student id to the record.  That is what the tree holds when every
    student id is one key of the tree and every division field is one level
    of the path: a [/] in either would address a deeper node, and the tree
    refuses the other characters excluded here. *)

Definition key_char (c : Ascii.ascii) : bool :=
  negb (bool_decide (c ∈ ["/"%char; "."%char; "#"%char; "$"%char;
                          "["%char; "]"%char])) &&
  negb (Ascii.nat_of_ascii c <? 32)%nat &&
  negb (Ascii.nat_of_ascii c =? 127)%nat.

(** [k] is one key of the remote tree. *)
Definition valid_key (k : string) : bool :=
  negb (String.eqb k EmptyString) &&
  forallb key_char (String.list_ascii_of_string k).

(** Each division field of the context is one level of the path. *)
Definition division_keys (config : Config.t) : bool :=
  valid_key (ToString (Config.selectedDepartment config)) &&
  valid_key (ToString (Config.selectedCourse config)) &&
  valid_key (ToString (Config.selectedAcademicYear config)) &&
  valid_key (ToString (Config.selectedDivision config)).

Section RemoteNotions.
Context {num : Type} `{Float32 num}.

(** The student id a call addresses is one key of the tree. *)
Definition op_keys (op : cloud_op (num := num)) : bool :=
  match op with
  | Op_saveFace _ studentId _ _ _
  | Op_addFaceToExisting _ studentId _ _ _
  | Op_saveBulkFaces _ studentId _ _ _
  | Op_addBulkFacesToExisting _ studentId _ _ _
  | Op_deleteFace studentId
  | Op_markAttendance _ studentId => valid_key studentId
  | Op_clearAllFaces | Op_resetAllAttendance => true
  end.

End RemoteNotions.

(** ** Notions for the page *)

Section PageNotions.
Context {num : Type} `{Float32 num}.

(** The record the store of the page holds for [studentId]: the entry of the
    local database, or the child of the division node of the teaching context
    in the remote tree. *)
Definition stored_record (studentId : string) (s : System.t num)
  : option (Face.t num) :=
  match System.storage s with
  | System.Local db => db !! studentId
  | System.Cloud st => cloud_record (System.mainSystemConfig s) studentId st
  end.

(** The store can be used: the local database is keyed by the id of its
    records, the remote store is initialised. *)
Definition store_ready (s : System.t num) : Prop :=
  match System.storage s with
  | System.Local db => FaceStorage.keyPath_ok db
  | System.Cloud st => CloudStorage.isInitialized st = true
  end.

(** [this.storage.getAllFaces()] returns a list: it always does on the local
    store; on the remote store it does when every record of the division has
    a [descriptors] list. *)
Definition store_readable (s : System.t num) : Prop :=
  exists faces, System.storage_getAllFaces s = Ok faces.

(** The teaching context names a division: its four fields are truthy. *)
Definition complete_division (config : Config.t) : Prop :=
  truthy (Config.selectedDepartment config) = true /\
  truthy (Config.selectedCourse config) = true /\
  truthy (Config.selectedAcademicYear config) = true /\
  truthy (Config.selectedDivision config) = true.

(** What a handler that resets no attendance leaves alone: the store, the
    people recognised, the cooldowns, and the number of store resets. *)
Definition no_reset (s s' : System.t num) : Prop :=
  System.storage s' = System.storage s /\
  System.recognizedToday s' = System.recognizedToday s /\
  System.lastAttendanceTime s' = System.lastAttendanceTime s /\
  calls Call_storage_resetAllAttendance s' = calls Call_storage_resetAllAttendance s.

(** The text of the notification [markAttendanceWithCooldown] shows for a
    mark made on [today] in the state [s]. *)
Definition mark_toast (today : date) (studentName : string)
    (s : System.t num) : string :=
  "✓ Attendance marked for " +:+ studentName +:+ nl +:+ "Date: " +:+
  ToString (System.targetDay (System.validateDateForRole today s)) +:+ " " +:+
  ToString (System.getMonthName
              (System.targetMonth (System.validateDateForRole today s))).

(** The state [captureFace] leaves. *)
Definition captured_state (c : System.captured) : System.t num :=
  match c with
  | System.Captured s => s
  | System.CaptureFailed s _ => s
  | System.CaptureSuspended s => s
  end.

End PageNotions.

(** ** Concrete data for the further examples *)

Module Samples.

(** The local store of [Examples.teacher_page]: two people, nobody present. *)
Definition enrolled : gmap string (Face.t Z) :=
  <["101" := Examples.local_asha]> (<["201" := Examples.local_bala]> ∅).

(** The context of division B of the same course. *)
Definition config_CS_B : Config.t :=
  Config.mk JNull (JStr "Maths") (JNum 10) (JNum 2026) (JNum 5)
            (JStr "CS") (JStr "BTech") (JStr "2024") (JStr "B").

(** 5 November 2026, the day the context of the examples shows. *)
Definition today_5_nov : date := mkDate 5 10 2026.

(** A folder selection: two images of student 101, a text file, an image
    that lies too high in the tree, and an image of student 202 whose folder
    has no name part. *)
Definition selection : list File.t :=
  [File.mk "Dataset/101_Asha Rao/a.jpg" "a.jpg" "image/jpeg" 2048;
   File.mk "Dataset/101_Asha Rao/notes.txt" "notes.txt" "text/plain" 100;
   File.mk "Dataset/b.png" "b.png" "image/png" 2048;
   File.mk "Dataset/202/c.png" "c.png" "image/png" 4096;
   File.mk "Dataset/101_Asha/d.png" "d.png" "image/png" 1024].

(** A selection with a folder named after an inherited property. *)
Definition selection_constructor : list File.t :=
  [File.mk "Dataset/constructor_Carl/a.jpg" "a.jpg" "image/jpeg" 2048].

(** A leave context with every field set and the year 0. *)
Definition year_zero : Leave.appState :=
  Leave.mkAppState (JStr "CS") (JStr "BTech") (JStr "2024") (JStr "A")
                   (JNum 10) (JNum 0) (JStr "Maths").

(** Asha as the remote store holds her before a mark. *)
Definition asha_absent : Face.t Z :=
  Face.with_attendance false None Examples.asha.

(** The remote store with Asha enrolled in division CS/BTech/2024/A. *)
Definition cloud_enrolled : CloudStorage.t Z :=
  CloudStorage.mk {[ "faces/CS/BTech/2024/A" := {[ "101" := asha_absent ]} ]}
                  true.

(** A teacher's page on the remote store, connected, context on division
    CS/BTech/2024/A and day 5. *)
Definition teacher_page_cloud : System.t Z :=
  System.mk (JStr "teacher") Examples.config_CS_A false ∅ ∅
            (System.Cloud cloud_enrolled)
            (Some (mkSync true)) JNull false None false false [].

(** The same page after Asha was marked at time 5000. *)
Definition teacher_page_marked : System.t Z :=
  System.mk (JStr "teacher") Examples.config_CS_A false {[ "101" ]}
            {[ "101" := 5000 ]} (System.Cloud Examples.cloud_st)
            (Some (mkSync true)) JNull false None false false [].

(** A teacher's page on a remote store whose division holds the legacy record
    of Ravi, which has no [descriptors] list. *)
Definition teacher_page_legacy : System.t Z :=
  System.mk (JStr "teacher") Examples.config_CS_A false ∅ ∅
            (System.Cloud Examples.cloud_legacy_st)
            (Some (mkSync true)) JNull false None false false [].

(** A student's page on the remote store in a running session: a first token
    was accepted and its code verified, the matcher is loaded and the camera
    is running.  The context shows 5 November 2026. *)
Definition student_in_session : System.t Z :=
  System.mk (JStr "student") Examples.config_CS_A false ∅ ∅
            (System.Cloud cloud_enrolled)
            (Some (mkSync true)) (JStr "qr-0001-abcdef") true
            (Some [mkLabeled "101|Asha" [[1; 2; 3]]]) false false [].

(** The token of the next session of the same division, subject Physics, for
    5 November 2026. *)
Definition token_next : QRData.t :=
  QRData.mk (JStr "qr-0003-abcdef") (JStr "CS") (JStr "BTech") (JStr "2024")
            (JStr "A") (JStr "Physics") (JNum 10) (JNum 2026) (JNum 5).

(** A frame with the face of Asha, recognised at time 200000 on 5 November
    2026. *)
Definition frame_asha : list System.detection :=
  [System.mkDetection "101|Asha" true 200000 today_5_nov].

(** A teacher's page on the remote store whose context names no division;
    the store holds Asha under division CS/BTech/2024/A. *)
Definition teacher_page_no_division : System.t Z :=
  System.mk (JStr "teacher")
            (Config.mk JNull (JStr "Maths") (JNum 10) (JNum 2026) (JNum 5)
                       (JStr "CS") (JStr "BTech") (JStr "2024") JNull)
            false ∅ ∅ (System.Cloud Examples.cloud_st)
            (Some (mkSync true)) JNull false None false false [].

(** The leave page with a list that is behind the store: the list was
    loaded while application [leave_1000] was pending; the store now holds it
    as rejected by the head. *)
Definition leave_page_stale : Leave.t :=
  Leave.mk
    (Leave.mkAppState (JStr "CS") (JStr "BTech") (JStr "2024") (JStr "A")
                      (JNum 10) (JNum 2026) (JStr "Maths"))
    true
    {[ Examples.leave_path :=
         {[ "leave_1000" :=
              Leave.rejected "head@example.org" 2500 Examples.leave_pending ]} ]}
    None [("leave_1000", Examples.leave_pending)] "all" "current" [].

End Samples.

(** * Properties *)

(** ** Helper lemmas on the stores *)

Section StoreFacts.
Context {num : Type} `{Float32 num}.

Lemma Float32Array_idem (d : list num) :
  Float32Array (Float32Array d) = Float32Array d.
Proof.
  unfold Float32Array. rewrite <- list_fmap_compose.
  apply list_fmap_ext. intros _ x _. simpl. apply fround_idem.
Qed.

Lemma upgrade_id (r : Face.t num) : Face.id (FaceStorage.upgrade r) = Face.id r.
Proof. reflexivity. Qed.

Lemma upgrade_idem (r : Face.t num) :
  FaceStorage.upgrade (FaceStorage.upgrade r) = FaceStorage.upgrade r.
Proof.
  unfold FaceStorage.upgrade at 1. simpl.
  unfold FaceStorage.upgrade, Face.with_descriptors. simpl. f_equal. f_equal.
  destruct (Face.descriptors r) as [ds|].
  - rewrite <- list_fmap_compose. apply list_fmap_ext.
    intros _ d _. simpl. apply Float32Array_idem.
  - destruct (Face.descriptor r); simpl; [|done].
    by rewrite Float32Array_idem.
Qed.

(** A run of [put]s of modified records over a store. *)
Lemma foldl_put_lookup (h : Face.t num -> Face.t num)
    (l : list (Face.t num)) (db : gmap string (Face.t num)) (k : string) :
  (forall f, Face.id (h f) = Face.id f) ->
  NoDup (Face.id <$> l) ->
  foldl (fun d face => FaceStorage.put (h face) d) db l !! k =
    match List.find (fun f => bool_decide (Face.id f = k)) l with
    | Some f => Some (h f)
    | None => db !! k
    end.
Proof.
  intros Hid. revert db. induction l as [|f l IH]; intros db Hnd; simpl; [done|].
  inversion Hnd as [|? ? Hnotin Hnd']; subst.
  rewrite IH by done. case_bool_decide as Hk.
  - subst k.
    destruct (List.find _ l) as [f'|] eqn:Hf.
    + apply List.find_some in Hf as [Hin Heq].
      apply bool_decide_eq_true in Heq.
      exfalso. apply Hnotin. rewrite <- Heq.
      apply list_elem_of_fmap. exists f'. split; [done|].
      by apply list_elem_of_In.
    + unfold FaceStorage.put. rewrite Hid. by rewrite lookup_insert_eq.
  - destruct (List.find _ l); [done|].
    unfold FaceStorage.put. rewrite Hid. by rewrite lookup_insert_ne.
Qed.

Lemma find_id_map_to_list (g : Face.t num -> Face.t num)
    (db : gmap string (Face.t num)) (k : string) :
  FaceStorage.keyPath_ok db ->
  (forall f, Face.id (g f) = Face.id f) ->
  List.find (fun f => bool_decide (Face.id f = k)) (g <$> (map_to_list db).*2)
  = g <$> db !! k.
Proof.
  intros Hkp Hg.
  destruct (db !! k) as [r|] eqn:Hr; simpl.
  - destruct (List.find _ _) as [f|] eqn:Hf.
    + apply List.find_some in Hf as [Hin Heq].
      apply bool_decide_eq_true in Heq.
      apply list_elem_of_In, list_elem_of_fmap in Hin as (r' & -> & Hin).
      apply list_elem_of_fmap in Hin as ([k' r''] & -> & Hin). simpl in *.
      apply elem_of_map_to_list in Hin.
      rewrite Hg in Heq. rewrite (Hkp _ _ Hin) in Heq. subst k'.
      congruence.
    + exfalso.
      assert (In (g r) (g <$> (map_to_list db).*2)) as Hin.
      { apply list_elem_of_In, list_elem_of_fmap. exists r. split; [done|].
        apply list_elem_of_fmap. exists (k, r). split; [done|].
        by apply elem_of_map_to_list. }
      pose proof (List.find_none _ _ Hf (g r) Hin) as Hno.
      apply bool_decide_eq_false in Hno. apply Hno.
      rewrite Hg. by apply Hkp.
  - destruct (List.find _ _) as [f|] eqn:Hf; [|done].
    apply List.find_some in Hf as [Hin Heq].
    apply bool_decide_eq_true in Heq.
    apply list_elem_of_In, list_elem_of_fmap in Hin as (r' & -> & Hin).
    apply list_elem_of_fmap in Hin as ([k' r''] & -> & Hin). simpl in *.
    apply elem_of_map_to_list in Hin.
    rewrite Hg in Heq. rewrite (Hkp _ _ Hin) in Heq. subst k'. congruence.
Qed.

Lemma ids_map_to_list_NoDup (g : Face.t num -> Face.t num)
    (db : gmap string (Face.t num)) :
  FaceStorage.keyPath_ok db ->
  (forall f, Face.id (g f) = Face.id f) ->
  NoDup (Face.id <$> (g <$> (map_to_list db).*2)).
Proof.
  intros Hkp Hg.
  assert (Face.id <$> (g <$> (map_to_list db).*2) = (map_to_list db).*1) as ->.
  { rewrite <- !list_fmap_compose. apply list_fmap_ext.
    intros i [k r] Hin. simpl. rewrite Hg. apply Hkp.
    apply elem_of_map_to_list. by eapply list_elem_of_lookup_2. }
  apply NoDup_fst_map_to_list.
Qed.

(** The local reset as one map over the store. *)
Lemma FaceStorage_reset_fmap (db : gmap string (Face.t num)) :
  FaceStorage.keyPath_ok db ->
  FaceStorage.resetAllAttendance db =
    (fun r => Face.with_attendance false None (FaceStorage.upgrade r)) <$> db.
Proof.
  intros Hkp. unfold FaceStorage.resetAllAttendance, FaceStorage.getAllFaces.
  destruct (Nat.eqb_spec (length (FaceStorage.upgrade <$> (map_to_list db).*2)) 0)
    as [Hlen|Hlen].
  - rewrite !length_fmap in Hlen. apply length_zero_iff_nil in Hlen.
    apply map_to_list_empty_iff in Hlen. subst db. by rewrite fmap_empty.
  - apply map_eq. intros k.
    rewrite foldl_put_lookup;
      [|done|by apply ids_map_to_list_NoDup].
    rewrite find_id_map_to_list by done.
    rewrite lookup_fmap. by destruct (db !! k).
Qed.

Lemma cloud_update_lookup (facesRef p : string)
    (updates : list (string * CloudStorage.field_write))
    (d : gmap string (gmap string (Face.t num))) :
  CloudStorage.update facesRef updates d !! p =
    if decide (p = facesRef) then apply_writes updates <$> d !! p else d !! p.
Proof.
  unfold CloudStorage.update, apply_writes.
  revert d. induction updates as [|u us IH]; intros d; simpl.
  - case_decide; [|done]. by destruct (d !! p).
  - rewrite IH. case_decide as Hp; [|by rewrite lookup_alter_ne].
    subst p. rewrite lookup_alter_eq. by destruct (d !! facesRef).
Qed.

Lemma apply_reset_writes_lookup (ids : list string)
    (fd : gmap string (Face.t num)) (k : string) :
  apply_writes (reset_writes ids) fd !! k =
    if decide (k ∈ ids) then Face.with_attendance false None <$> fd !! k
    else fd !! k.
Proof.
  unfold apply_writes. revert fd.
  induction ids as [|i ids IH]; intros fd; simpl.
  - done.
  - rewrite IH. destruct (decide (k = i)) as [->|Hne].
    + rewrite !lookup_alter_eq.
      rewrite (decide_True (P := i ∈ i :: ids)) by apply list_elem_of_here.
      destruct (decide (i ∈ ids)); by destruct (fd !! i).
    + rewrite !lookup_alter_ne by done.
      case_decide as Hin.
      * rewrite decide_True; [done|]. by apply list_elem_of_further.
      * rewrite decide_False; [done|].
        intros Hin'. apply elem_of_cons in Hin' as [?|?]; done.
Qed.

(** The remote reset as one map over the children of the division node. *)
Lemma cloud_reset_children (facesData : gmap string (Face.t num)) :
  apply_writes (reset_writes (map_to_list facesData).*1) facesData =
    Face.with_attendance false None <$> facesData.
Proof.
  apply map_eq. intros k. rewrite apply_reset_writes_lookup, lookup_fmap.
  case_decide as Hin; [done|].
  destruct (facesData !! k) as [f|] eqn:Hk; [|done].
  exfalso. apply Hin. apply list_elem_of_fmap. exists (k, f).
  split; [done|]. by apply elem_of_map_to_list.
Qed.

Lemma rmapM_Ok_fmap {A B} (f : A -> result B) (g : A -> B) (l : list A) :
  (forall a, a ∈ l -> f a = Ok (g a)) -> rmapM f l = Ok (g <$> l).
Proof.
  induction l as [|a l IH]; intros Hf; simpl; [done|].
  rewrite Hf by apply list_elem_of_here. simpl.
  rewrite IH; [done|]. intros a' Ha'. apply Hf. by apply list_elem_of_further.
Qed.

Lemma rmapM_restore_inv (l : list (Face.t num)) (faces : list (Face.t num)) :
  rmapM CloudStorage.restore l = Ok faces ->
  (forall r, r ∈ l -> is_Some (Face.descriptors r)) /\
  faces = FaceStorage.upgrade <$> l.
Proof.
  revert faces. induction l as [|r l IH]; intros faces; simpl.
  - intros [= <-]. split; [|done]. intros r Hr. by apply elem_of_nil in Hr.
  - unfold CloudStorage.restore at 1.
    destruct (Face.descriptors r) as [ds|] eqn:Hds; simpl; [|done].
    destruct (rmapM CloudStorage.restore l) as [bs|] eqn:Hl; simpl; [|done].
    intros [= <-]. destruct (IH bs eq_refl) as [Hall ->]. split.
    + intros r' Hr'. apply elem_of_cons in Hr' as [->|Hr']; [by rewrite Hds|].
      by apply Hall.
    + simpl. f_equal. unfold FaceStorage.upgrade. by rewrite Hds.
Qed.

End StoreFacts.

(** ** The Descriptor Store contract *)

Section StoreContract.
Context {num : Type} `{Float32 num}.

Lemma cloud_child_update (facesRef studentId : string)
    (updates : list (string * CloudStorage.field_write))
    (d : gmap string (gmap string (Face.t num))) :
  CloudStorage.child facesRef studentId (CloudStorage.update facesRef updates d) =
    d !! facesRef ≫= (fun fd => apply_writes updates fd !! studentId).
Proof.
  unfold CloudStorage.child. rewrite cloud_update_lookup.
  rewrite decide_True by done. by destruct (d !! facesRef).
Qed.

(** C7: [markAttendance(id)] returns false and changes nothing if the store
    has no record under that id; otherwise it returns true and the record
    then has [attendanceToday = true] and [lastSeen = now], its other fields
    kept.  This holds of the local store (an IndexedDB store keyed by [id])
    and of the initialised remote store. *)
Theorem markAttendance_contract (now : Z) (studentId : string)
    (db : gmap string (Face.t num))
    (config : Config.t) (st : CloudStorage.t num) :
  FaceStorage.keyPath_ok db ->
  CloudStorage.isInitialized st = true ->
  ((db !! studentId = None ->
      FaceStorage.markAttendance now studentId db = (false, db)) /\
   (forall r, db !! studentId = Some r ->
      exists db' r',
        FaceStorage.markAttendance now studentId db = (true, db') /\
        db' !! studentId = Some r' /\
        Face.attendanceToday r' = true /\ Face.lastSeen r' = Some now /\
        r' = Face.with_attendance true (Some now) (FaceStorage.upgrade r)))
  /\
  ((cloud_record config studentId st = None ->
      CloudStorage.markAttendance config now studentId st = Ok (false, st)) /\
   (forall r, cloud_record config studentId st = Some r ->
      exists st' r',
        CloudStorage.markAttendance config now studentId st = Ok (true, st') /\
        cloud_record config studentId st' = Some r' /\
        Face.attendanceToday r' = true /\ Face.lastSeen r' = Some now /\
        r' = Face.with_attendance true (Some now) r)).
Proof.
  intros Hkp Hinit. split; split.
  - intros Hnone. unfold FaceStorage.markAttendance, FaceStorage.getFace.
    by rewrite Hnone.
  - intros r Hr. unfold FaceStorage.markAttendance, FaceStorage.getFace.
    rewrite Hr. eexists _, _. split; [reflexivity|].
    unfold FaceStorage.put. simpl. rewrite (Hkp _ _ Hr).
    rewrite lookup_insert_eq. done.
  - unfold cloud_record, CloudStorage.markAttendance. rewrite Hinit. simpl.
    destruct (CloudStorage.getFacesRef config) as [facesRef|]; simpl; [|done].
    by intros ->.
  - intros r. unfold cloud_record, CloudStorage.markAttendance.
    rewrite Hinit. simpl.
    destruct (CloudStorage.getFacesRef config) as [facesRef|]; simpl; [|done].
    intros Hr. rewrite Hr. eexists _, _. split; [reflexivity|]. simpl.
    unfold CloudStorage.child in *. rewrite !lookup_alter_eq.
    destruct (CloudStorage.db st !! facesRef) as [fd|]; simpl in *; [|done].
    rewrite !lookup_alter_eq, Hr. simpl. done.
Qed.

Lemma Permutation_of_eq {A} (l k : list A) : l = k -> l ≡ₚ k.
Proof. by intros ->. Qed.

Lemma reset_view_of_Permutation (before after : list (Face.t num)) :
  after ≡ₚ Face.with_attendance false None <$> before ->
  reset_view before after.
Proof.
  intros Hperm. split.
  - intros P HP. exists (Face.with_attendance false None P).
    split; [|done]. rewrite Hperm. apply list_elem_of_fmap. by exists P.
  - intros P' HP'. rewrite Hperm in HP'.
    apply list_elem_of_fmap in HP' as (P & -> & HP). split; [done|].
    by exists P.
Qed.

Lemma upgrade_with_attendance (a : bool) (ls : option Z) (r : Face.t num) :
  FaceStorage.upgrade (Face.with_attendance a ls r) =
  Face.with_attendance a ls (FaceStorage.upgrade r).
Proof. reflexivity. Qed.

Lemma FaceStorage_getAllFaces_reset (db : gmap string (Face.t num)) :
  FaceStorage.keyPath_ok db ->
  FaceStorage.getAllFaces (FaceStorage.resetAllAttendance db)
    ≡ₚ Face.with_attendance false None <$> FaceStorage.getAllFaces db.
Proof.
  intros Hkp. rewrite FaceStorage_reset_fmap by done.
  unfold FaceStorage.getAllFaces. rewrite map_to_list_fmap.
  rewrite <- !list_fmap_compose.
  apply Permutation_of_eq, list_fmap_ext. intros i [k r] _. simpl.
  by rewrite upgrade_with_attendance, upgrade_idem.
Qed.

Lemma restore_Ok (r : Face.t num) :
  is_Some (Face.descriptors r) ->
  CloudStorage.restore r = Ok (FaceStorage.upgrade r).
Proof.
  intros [ds Hds]. unfold CloudStorage.restore, FaceStorage.upgrade.
  by rewrite Hds.
Qed.

Lemma CloudStorage_getAllFaces_reset (config : Config.t)
    (st : CloudStorage.t num) (before : list (Face.t num)) :
  CloudStorage.getAllFaces config st = Ok before ->
  exists st' after,
    CloudStorage.resetAllAttendance config st = Ok st' /\
    CloudStorage.getAllFaces config st' = Ok after /\
    after ≡ₚ Face.with_attendance false None <$> before.
Proof.
  unfold CloudStorage.getAllFaces, CloudStorage.resetAllAttendance.
  destruct (CloudStorage.isInitialized st) eqn:Hinit; simpl; [|done].
  destruct (CloudStorage.getFacesRef config) as [facesRef|] eqn:Href.
  2:{ intros [= <-]. exists st, []. by rewrite Hinit. }
  destruct (CloudStorage.db st !! facesRef) as [facesData|] eqn:Hdata.
  2:{ intros [= <-]. exists st, []. by rewrite Hinit, Hdata. }
  intros Hbefore. apply rmapM_restore_inv in Hbefore as [Hall ->].
  eexists _, _. split; [reflexivity|]. simpl. rewrite Hinit. simpl.
  rewrite cloud_update_lookup, decide_True, Hdata by done. simpl.
  change (flat_map _ (map_to_list facesData).*1)
    with (reset_writes (map_to_list facesData).*1).
  rewrite cloud_reset_children.
  rewrite (rmapM_Ok_fmap _ FaceStorage.upgrade).
  - split; [reflexivity|]. rewrite map_to_list_fmap.
    rewrite <- !list_fmap_compose.
    apply Permutation_of_eq, list_fmap_ext. by intros i [k r] _.
  - intros r Hr. apply restore_Ok.
    apply list_elem_of_fmap in Hr as ([k r'] & -> & Hr). simpl.
    apply elem_of_map_to_list in Hr. rewrite lookup_fmap in Hr.
    destruct (facesData !! k) as [r0|] eqn:Hk; simplify_eq/=.
    apply Hall. apply list_elem_of_fmap. exists (k, r0). split; [done|].
    by apply elem_of_map_to_list.
Qed.

(** A list of records that cannot be restored cannot be restored after a
    change of their attendance fields either, and it is a TypeError that
    says so. *)
Lemma rmapM_restore_Throw (g : Face.t num -> Face.t num)
    (l : list (Face.t num)) (e : exn) :
  (forall r, Face.descriptors (g r) = Face.descriptors r) ->
  rmapM CloudStorage.restore l = Throw e ->
  e = TypeError /\ rmapM CloudStorage.restore (g <$> l) = Throw TypeError.
Proof.
  intros Hg. induction l as [|r l IH]; [done|].
  rewrite fmap_cons. cbn [rmapM].
  unfold CloudStorage.restore at 1 3. rewrite Hg.
  destruct (Face.descriptors r) as [ds|]; simpl; [|by intros [= <-]].
  destruct (rmapM CloudStorage.restore l) as [faces|e'] eqn:Hl; simpl; [done|].
  intros [= <-]. destruct (IH eq_refl) as [-> ->]. done.
Qed.

Lemma CloudStorage_getAllFaces_reset_Throw (config : Config.t)
    (st : CloudStorage.t num) (e : exn) :
  CloudStorage.isInitialized st = true ->
  CloudStorage.getAllFaces config st = Throw e ->
  e = TypeError /\
  exists st',
    CloudStorage.resetAllAttendance config st = Ok st' /\
    CloudStorage.getAllFaces config st' = Throw TypeError.
Proof.
  intros Hinit.
  unfold CloudStorage.getAllFaces, CloudStorage.resetAllAttendance.
  rewrite Hinit. simpl.
  destruct (CloudStorage.getFacesRef config) as [facesRef|] eqn:Href; [|done].
  destruct (CloudStorage.db st !! facesRef) as [facesData|] eqn:Hdata; [|done].
  intros Hbefore.
  apply (rmapM_restore_Throw (Face.with_attendance false None)) in Hbefore
    as [-> Hafter]; [|done].
  split; [done|]. eexists. split; [reflexivity|]. simpl. rewrite Hinit. simpl.
  rewrite cloud_update_lookup, decide_True, Hdata by done. simpl.
  change (flat_map _ (map_to_list facesData).*1)
    with (reset_writes (map_to_list facesData).*1).
  rewrite cloud_reset_children, map_to_list_fmap.
  rewrite <- Hafter. f_equal.
  rewrite <- !list_fmap_compose. apply list_fmap_ext. by intros i [k r] _.
Qed.

(** C8 (amended): on the local store, and on the remote store when
    [getAllFaces()] can read the division, [getAllFaces()] after
    [resetAllAttendance()] returns every person it returned before with the
    same [id] and [descriptors] and with [attendanceToday = false], and
    nobody else.  When the division of the initialised remote store holds a
    record that [getAllFaces()] cannot read, the reset succeeds all the same
    and [getAllFaces()] throws a TypeError after it as before it. *)
Theorem resetAllAttendance_then_getAllFaces
    (db : gmap string (Face.t num))
    (config : Config.t) (st : CloudStorage.t num) :
  FaceStorage.keyPath_ok db ->
  reset_view (FaceStorage.getAllFaces db)
             (FaceStorage.getAllFaces (FaceStorage.resetAllAttendance db)) /\
  (forall before,
     CloudStorage.getAllFaces config st = Ok before ->
     exists st' after,
       CloudStorage.resetAllAttendance config st = Ok st' /\
       CloudStorage.getAllFaces config st' = Ok after /\
       reset_view before after) /\
  (CloudStorage.isInitialized st = true ->
   forall e,
     CloudStorage.getAllFaces config st = Throw e ->
     e = TypeError /\
     exists st',
       CloudStorage.resetAllAttendance config st = Ok st' /\
       CloudStorage.getAllFaces config st' = Throw TypeError).
Proof.
  intros Hkp. split; [|split].
  - by apply reset_view_of_Permutation, FaceStorage_getAllFaces_reset.
  - intros before Hbefore.
    destruct (CloudStorage_getAllFaces_reset _ _ _ Hbefore)
      as (st' & after & Hreset & Hafter & Hperm).
    exists st', after. split; [done|]. split; [done|].
    by apply reset_view_of_Permutation.
  - intros Hinit e He. by apply CloudStorage_getAllFaces_reset_Throw.
Qed.

Lemma rmapM_restore_legacy (l : list (Face.t num)) (r : Face.t num) :
  r ∈ l -> Face.descriptors r = None ->
  rmapM CloudStorage.restore l = Throw TypeError.
Proof.
  intros Hin Hnone. induction l as [|a l IH]; [by apply elem_of_nil in Hin|].
  simpl. unfold CloudStorage.restore at 1.
  destruct (Face.descriptors a) as [ds|] eqn:Ha; simpl; [|done].
  apply elem_of_cons in Hin as [->|Hin]; [congruence|].
  by rewrite IH.
Qed.

(** C9 (amended): the local store's [getFace] and [getAllFaces] return a
    legacy record, one with a single [descriptor] and no [descriptors], with
    [descriptors] set to the one-element list of that descriptor; the remote
    store's [getFace] and [getAllFaces] expect [descriptors] and throw a
    TypeError when the division holds such a record. *)
Theorem legacy_record_reads (studentId : string) (r : Face.t num)
    (d : list num) (db : gmap string (Face.t num))
    (config : Config.t) (st : CloudStorage.t num) :
  Face.descriptors r = None ->
  Face.descriptor r = Some d ->
  (db !! studentId = Some r ->
     FaceStorage.getFace studentId db =
       Some (Face.with_descriptors [Float32Array d] r) /\
     Face.with_descriptors [Float32Array d] r ∈ FaceStorage.getAllFaces db) /\
  (CloudStorage.isInitialized st = true ->
   cloud_record config studentId st = Some r ->
     CloudStorage.getFace config studentId st = Throw TypeError /\
     CloudStorage.getAllFaces config st = Throw TypeError).
Proof.
  intros Hnone Hd.
  assert (FaceStorage.upgrade r = Face.with_descriptors [Float32Array d] r)
    as Hup by (unfold FaceStorage.upgrade; by rewrite Hnone, Hd).
  split.
  - intros Hr. split.
    + unfold FaceStorage.getFace. by rewrite Hr, Hup.
    + unfold FaceStorage.getAllFaces. rewrite <- Hup.
      apply list_elem_of_fmap. exists r. split; [done|].
      apply list_elem_of_fmap. exists (studentId, r). split; [done|].
      by apply elem_of_map_to_list.
  - intros Hinit. unfold cloud_record, CloudStorage.getFace,
      CloudStorage.getAllFaces. rewrite Hinit. simpl.
    destruct (CloudStorage.getFacesRef config) as [facesRef|]; simpl; [|done].
    intros Hr. rewrite Hr. split.
    + unfold CloudStorage.restore. by rewrite Hnone.
    + unfold CloudStorage.child in Hr.
      destruct (CloudStorage.db st !! facesRef) as [facesData|]; simpl in Hr;
        [|done].
      apply (rmapM_restore_legacy _ r); [|done].
      apply list_elem_of_fmap. exists (studentId, r). split; [done|].
      by apply elem_of_map_to_list.
Qed.

End StoreContract.

Lemma local_db_keyPath_ok : FaceStorage.keyPath_ok Examples.local_db.
Proof.
  unfold FaceStorage.keyPath_ok. apply (bool_decide_unpack _).
  vm_compute. exact I.
Defined.

Lemma markAttendance_contract_witness :
  (exists db' r',
      FaceStorage.markAttendance 7000 "102" Examples.local_db = (true, db') /\
      db' !! "102" = Some r' /\
      Face.attendanceToday r' = true /\ Face.lastSeen r' = Some 7000) /\
  CloudStorage.markAttendance Examples.config_CS_A 7000 "102" Examples.cloud_st
    = Ok (false, Examples.cloud_st).
Proof.
  destruct (markAttendance_contract 7000 "102" Examples.local_db
              Examples.config_CS_A Examples.cloud_st
              local_db_keyPath_ok eq_refl) as [[_ Hlocal] [Hcloud _]].
  split.
  - destruct (Hlocal Examples.ravi ltac:(vm_compute; reflexivity))
      as (db' & r' & Hm & Hr' & Ha & Hl & _).
    exists db', r'. auto.
  - apply Hcloud. vm_compute. reflexivity.
Defined.

Lemma resetAllAttendance_then_getAllFaces_witness :
  reset_view (FaceStorage.getAllFaces Examples.local_db)
    (FaceStorage.getAllFaces (FaceStorage.resetAllAttendance Examples.local_db))
  /\
  (exists st' after,
     CloudStorage.resetAllAttendance Examples.config_CS_A Examples.cloud_st
       = Ok st' /\
     CloudStorage.getAllFaces Examples.config_CS_A st' = Ok after /\
     reset_view [FaceStorage.upgrade Examples.asha] after) /\
  (exists st',
     CloudStorage.resetAllAttendance Examples.config_CS_A
       Examples.cloud_legacy_st = Ok st' /\
     CloudStorage.getAllFaces Examples.config_CS_A st' = Throw TypeError).
Proof.
  destruct (resetAllAttendance_then_getAllFaces Examples.local_db
              Examples.config_CS_A Examples.cloud_st local_db_keyPath_ok)
    as (Hlocal & Hcloud & _).
  destruct (resetAllAttendance_then_getAllFaces Examples.local_db
              Examples.config_CS_A Examples.cloud_legacy_st local_db_keyPath_ok)
    as (_ & _ & Hlegacy).
  split; [exact Hlocal|]. split.
  - apply Hcloud. vm_compute. reflexivity.
  - destruct (Hlegacy eq_refl TypeError) as [_ Hthrow];
      [vm_compute; reflexivity|exact Hthrow].
Defined.

(** C8, as stated, fails on the remote store: Ravi is persisted under the
    division, as a record without [descriptors]; the reset succeeds and
    clears his attendance, and [getAllFaces()] after it throws instead of
    yielding him. *)
Lemma reset_then_getAllFaces_throws :
  cloud_record Examples.config_CS_A "102" Examples.cloud_legacy_st
    = Some Examples.ravi /\
  exists st',
    CloudStorage.resetAllAttendance Examples.config_CS_A
      Examples.cloud_legacy_st = Ok st' /\
    cloud_record Examples.config_CS_A "102" st'
      = Some (Face.with_attendance false None Examples.ravi) /\
    CloudStorage.getAllFaces Examples.config_CS_A st' = Throw TypeError /\
    forall after, CloudStorage.getAllFaces Examples.config_CS_A st' <> Ok after.
Proof.
  split; [vm_compute; reflexivity|].
  eexists. split; [vm_compute; reflexivity|].
  split; [vm_compute; reflexivity|].
  split.
  - vm_compute. reflexivity.
  - intros after Hafter. vm_compute in Hafter. discriminate.
Qed.

Lemma legacy_record_reads_witness :
  (FaceStorage.getFace "102" Examples.local_db =
     Some (Face.with_descriptors [[4; 5; 6]] Examples.ravi) /\
   Face.with_descriptors [[4; 5; 6]] Examples.ravi
     ∈ FaceStorage.getAllFaces Examples.local_db) /\
  (CloudStorage.getFace Examples.config_CS_A "102" Examples.cloud_legacy_st
     = Throw TypeError /\
   CloudStorage.getAllFaces Examples.config_CS_A Examples.cloud_legacy_st
     = Throw TypeError).
Proof.
  destruct (legacy_record_reads "102" Examples.ravi [4; 5; 6]
              Examples.local_db Examples.config_CS_A Examples.cloud_legacy_st
              eq_refl eq_refl) as [Hlocal Hcloud].
  split.
  - apply Hlocal. vm_compute. reflexivity.
  - apply Hcloud; vm_compute; reflexivity.
Defined.

(** C9, as stated, fails on the remote store: reading the division that
    holds the legacy record of Ravi throws instead of returning the record
    with a one-element [descriptors] list. *)
Lemma cloud_legacy_read_throws :
  CloudStorage.getAllFaces Examples.config_CS_A Examples.cloud_legacy_st
    = Throw TypeError /\
  CloudStorage.getAllFaces Examples.config_CS_A Examples.cloud_legacy_st
    <> Ok [Face.with_descriptors [[4; 5; 6]] Examples.ravi] /\
  CloudStorage.getFace Examples.config_CS_A "102" Examples.cloud_legacy_st
    = Throw TypeError /\
  CloudStorage.getFace Examples.config_CS_A "102" Examples.cloud_legacy_st
    <> Ok (Some (Face.with_descriptors [[4; 5; 6]] Examples.ravi)).
Proof.
  assert (CloudStorage.getAllFaces Examples.config_CS_A Examples.cloud_legacy_st
          = Throw TypeError) as Hall by (vm_compute; reflexivity).
  assert (CloudStorage.getFace Examples.config_CS_A "102"
            Examples.cloud_legacy_st = Throw TypeError) as Hone
    by (vm_compute; reflexivity).
  rewrite Hall, Hone. repeat split; discriminate.
Qed.

(** ** Day-change notifications and the re-entrancy guard *)

Section DayChange.
Context {num : Type} `{Float32 num}.
Import System.

Lemma calls_emit (e e' : event) (s : System.t num) :
  calls e (emit e' s) = if decide (e' = e) then S (calls e s) else calls e s.
Proof.
  unfold calls, emit. simpl. reflexivity.
Qed.

Lemma unobserved_refl (s : System.t num) : unobserved s s.
Proof. by repeat split. Qed.

Lemma unobserved_trans (s1 s2 s3 : System.t num) :
  unobserved s1 s2 -> unobserved s2 s3 -> unobserved s1 s3.
Proof.
  intros (? & ? & ? & ? & ?) (? & ? & ? & ? & ?).
  repeat split; congruence.
Qed.

Lemma unobserved_showToast (message type : string) (s : System.t num) :
  unobserved s (showToast message type s).
Proof. unfold showToast. repeat split; by rewrite ?calls_emit. Qed.

Lemma unobserved_ConsoleLog (message : string) (s : System.t num) :
  unobserved s (emit (ConsoleLog message) s).
Proof. repeat split; by rewrite ?calls_emit. Qed.

Lemma unobserved_clear_tracking (s : System.t num) :
  unobserved s (clear_tracking s).
Proof. by repeat split. Qed.

Lemma unobserved_day_changed_toast (todayDate : Z) (newDay : jsval)
    (s : System.t num) :
  unobserved s (day_changed_toast todayDate newDay s).
Proof.
  unfold day_changed_toast.
  destruct (is_student s); [destruct (strict_ne _ _)|];
    apply unobserved_showToast.
Qed.

Lemma unobserved_reset (s s' : System.t num) :
  storage_resetAllAttendance s = Ok s' -> unobserved s s'.
Proof.
  unfold storage_resetAllAttendance.
  destruct (storage s) as [db|st].
  - intros [= <-]. by repeat split.
  - destruct (CloudStorage.resetAllAttendance _ _); simpl; [|done].
    intros [= <-]. by repeat split.
Qed.

Lemma unobserved_refresh_read (s s' : System.t num) :
  refresh_read s = Ok s' -> unobserved s s'.
Proof.
  unfold refresh_read. destruct (storage_getAllFaces s); [|done].
  intros [= <-]. apply unobserved_refl.
Qed.


Lemma segment_effect_weaken (d1 : jsval) (a b a' b' a0 b0 : nat) (s s' : System.t num) :
  segment_effect d1 a b a' b' s s' -> (a <= a0)%nat -> (b <= b0)%nat ->
  segment_effect d1 a0 b0 a' b' s s'.
Proof.
  intros (? & ? & ? & ?) ? ?. unfold segment_effect. split_and!; (done || lia).
Qed.

Lemma inflight_weaken (d1 : jsval) (n : nat) :
  forall (t : System.task num) (a b n' a0 b0 : nat),
    inflight d1 n a b t -> (n <= n')%nat -> (a <= a0)%nat -> (b <= b0)%nat ->
    inflight d1 n' a0 b0 t.
Proof.
  induction n as [|n IH]; intros t a b n' a0 b0 Hin Hn Ha Hb.
  - inversion Hin.
  - inversion Hin as [n1 a1 b1 resume Hres]; subst.
    destruct n' as [|n']; [lia|]. constructor. intros s Hg Hd.
    specialize (Hres s Hg Hd).
    inversion Hres as [? ? ? ? s' Heff Hg' | ? ? ? a' b' ? s' rest Heff Hg' Hrest];
      subst.
    + apply resumed_finished; [|done]. by eapply segment_effect_weaken.
    + eapply resumed_suspended; [by eapply segment_effect_weaken|done|].
      eapply IH; [exact Hrest|lia|done|done].
Qed.

Lemma resumed_weaken (d1 : jsval) (n a b n' a0 b0 : nat) (s : System.t num)
    (o : System.outcome num) :
  resumed d1 n a b s o -> (n <= n')%nat -> (a <= a0)%nat -> (b <= b0)%nat ->
  resumed d1 n' a0 b0 s o.
Proof.
  intros Hres Hn Ha Hb.
  inversion Hres as [? ? ? ? s' Heff Hg' | ? ? ? a' b' ? s' rest Heff Hg' Hrest];
    subst.
  - apply resumed_finished; [|done]. by eapply segment_effect_weaken.
  - eapply resumed_suspended; [by eapply segment_effect_weaken|done|].
    eapply inflight_weaken; [exact Hrest|done..].
Qed.

Lemma async_inflight_weaken (d1 : jsval) (n a b n' a0 b0 : nat) (k : System.async num) :
  async_inflight d1 n a b k -> (n <= n')%nat -> (a <= a0)%nat -> (b <= b0)%nat ->
  async_inflight d1 n' a0 b0 k.
Proof. intros Hk ? ? ? s Hg Hd. eapply resumed_weaken; [by apply Hk|done..]. Qed.

(** The start state of a segment may be replaced by one with the same
    counts. *)
Lemma resumed_from (d1 : jsval) (n a b : nat) (s0 s : System.t num)
    (o : System.outcome num) :
  unobserved s0 s -> resumed d1 n a b s o -> resumed d1 n a b s0 o.
Proof.
  intros (_ & _ & Hr & Hu & Hv) Hres.
  inversion Hres as [? ? ? ? s' Heff Hg' | ? ? ? a' b' ? s' rest Heff Hg' Hrest];
    subst; destruct Heff as (? & ? & ? & ?).
  - apply resumed_finished; [|done].
    unfold segment_effect. split_and!; (done || congruence || lia).
  - eapply resumed_suspended; [|done|exact Hrest].
    unfold segment_effect. split_and!; (done || congruence || lia).
Qed.

(** A synchronous prefix that the bookkeeping does not see. *)
Lemma async_inflight_after (d1 : jsval) (n a b : nat) (f : System.t num -> System.t num)
    (k : System.async num) :
  (forall s, unobserved s (f s)) ->
  async_inflight d1 n a b k ->
  async_inflight d1 n a b (fun s => k (f s)).
Proof.
  intros Hf Hk s Hg Hd. destruct (Hf s) as (Hg' & Hc' & ?).
  eapply resumed_from; [apply Hf|]. apply Hk; congruence.
Qed.

(** [finally { this.isHandlingDayChange = false }] *)
Lemma async_inflight_finally (d1 : jsval) (n a b : nat) :
  async_inflight d1 n a b
    (fun s : System.t num => Out (set_isHandlingDayChange false s) Fin).
Proof.
  intros s Hg Hd. apply resumed_finished; [|done].
  unfold segment_effect, calls. simpl. split_and!; (done || lia).
Qed.

(** The segment that runs when an awaited operation completes. *)
Lemma inflight_completion (d1 : jsval) (n a b : nat)
    (complete : System.t num -> result (System.t num)) (k h : System.async num) :
  (forall s s', complete s = Ok s' -> unobserved s s') ->
  async_inflight d1 n a b k ->
  async_inflight d1 n a b h ->
  inflight d1 (S n) a b
    (Await (fun s' : System.t num => match complete s' with
                      | Ok s'' => k s''
                      | Throw _ => h s'
                      end)).
Proof.
  intros Hc Hk Hh. constructor. intros s Hg Hd.
  destruct (complete s) as [s''|e] eqn:Hcs; [|by apply Hh].
  destruct (Hc _ _ Hcs) as (Hg' & Hc' & ?).
  eapply resumed_from; [by apply Hc|]. apply Hk; congruence.
Qed.

(** [await this.updateStudentList()] *)
Lemma async_inflight_await_updateStudentList (d1 : jsval) (n a b : nat) (k h : System.async num) :
  async_inflight d1 n a b k ->
  async_inflight d1 n a b h ->
  async_inflight d1 (S n) (S a) b (await Call_updateStudentList refresh_read k h).
Proof.
  intros Hk Hh s Hg Hd. unfold await.
  apply (resumed_suspended d1 (S n) (S a) b a b).
  - unfold segment_effect. rewrite !calls_emit. simpl.
    split_and!; (done || lia).
  - done.
  - apply inflight_completion; [apply unobserved_refresh_read|done|done].
Qed.

(** [await this.updateStats()] *)
Lemma async_inflight_await_updateStats (d1 : jsval) (n a b : nat) (k h : System.async num) :
  async_inflight d1 n a b k ->
  async_inflight d1 n a b h ->
  async_inflight d1 (S n) a (S b) (await Call_updateStats refresh_read k h).
Proof.
  intros Hk Hh s Hg Hd. unfold await.
  apply (resumed_suspended d1 (S n) a (S b) a b).
  - unfold segment_effect. rewrite !calls_emit. simpl.
    split_and!; (done || lia).
  - done.
  - apply inflight_completion; [apply unobserved_refresh_read|done|done].
Qed.


(** The first segment of a handler that finds the guard clear and a new,
    defined day: it sets the guard, records the day, calls the store reset
    once and suspends. *)
Lemma handleFirebaseDayChange_starts (todayDate : Z) (d1 oldDay : jsval)
    (s : System.t num) :
  isHandlingDayChange s = false ->
  strict_ne d1 JNull && strict_ne d1 JUndefined &&
    strict_ne d1 (Config.currentDay (mainSystemConfig s)) = true ->
  exists s0 resume,
    handleFirebaseDayChange todayDate d1 oldDay s = Out s0 (Await resume) /\
    isHandlingDayChange s0 = true /\
    Config.currentDay (mainSystemConfig s0) = d1 /\
    calls Call_storage_resetAllAttendance s0 =
      S (calls Call_storage_resetAllAttendance s) /\
    calls Call_updateStudentList s0 = calls Call_updateStudentList s /\
    calls Call_updateStats s0 = calls Call_updateStats s /\
    inflight d1 5 2 2 (Await resume).
Proof.
  intros Hg Hcond. unfold handleFirebaseDayChange. rewrite Hg.
  cbn [mainSystemConfig set_mainSystemConfig emit Config.currentDay].
  rewrite Hcond. unfold handleDayChange, await at 1.
  eexists _, _. split; [reflexivity|].
  split; [done|]. split; [done|]. split; [done|]. split; [done|].
  split; [done|].
  (* what the caller does after [await this.handleDayChange(...)] *)
  assert (async_inflight d1 2 1 1
            (await Call_updateStudentList refresh_read
               (await Call_updateStats refresh_read
                  (fun s1 : System.t num =>
                     Out (set_isHandlingDayChange false
                            (day_changed_toast todayDate d1 s1)) Fin)
                  (fun s1 : System.t num =>
                     Out (set_isHandlingDayChange false
                            (showToast "Failed to handle day change" "danger" s1))
                         Fin))
               (fun s1 : System.t num =>
                  Out (set_isHandlingDayChange false
                         (showToast "Failed to handle day change" "danger" s1))
                      Fin))) as Hafter.
  { apply async_inflight_await_updateStudentList.
    - apply async_inflight_await_updateStats.
      + apply (async_inflight_after d1 0 0 0 (day_changed_toast todayDate d1)
                 (fun s : System.t num => Out (set_isHandlingDayChange false s) Fin)).
        * intros s1. apply unobserved_day_changed_toast.
        * apply async_inflight_finally.
      + apply (async_inflight_after d1 0 0 0
                 (showToast "Failed to handle day change" "danger")
                 (fun s : System.t num => Out (set_isHandlingDayChange false s) Fin)).
        * intros s1. apply unobserved_showToast.
        * apply async_inflight_finally.
    - apply (async_inflight_after d1 1 0 1
               (showToast "Failed to handle day change" "danger")
               (fun s : System.t num => Out (set_isHandlingDayChange false s) Fin)).
      + intros s1. apply unobserved_showToast.
      + apply async_inflight_finally. }
  (* the body of [handleDayChange] after the store reset completes *)
  apply inflight_completion.
  - apply unobserved_reset.
  - apply async_inflight_await_updateStudentList.
    + apply async_inflight_await_updateStats.
      * apply (async_inflight_after d1 2 1 1 (showToast _ "info")).
        -- intros s1. apply unobserved_showToast.
        -- exact Hafter.
      * apply (async_inflight_after d1 2 1 1 (showToast _ "danger")).
        -- intros s1. apply unobserved_showToast.
        -- exact Hafter.
    + apply (async_inflight_weaken d1 2 1 1).
      * apply (async_inflight_after d1 2 1 1 (showToast _ "danger")).
        -- intros s1. apply unobserved_showToast.
        -- exact Hafter.
      * lia.
      * lia.
      * lia.
  - apply (async_inflight_weaken d1 2 1 1).
    + apply (async_inflight_after d1 2 1 1 (showToast _ "danger")).
      * intros s1. apply unobserved_showToast.
      * exact Hafter.
    + lia.
    + lia.
    + lia.
Qed.

(** A notification that finds the guard set only prints the skip line. *)
Lemma handleFirebaseDayChange_dropped (todayDate : Z) (newDay oldDay : jsval)
    (s : System.t num) :
  isHandlingDayChange s = true ->
  handleFirebaseDayChange todayDate newDay oldDay s =
    Out (emit (ConsoleLog msg_skipping) s) Fin.
Proof. intros Hg. unfold handleFirebaseDayChange. by rewrite Hg. Qed.

Lemma run_completed_idle (todayDate : Z) (j : nat) (s : System.t num) :
  run todayDate (repeat (Completed 0%nat) j) (mkMachine s []) = mkMachine s [].
Proof. induction j as [|j IH]; [done|]. simpl. apply IH. Qed.

Lemma segment_effect_trans (d1 : jsval) (a b a1 b1 a2 b2 : nat)
    (s s1 s2 : System.t num) :
  segment_effect d1 a b a1 b1 s s1 -> segment_effect d1 a1 b1 a2 b2 s1 s2 ->
  segment_effect d1 a b a2 b2 s s2.
Proof.
  intros (? & ? & ? & ?) (? & ? & ? & ?). unfold segment_effect.
  split_and!; (done || congruence || lia).
Qed.

(** A suspended handler under [j] completions: it has finished within its
    bound and cleared the guard, or it is still suspended with the guard
    set. *)
Lemma run_completions (todayDate : Z) (d1 : jsval) (j : nat) :
  forall (n a b : nat) (t : System.task num) (s : System.t num),
    inflight d1 n a b t ->
    isHandlingDayChange s = true ->
    Config.currentDay (mainSystemConfig s) = d1 ->
    exists a' b' m',
      m' = run todayDate (repeat (Completed 0%nat) j) (mkMachine s [t]) /\
      segment_effect d1 a b a' b' s (st m') /\
      ((pending m' = [] /\ isHandlingDayChange (st m') = false) \/
       (exists t', pending m' = [t'] /\ isHandlingDayChange (st m') = true /\
                   inflight d1 (n - j) a' b' t' /\ (j < n)%nat)).
Proof.
  induction j as [|j IH]; intros n a b t s Hin Hg Hd.
  - exists a, b, (mkMachine s [t]). split; [done|]. simpl. split.
    + unfold segment_effect. split_and!; (done || lia).
    + right. exists t. split_and!; try done.
      * by rewrite Nat.sub_0_r.
      * inversion Hin; lia.
  - destruct Hin as [n0 a b resume Hres].
    specialize (Hres s Hg Hd).
    remember (resume s) as o eqn:Ho.
    destruct Hres as [n0 a b s s' Heff Hg' | n0 a b a' b' s s' rest Heff Hg' Hrest].
    + exists 0%nat, 0%nat, (mkMachine s' []). split.
      * simpl. rewrite <- Ho. simpl. by rewrite run_completed_idle.
      * simpl. split; [done|]. by left.
    + assert (exists r, rest = Await r) as [r ->] by (inversion Hrest; eauto).
      destruct (IH n0 a' b' (Await r) s' Hrest Hg')
        as (a2 & b2 & m' & Hm' & Heff2 & Hcases); [by destruct Heff|].
      exists a2, b2, m'. split.
      * simpl. rewrite <- Ho. simpl. exact Hm'.
      * split; [by eapply segment_effect_trans|].
        destruct Hcases as [?|(t' & ? & ? & ? & ?)]; [by left|].
        right. exists t'. split_and!; (done || lia).
Qed.

(** C1 (amended): a day-change notification that finds the guard clear and
    a new day starts a handler; while that handler is suspended the guard is
    set, and a second day-change notification delivered then only prints the
    skip line: it changes neither the context nor the store and is not
    queued.  When the first handler has finished, the guard is clear, the
    context day is the first notification's, [resetAllAttendance] has been
    called exactly once, and [updateStudentList] and [updateStats] have been
    called at most twice each (once inside [handleDayChange] and once after
    it), all by the first handler. *)
Theorem day_change_notifications_collapse (todayDate : Z) (s : System.t num)
    (d1 old1 d2 old2 : jsval) (k : nat) :
  isHandlingDayChange s = false ->
  strict_ne d1 JNull && strict_ne d1 JUndefined &&
    strict_ne d1 (Config.currentDay (mainSystemConfig s)) = true ->
  let m1 := run todayDate (DayChanged d1 old1 :: repeat (Completed 0%nat) k)
                (idle s) in
  pending m1 <> [] ->
  let m2 := deliver todayDate (DayChanged d2 old2) m1 in
  let mf := run todayDate (repeat (Completed 0%nat) 5) m2 in
  isHandlingDayChange (st m1) = true /\
  m2 = mkMachine (emit (ConsoleLog msg_skipping) (st m1)) (pending m1) /\
  pending mf = [] /\
  isHandlingDayChange (st mf) = false /\
  Config.currentDay (mainSystemConfig (st mf)) = d1 /\
  calls Call_storage_resetAllAttendance (st mf) =
    S (calls Call_storage_resetAllAttendance s) /\
  (calls Call_updateStudentList (st mf) <= calls Call_updateStudentList s + 2)%nat /\
  (calls Call_updateStats (st mf) <= calls Call_updateStats s + 2)%nat.
Proof.
  intros Hg Hcond.
  destruct (handleFirebaseDayChange_starts todayDate d1 old1 s Hg Hcond)
    as (s0 & resume & Hstart & Hg0 & Hd0 & Hr0 & Hu0 & Hv0 & Hin0).
  intros m1.
  assert (m1 = run todayDate (repeat (Completed 0%nat) k)
                 (mkMachine s0 [Await resume])) as Hm1.
  { subst m1. unfold run at 1. simpl. by rewrite Hstart. }
  destruct (run_completions todayDate d1 k 5 2 2 (Await resume) s0 Hin0 Hg0 Hd0)
    as (a1 & b1 & m1' & Hm1' & Heff1 & Hcases1).
  rewrite <- Hm1 in Hm1'. subst m1'.
  intros Hpending.
  destruct Hcases1 as [[Hnil _]|(t1 & Hp1 & Hg1 & Hin1 & Hk)]; [done|].
  intros m2.
  assert (m2 = mkMachine (emit (ConsoleLog msg_skipping) (st m1)) (pending m1))
    as Hm2.
  { subst m2. unfold deliver.
    by rewrite (handleFirebaseDayChange_dropped _ _ _ _ Hg1). }
  intros mf.
  destruct Heff1 as (Hd1 & Hr1 & Hu1 & Hv1).
  destruct (run_completions todayDate d1 5 (5 - k) a1 b1 t1
              (emit (ConsoleLog msg_skipping) (st m1)) Hin1 Hg1 Hd1)
    as (a2 & b2 & mf' & Hmf' & Heff2 & Hcases2).
  assert (mf = mf') as <- by (subst mf mf'; by rewrite Hm2, Hp1).
  destruct Hcases2 as [[Hnil Hgf]|(t2 & _ & _ & _ & Hlt)]; [|lia].
  destruct Heff2 as (Hdf & Hrf & Huf & Hvf).
  rewrite !calls_emit in Hrf, Huf, Hvf. simpl in Hrf, Huf, Hvf.
  split_and!; try done.
  - congruence.
  - lia.
  - lia.
Qed.

End DayChange.

Lemma day_change_notifications_collapse_witness :
  let m1 := System.run 12 (System.DayChanged (JNum 6) JNull ::
                           repeat (System.Completed 0%nat) 2)
                       (System.idle Examples.teacher_page) in
  let mf := System.run 12 (repeat (System.Completed 0%nat) 5)
              (System.deliver 12 (System.DayChanged (JNum 7) JNull) m1) in
  System.isHandlingDayChange (System.st m1) = true /\
  System.pending mf = [] /\
  Config.currentDay (System.mainSystemConfig (System.st mf)) = JNum 6 /\
  calls Call_storage_resetAllAttendance (System.st mf) = 1%nat.
Proof.
  intros m1 mf.
  assert (System.pending m1 <> []) as Hpending by (vm_compute; discriminate).
  destruct (day_change_notifications_collapse 12 Examples.teacher_page
              (JNum 6) JNull (JNum 7) JNull 2 eq_refl eq_refl Hpending)
    as (Hg & _ & Hnil & _ & Hday & Hreset & _).
  split_and!; assumption.
Defined.

(** C1, as stated, fails on the count of UI refreshes: in the run where the
    notification for day 7 arrives while the handler for day 6 is suspended,
    [resetAllAttendance] is called once, but the student list and the
    statistics are each refreshed twice, not once. *)
Lemma day_change_refreshes_twice :
  let mf := System.run 12 (Examples.two_notifications 2)
                       (System.idle Examples.teacher_page) in
  calls Call_storage_resetAllAttendance (System.st mf) = 1%nat /\
  calls Call_updateStudentList (System.st mf) = 2%nat /\
  calls Call_updateStats (System.st mf) = 2%nat /\
  calls Call_updateStudentList (System.st mf) <> 1%nat.
Proof. vm_compute. split_and!; (reflexivity || discriminate). Qed.

(** ** Date validation before a mark *)

Section DateLockout.
Context {num : Type} `{Float32 num}.
Import System.

Lemma append_assoc (a b c : string) : (a +:+ b) +:+ c = a +:+ b +:+ c.
Proof.
  induction a as [|x a IH]; [done|].
  change (String x ((a +:+ b) +:+ c) = String x (a +:+ b +:+ c)).
  by f_equal.
Qed.


(** A cooldown that has elapsed by the map has elapsed for the page. *)
Lemma cooldown_elapsed (now : Z) (studentId : string) (s : System.t num) :
  ATTENDANCE_COOLDOWN <= now - default 0 (lastAttendanceTime s !! studentId) ->
  in_cooldown now studentId s = false.
Proof.
  intros Hcool. unfold in_cooldown, lastAttendanceTime_get.
  destruct (String.eqb studentId "__proto__"); [done|].
  destruct (lastAttendanceTime s !! studentId) as [lastTime|]; simpl in Hcool.
  - by apply Z.ltb_ge.
  - case_bool_decide; [done|]. by apply Z.ltb_ge.
Qed.


End DateLockout.



(** ** Session tokens and the security code *)

Section SessionGate.
Context {num : Type} `{Float32 num}.
Import System.

Lemma division_mismatch_true (qrData : QRData.t) (config : Config.t) :
  Config.selectedDepartment config <> QRData.department qrData \/
  Config.selectedCourse config <> QRData.course qrData \/
  Config.selectedAcademicYear config <> QRData.academicYear qrData \/
  Config.selectedDivision config <> QRData.division qrData ->
  division_mismatch qrData config = true.
Proof.
  unfold division_mismatch, strict_ne, strict_eq.
  intros [Hne|[Hne|[Hne|Hne]]];
    rewrite (bool_decide_eq_false_2 _ Hne); simpl;
    rewrite ?orb_true_r; reflexivity.
Qed.

(** C4: when a student scans a token whose department, course, academic
    year or division differs from the account's, the scan changes no field of
    the teaching context and accepts no session; the token carrying a session
    id, the scan is rejected with the WRONG DIVISION message. *)
Theorem wrong_division_scan_rejected (now : Z) (read : remote ActiveQR.t)
    (qrData : QRData.t) (s : System.t num) :
  is_student s = true ->
  Config.selectedDepartment (mainSystemConfig s) <> QRData.department qrData \/
  Config.selectedCourse (mainSystemConfig s) <> QRData.course qrData \/
  Config.selectedAcademicYear (mainSystemConfig s) <> QRData.academicYear qrData \/
  Config.selectedDivision (mainSystemConfig s) <> QRData.division qrData ->
  let s' := handleQRScan now read (Some qrData) s in
  mainSystemConfig s' = mainSystemConfig s /\
  currentQRId s' = currentQRId s /\
  (truthy (QRData.qrId qrData) = true ->
   s' = showToast (msg_wrong_division qrData (mainSystemConfig s)) "danger" s /\
   names (msg_wrong_division qrData (mainSystemConfig s)) "WRONG DIVISION").
Proof.
  intros Hstudent Hdiff s'. subst s'. unfold handleQRScan.
  rewrite Hstudent, (division_mismatch_true _ _ Hdiff). simpl.
  destruct (truthy (QRData.qrId qrData)); simpl; split_and!; try done.
  intros _. split; [done|].
  unfold msg_wrong_division. exists "❌ ", ("!" +:+ nl +:+ nl +:+
    "This QR is for: " +:+ ToString (QRData.department qrData) +:+ "/" +:+
    ToString (QRData.course qrData) +:+ "/" +:+
    ToString (QRData.academicYear qrData) +:+ "/" +:+
    ToString (QRData.division qrData) +:+ nl +:+ nl +:+
    "Your division: " +:+
    ToString (Config.selectedDepartment (mainSystemConfig s)) +:+ "/" +:+
    ToString (Config.selectedCourse (mainSystemConfig s)) +:+ "/" +:+
    ToString (Config.selectedAcademicYear (mainSystemConfig s)) +:+ "/" +:+
    ToString (Config.selectedDivision (mainSystemConfig s)) +:+ nl +:+ nl +:+
    "⚠️ You can ONLY scan QR codes for YOUR OWN division!").
  reflexivity.
Qed.

(** What [loadFaceMatcher] builds on the local store, whatever the division
    of the context: the labels of every stored face. *)
Lemma loadFaceMatcher_local (s : System.t num) (db : gmap string (Face.t num)) :
  storage s = Local db ->
  faceMatcher (state_of (loadFaceMatcher s)) =
    let labeledDescriptors := FaceStorage.getLabeledDescriptors [] db in
    if (length labeledDescriptors =? 0)%nat then None
    else Some labeledDescriptors.
Proof.
  intros Hdb. unfold loadFaceMatcher, storage_getAllFaces,
    storage_getLabeledDescriptors. simpl. rewrite Hdb.
  unfold FaceStorage.getLabeledDescriptors.
  destruct (_ && _ && _ && _); simpl; by destruct (_ =? _)%nat.
Qed.

Lemma verifyDynamicCode_valid (now : Z) (read : remote DynamicCode.t)
    (entered : string) (s : System.t num) :
  connected s = true ->
  Verification.valid (verifyDynamicCode now read entered s) = true ->
  exists data,
    read = Snapshot (Some data) /\
    DynamicCode.code data = JStr entered /\
    expired now (DynamicCode.expiresAt data) = false.
Proof.
  intros Hconn. unfold verifyDynamicCode. rewrite Hconn. simpl.
  destruct read as [|[data|]]; simpl; [done| |done].
  destruct (expired now (DynamicCode.expiresAt data)) eqn:Hexp; simpl; [done|].
  unfold strict_ne, strict_eq. case_bool_decide as Hcode; simpl; [|done].
  intros _. by exists data.
Qed.

Lemma updateStudentList_state (s : System.t num) :
  state_of (updateStudentList s) = emit Call_updateStudentList s.
Proof. unfold updateStudentList. by destruct (storage_getAllFaces _). Qed.

Lemma updateStats_state (s : System.t num) :
  state_of (updateStats s) = emit Call_updateStats s.
Proof. unfold updateStats. by destruct (storage_getAllFaces _). Qed.

Lemma loadFaceMatcher_state (s : System.t num) :
  exists m, state_of (loadFaceMatcher s) =
            set_faceMatcher m (emit Call_loadFaceMatcher s).
Proof.
  destruct s. unfold loadFaceMatcher.
  destruct (storage_getAllFaces _) as [allFaces|e]; simpl; [|by eexists].
  match goal with
  | |- context [match ?r with Ok _ => _ | Throw _ => _ end] =>
      destruct r as [l|e]
  end; simpl; [|by eexists].
  destruct (length l =? 0)%nat; by eexists.
Qed.

(** The [try] block after a valid code leaves the connection as it is and
    records no verification. *)
Lemma load_face_data_frame (s : System.t num) :
  firebaseSync (load_face_data s) = firebaseSync s /\
  forall code, calls (Call_verifyDynamicCode code) (load_face_data s)
               = calls (Call_verifyDynamicCode code) s.
Proof.
  unfold load_face_data.
  destruct (loadFaceMatcher_state s) as [m Hm].
  destruct (loadFaceMatcher s) as [s1|s1 ?]; simpl in Hm; subst s1;
    [|split; [done|intros code; unfold disableCameraButton; simpl;
               unfold calls; simpl; done]].
  pose proof (updateStudentList_state
                (set_faceMatcher m (emit Call_loadFaceMatcher s))) as H2.
  destruct (updateStudentList _) as [s2|s2 ?]; simpl in H2; subst s2;
    [|split; [done|intros code; unfold calls; simpl; done]].
  pose proof (updateStats_state
                (emit Call_updateStudentList
                   (set_faceMatcher m (emit Call_loadFaceMatcher s)))) as H3.
  destruct (updateStats _) as [s3|s3 ?]; simpl in H3; subst s3;
    (split; [done|intros code; unfold calls; simpl; done]).
Qed.

Lemma code_step_firebaseSync (s : System.t num) (a : code_action) :
  firebaseSync (code_step s a) = firebaseSync s.
Proof.
  destruct a as [now read value|now read value]; simpl.
  - unfold codeInput_onInput.
    destruct (_ =? _)%nat; [|done].
    destruct (Verification.valid _); [|done].
    by rewrite (proj1 (load_face_data_frame _)).
  - unfold verifyBtn_onClick.
    destruct (_ =? _)%nat; simpl; [|done].
    by destruct (Verification.valid _).
Qed.

(** A step that unlocks the camera button submits a matching code. *)
Lemma code_step_unlocks (s : System.t num) (a : code_action) :
  connected s = true ->
  startCameraBtn_disabled s = true ->
  startCameraBtn_disabled (code_step s a) = false ->
  code_matches a.
Proof.
  intros Hconn Hlocked.
  destruct a as [now read value|now read value]; simpl.
  - unfold codeInput_onInput.
    destruct (Nat.eqb_spec (String.length (digits_only value)) 4)
      as [Hlen|Hlen]; [|congruence].
    destruct (Verification.valid _) eqn:Hvalid.
    + intros _. apply verifyDynamicCode_valid in Hvalid as (data & ? & ? & ?);
        [|done].
      by exists data.
    + unfold showCodeError. simpl. congruence.
  - unfold verifyBtn_onClick.
    destruct (Nat.eqb_spec (String.length (trim value)) 4)
      as [Hlen|Hlen]; simpl; [|congruence].
    destruct (Verification.valid _) eqn:Hvalid.
    + intros _. apply verifyDynamicCode_valid in Hvalid as (data & ? & ? & ?);
        [|done].
      by exists data.
    + unfold showCodeError. simpl. congruence.
Qed.

Lemma code_steps_unlocked (actions : list code_action) (s : System.t num) :
  connected s = true ->
  startCameraBtn_disabled s = true ->
  startCameraBtn_disabled (foldl code_step s actions) = false ->
  Exists code_matches actions.
Proof.
  revert s. induction actions as [|a actions IH]; intros s Hconn Hlocked;
    simpl; [congruence|].
  intros Hunlocked.
  destruct (startCameraBtn_disabled (code_step s a)) eqn:Hstep.
  - apply Exists_cons_tl. apply (IH (code_step s a)); [|done|done].
    unfold connected in *. by rewrite code_step_firebaseSync.
  - apply Exists_cons_hd. by eapply code_step_unlocks.
Qed.

(** The lock on the camera button: for the student role, a scan that is not
    rejected leaves the camera button locked and the code field shown.  Whatever the student then types
    in the code field or submits with the verify button, the camera button is
    unlocked only if one of these submissions carried four characters
    strictly equal to the code of the remote [dynamicCode] record as read at
    that moment, and that record was not expired then.  The [input] listener
    submits the field's digits for verification by itself as soon as there
    are four of them. *)
Theorem code_gate_before_recognition (now0 : Z) (read0 : remote ActiveQR.t)
    (qrData : QRData.t) (s0 : System.t num) (actions : list code_action) :
  is_student s0 = true ->
  let s1 := handleQRScan now0 read0 (Some qrData) s0 in
  (forall message, s1 <> showToast message "danger" s0) ->
  (startCameraBtn_disabled s1 = true /\ securityCodeSection_shown s1 = true) /\
  (startCameraBtn_disabled (foldl code_step s1 actions) = false ->
   Exists code_matches actions) /\
  (forall (s : System.t num) (now : Z) (read : remote DynamicCode.t)
          (value : string),
      String.length (digits_only value) = 4%nat ->
      calls (Call_verifyDynamicCode (digits_only value))
            (codeInput_onInput now read value s) =
      S (calls (Call_verifyDynamicCode (digits_only value)) s)).
Proof.
  intros Hstudent s1 Haccepted.
  assert (connected s1 = true /\ startCameraBtn_disabled s1 = true /\
          securityCodeSection_shown s1 = true) as (Hconn & Hlocked & Hshown).
  { subst s1. revert Haccepted. unfold handleQRScan.
    destruct (truthy (QRData.qrId qrData)); simpl;
      [|intros Hacc; by destruct (Hacc msg_invalid_qr)].
    rewrite Hstudent. simpl.
    destruct (division_mismatch qrData (mainSystemConfig s0)); simpl;
      [intros Hacc; by destruct (Hacc (msg_wrong_division qrData (mainSystemConfig s0)))|].
    destruct (connected s0) eqn:Hconn; simpl;
      [|intros Hacc; by destruct (Hacc msg_firebase_not_connected)].
    destruct (validateQRSession now0 read0 s0) as [[|]|e]; simpl;
      [|intros Hacc; by destruct (Hacc msg_qr_expired)
       |intros Hacc; by destruct (Hacc msg_invalid_format)].
    intros _. unfold is_student in *. simpl. rewrite Hstudent. simpl.
    rewrite Hstudent.
    split_and!; [exact Hconn|reflexivity|reflexivity]. }
  split; [done|]. split.
  - by apply code_steps_unlocked.
  - intros s now read value Hlen. unfold codeInput_onInput.
    rewrite (proj2 (Nat.eqb_eq _ _) Hlen).
    destruct (Verification.valid _).
    + rewrite (proj2 (load_face_data_frame _)).
      unfold enableCameraButton.
      change (calls (Call_verifyDynamicCode (digits_only value))
                (emit (Call_showCodeSuccess
                         "✅ Code verified! Loading face data...")
                   (emit (Call_verifyDynamicCode (digits_only value)) s))
              = S (calls (Call_verifyDynamicCode (digits_only value)) s)).
      rewrite !calls_emit. rewrite decide_False by congruence.
      by rewrite decide_True.
    + unfold showCodeError. rewrite !calls_emit.
      rewrite decide_False by congruence. by rewrite decide_True.
Qed.

(** C5, on the code: for the student role a scan that is accepted locks the
    camera button and asks for the code, but it stops no camera that is
    running and keeps the matcher that is loaded: the session id is the new
    token's, no code has been verified for it, and the camera, the matcher,
    the store and the cooldowns are as they were. *)
Theorem accepted_token_keeps_recognition_running (now0 : Z)
    (read0 : remote ActiveQR.t) (qrData : QRData.t) (s0 : System.t num) :
  is_student s0 = true ->
  let s1 := handleQRScan now0 read0 (Some qrData) s0 in
  (forall message, s1 <> showToast message "danger" s0) ->
  currentQRId s1 = QRData.qrId qrData /\
  startCameraBtn_disabled s1 = true /\
  securityCodeSection_shown s1 = true /\
  isCameraRunning s1 = isCameraRunning s0 /\
  faceMatcher s1 = faceMatcher s0 /\
  storage s1 = storage s0 /\
  lastAttendanceTime s1 = lastAttendanceTime s0 /\
  calls Call_stopCamera s1 = calls Call_stopCamera s0 /\
  (forall code,
     calls (Call_verifyDynamicCode code) s1 =
     calls (Call_verifyDynamicCode code) s0).
Proof.
  intros Hstudent s1. subst s1. unfold handleQRScan.
  destruct (truthy (QRData.qrId qrData)); simpl;
    [|intros Hacc; by destruct (Hacc msg_invalid_qr)].
  rewrite Hstudent. simpl.
  destruct (division_mismatch qrData (mainSystemConfig s0)); simpl;
    [intros Hacc; by destruct (Hacc (msg_wrong_division qrData (mainSystemConfig s0)))|].
  destruct (connected s0) eqn:Hconn; simpl;
    [|intros Hacc; by destruct (Hacc msg_firebase_not_connected)].
  destruct (validateQRSession now0 read0 s0) as [[|]|e]; simpl;
    [|intros Hacc; by destruct (Hacc msg_qr_expired)
     |intros Hacc; by destruct (Hacc msg_invalid_format)].
  intros _. unfold is_student in *. simpl. rewrite Hstudent. simpl.
  rewrite Hstudent. simpl.
  split_and!; reflexivity.
Qed.

End SessionGate.

Lemma wrong_division_scan_rejected_witness :
  let s' := System.handleQRScan 1000 Examples.live_entry (Some Examples.token_B)
              Examples.student_page in
  System.mainSystemConfig s' = Examples.config_CS_A /\
  s' = System.showToast
         (System.msg_wrong_division Examples.token_B Examples.config_CS_A)
         "danger" Examples.student_page.
Proof.
  intros s'.
  destruct (wrong_division_scan_rejected 1000 Examples.live_entry
              Examples.token_B Examples.student_page eq_refl
              ltac:(right; right; right; discriminate))
    as (Hconfig & _ & Htoast).
  split; [exact Hconfig|]. apply Htoast. reflexivity.
Defined.

Lemma code_gate_before_recognition_witness :
  let s1 := System.handleQRScan 1000 Examples.live_entry (Some Examples.token_A)
              Examples.student_page in
  System.startCameraBtn_disabled s1 = true /\
  System.securityCodeSection_shown s1 = true /\
  System.startCameraBtn_disabled
    (System.codeInput_onInput 2000 Examples.current_code "4822" s1) = true /\
  System.startCameraBtn_disabled
    (System.codeInput_onInput 2000 Examples.current_code "4821" s1) = false /\
  Exists code_matches [System.CodeInput 2000 Examples.current_code "4821"].
Proof.
  intros s1.
  assert (forall message,
             s1 <> System.showToast message "danger" Examples.student_page)
    as Haccepted.
  { intros message Heq. apply (f_equal System.currentQRId) in Heq.
    vm_compute in Heq. discriminate. }
  destruct (code_gate_before_recognition 1000 Examples.live_entry
              Examples.token_A Examples.student_page
              [System.CodeInput 2000 Examples.current_code "4821"]
              eq_refl Haccepted)
    as ((Hlocked & Hshown) & Hgate & _).
  split_and!; [exact Hlocked|exact Hshown| | |].
  - vm_compute. reflexivity.
  - vm_compute. reflexivity.
  - apply Hgate. vm_compute. reflexivity.
Defined.

(** The failing run of C5: a student's camera is running in a verified
    session when the token of the next session is scanned and accepted.  The
    button is locked, yet the next frame marks Asha and the mark is pushed
    under the subject of the new token, no code having been verified. *)
Lemma accepted_token_keeps_recognition_running_witness :
  let s1 := System.handleQRScan 1000 Examples.live_entry
              (Some Samples.token_next) Samples.student_in_session in
  System.currentQRId s1 = JStr "qr-0003-abcdef" /\
  System.startCameraBtn_disabled s1 = true /\
  System.isCameraRunning s1 = true /\
  exists s2,
    System.recognizeFaces Samples.frame_asha s1 = System.Normal s2 /\
    System.storage_getFace "101" s2
    = Ok (Some (Face.with_attendance true (Some 200000) Examples.asha)) /\
    calls (Call_saveAttendanceToFirebase "101" "Asha" (JNum 5)) s2 = 1%nat /\
    System.update_path <$>
      System.saveAttendanceToFirebase "101" "Asha" (JNum 5) s2
    = Some "mainSystem/attendanceData/2026/CS/BTech/2024/A/months/2026-11/subjects/Physics/attendance/101" /\
    forall code, calls (Call_verifyDynamicCode code) s2 = 0%nat.
Proof.
  intros s1.
  assert (forall message,
             s1 <> System.showToast message "danger" Samples.student_in_session)
    as Haccepted.
  { intros message Heq. apply (f_equal System.currentQRId) in Heq.
    vm_compute in Heq. discriminate. }
  destruct (accepted_token_keeps_recognition_running 1000 Examples.live_entry
              Samples.token_next Samples.student_in_session eq_refl Haccepted)
    as (Hqr & Hlocked & _ & Hcamera & _).
  split; [exact Hqr|]. split; [exact Hlocked|]. split; [exact Hcamera|].
  destruct (System.recognizeFaces Samples.frame_asha s1) as [s2|s2 e] eqn:Hframe;
    [|vm_compute in Hframe; discriminate].
  exists s2. split; [reflexivity|].
  vm_compute in Hframe. injection Hframe as <-.
  split_and!; [vm_compute; reflexivity..|].
  intros code. reflexivity.
Defined.

(** C3, on the code: with a live connection, a failing read of the session
    registry makes [validateQRSession] throw, and [handleQRScan] rejects the
    scan with the message for an unreadable token; the overridden first
    definition is the one that would have answered [true].  Without a
    connection the scan is rejected as the claim says. *)
Lemma lookup_error_rejects_scan :
  System.validateQRSession_overridden 1000 ReadError Examples.teacher_page
    = true /\
  System.validateQRSession 1000 ReadError Examples.teacher_page
    = Throw (Error "read failed") /\
  System.handleQRScan 1000 ReadError (Some Examples.token_A)
    Examples.teacher_page
    = System.showToast System.msg_invalid_format "danger" Examples.teacher_page /\
  System.handleQRScan 1000 Examples.live_entry (Some Examples.token_A)
    Examples.teacher_page_offline
    = System.showToast System.msg_firebase_not_connected "danger"
        Examples.teacher_page_offline.
Proof. vm_compute. split_and!; reflexivity. Qed.

(** C6, on the code: on the remote store, when the division of the context
    is incomplete, [getAllFaces()] returns the empty list, so the fallback of
    [loadFaceMatcher] has nothing to use: whatever the store holds, no
    matcher is built. *)
Theorem loadFaceMatcher_fallback_uses_nothing (s : System.t Z)
    (st : CloudStorage.t Z) :
  System.storage s = System.Cloud st ->
  CloudStorage.isInitialized st = true ->
  CloudStorage.getDivisionPath (System.mainSystemConfig s) = None ->
  System.storage_getAllFaces s = Ok [] /\
  System.loadFaceMatcher s
  = System.Normal (System.set_faceMatcher None
                     (System.emit Call_loadFaceMatcher s)).
Proof.
  intros Hstore Hinit Hpath.
  assert (truthy (Config.selectedDepartment (System.mainSystemConfig s)) &&
          truthy (Config.selectedCourse (System.mainSystemConfig s)) &&
          truthy (Config.selectedAcademicYear (System.mainSystemConfig s)) &&
          truthy (Config.selectedDivision (System.mainSystemConfig s)) = false)
    as Hincomplete.
  { revert Hpath. unfold CloudStorage.getDivisionPath.
    destruct (truthy (Config.selectedDepartment _)),
             (truthy (Config.selectedCourse _)),
             (truthy (Config.selectedAcademicYear _)),
             (truthy (Config.selectedDivision _)); simpl; done. }
  assert (System.storage_getAllFaces s = Ok []) as Hall.
  { unfold System.storage_getAllFaces, CloudStorage.getAllFaces,
      CloudStorage.getFacesRef.
    by rewrite Hstore, Hinit, Hpath. }
  split; [exact Hall|].
  unfold System.loadFaceMatcher.
  change (System.storage_getAllFaces (System.emit Call_loadFaceMatcher s))
    with (System.storage_getAllFaces s).
  rewrite Hall.
  change (System.mainSystemConfig (System.emit Call_loadFaceMatcher s))
    with (System.mainSystemConfig s).
  rewrite Hincomplete.
  unfold System.storage_getLabeledDescriptors,
    CloudStorage.getLabeledDescriptors, CloudStorage.getAllFaces,
    CloudStorage.getFacesRef.
  simpl. by rewrite Hstore, Hinit, Hpath.
Qed.

Lemma loadFaceMatcher_fallback_uses_nothing_witness :
  CloudStorage.getAllFaces Examples.config_CS_A Examples.cloud_st
    = Ok [FaceStorage.upgrade Examples.asha] /\
  System.storage_getAllFaces Samples.teacher_page_no_division = Ok [] /\
  System.faceMatcher
    (System.state_of (System.loadFaceMatcher Samples.teacher_page_no_division))
    = None.
Proof.
  split; [vm_compute; reflexivity|].
  destruct (loadFaceMatcher_fallback_uses_nothing
              Samples.teacher_page_no_division Examples.cloud_st
              eq_refl eq_refl eq_refl) as [Hall Hload].
  split; [exact Hall|]. rewrite Hload. reflexivity.
Defined.

(** ** Leave applications *)

Section LeaveFacts.
Import Leave.

Lemma stored_showAlert (leavePath message type : string) (s : Leave.t) :
  stored leavePath (showAlert message type s) = stored leavePath s.
Proof. reflexivity. Qed.

Lemma stored_loadLeaveApplications (leavePath : string) (s : Leave.t) :
  stored leavePath (loadLeaveApplications s) = stored leavePath s.
Proof.
  unfold loadLeaveApplications.
  by destruct (getLeaveApplicationsPath (app s)).
Qed.

(** The stored application after the write of [approveLeave] or
    [rejectLeave]. *)
Lemma stored_update_application (leavePath leaveId : string)
    (f : application -> application) (leave : application) (s : Leave.t) :
  stored leavePath s !! leaveId = Some leave ->
  stored leavePath (update_application leavePath leaveId f s) !! leaveId
    = Some (f leave).
Proof.
  unfold stored, update_application. destruct (useCloud s) eqn:Hcloud.
  - simpl. rewrite Hcloud. rewrite lookup_alter_eq.
    destruct (firebaseDB s !! leavePath) as [m|]; simpl; [|done].
    intros Hl. by rewrite lookup_alter_eq, Hl.
  - intros Hl. rewrite Hl. simpl. rewrite Hcloud. simpl.
    by rewrite lookup_insert_eq.
Qed.

Lemma stored_after_delete (leavePath leaveId : string) (s : Leave.t) :
  stored leavePath
    (if useCloud s
     then set_firebaseDB (alter (delete leaveId) leavePath (firebaseDB s)) s
     else set_localDB (Some (delete leaveId (default ∅ (localDB s)))) s)
    !! leaveId = None.
Proof.
  unfold stored. destruct (useCloud s) eqn:Hcloud; simpl; rewrite Hcloud.
  - rewrite lookup_alter_eq.
    destruct (firebaseDB s !! leavePath) as [m|]; simpl; [|done].
    by rewrite lookup_delete_eq.
  - simpl. by rewrite lookup_delete_eq.
Qed.

(** C10 (amended): the table offers Approve and Reject for an application
    exactly when its status in the list, as last loaded, is pending, and
    Delete exactly when it is not.  Whatever the store holds under the id at
    that moment, [approveLeave] stores status approved with the approver and
    the time, [rejectLeave] stores status rejected with the rejecter and the
    time, and [deleteLeave] removes the application.  So a click on a button
    the table offers approves or rejects an application that is pending in
    the list and deletes only one that is not pending there; when the list
    agrees with the store on the status, that is a step from a stored
    pending to approved or rejected, or the deletion of a stored application
    that is not pending. *)
Theorem leave_status_transitions (s : Leave.t) (leavePath leaveId : string)
    (leave current : application) (user : option string) (now : Z) :
  find_application leaveId s = Some leave ->
  getLeaveApplicationsPath (app s) = Some leavePath ->
  stored leavePath s !! leaveId = Some current ->
  (actionButtons leaveId leave =
     (if decide (status leave = "pending")
      then [Call_approveLeave leaveId; Call_rejectLeave leaveId]
      else [Call_deleteLeave leaveId])) /\
  stored leavePath (approveLeave true user now leaveId s) !! leaveId
    = Some (approved (default "unknown" user) now current) /\
  stored leavePath (rejectLeave true user now leaveId s) !! leaveId
    = Some (rejected (default "unknown" user) now current) /\
  stored leavePath (deleteLeave true leaveId s) !! leaveId = None /\
  (forall a, a ∈ actionButtons leaveId leave ->
     match stored leavePath (click true user now a s) !! leaveId with
     | Some leave' =>
         status leave = "pending" /\
         ((status leave' = "approved" /\
           approvedBy leave' = Some (default "unknown" user) /\
           approvedAt leave' = Some now) \/
          (status leave' = "rejected" /\
           rejectedBy leave' = Some (default "unknown" user) /\
           rejectedAt leave' = Some now))
     | None => status leave <> "pending"
     end) /\
  (status current = status leave ->
   forall a, a ∈ actionButtons leaveId leave ->
     match stored leavePath (click true user now a s) !! leaveId with
     | Some leave' =>
         status current = "pending" /\
         (status leave' = "approved" \/ status leave' = "rejected")
     | None => status current <> "pending"
     end).
Proof.
  intros Hfind Hpath Hstored.
  assert (stored leavePath (approveLeave true user now leaveId s) !! leaveId
          = Some (approved (default "unknown" user) now current)) as Happrove.
  { unfold approveLeave. rewrite Hfind, Hpath. simpl.
    rewrite stored_showAlert, stored_loadLeaveApplications.
    by apply stored_update_application. }
  assert (stored leavePath (rejectLeave true user now leaveId s) !! leaveId
          = Some (rejected (default "unknown" user) now current)) as Hreject.
  { unfold rejectLeave. rewrite Hfind, Hpath. simpl.
    rewrite stored_showAlert, stored_loadLeaveApplications.
    by apply stored_update_application. }
  assert (stored leavePath (deleteLeave true leaveId s) !! leaveId = None)
    as Hdelete.
  { unfold deleteLeave. rewrite Hfind, Hpath. simpl.
    rewrite stored_showAlert, stored_loadLeaveApplications.
    apply stored_after_delete. }
  assert (actionButtons leaveId leave =
            (if decide (status leave = "pending")
             then [Call_approveLeave leaveId; Call_rejectLeave leaveId]
             else [Call_deleteLeave leaveId])) as Hbuttons.
  { unfold actionButtons.
    destruct (String.eqb_spec (status leave) "pending") as [Heq|Hne].
    - by rewrite decide_True.
    - by rewrite decide_False. }
  assert (forall a, a ∈ actionButtons leaveId leave ->
            match stored leavePath (click true user now a s) !! leaveId with
            | Some leave' =>
                status leave = "pending" /\
                ((status leave' = "approved" /\
                  approvedBy leave' = Some (default "unknown" user) /\
                  approvedAt leave' = Some now) \/
                 (status leave' = "rejected" /\
                  rejectedBy leave' = Some (default "unknown" user) /\
                  rejectedAt leave' = Some now))
            | None => status leave <> "pending"
            end) as Hclick.
  { intros a. rewrite Hbuttons. case_decide as Hpending.
    - intros Ha. apply elem_of_cons in Ha as [->|Ha].
      + simpl. rewrite Happrove. split; [done|]. by left.
      + apply list_elem_of_singleton in Ha as ->.
        simpl. rewrite Hreject. split; [done|]. by right.
    - intros Ha. apply list_elem_of_singleton in Ha as ->.
      simpl. by rewrite Hdelete. }
  split_and!; try done.
  intros Hagree a Ha. specialize (Hclick a Ha). rewrite Hagree.
  destruct (stored leavePath (click true user now a s) !! leaveId)
    as [leave'|]; [|done].
  destruct Hclick as [Hpending [(Hs & _)|(Hs & _)]]; auto.
Qed.

End LeaveFacts.

Lemma leave_status_transitions_witness :
  Leave.renderLeaveTable Samples.leave_page_stale =
    [[Leave.Call_approveLeave "leave_1000"; Leave.Call_rejectLeave "leave_1000"]]
  /\
  Leave.status <$>
    Leave.stored Examples.leave_path Samples.leave_page_stale !! "leave_1000"
  = Some "rejected" /\
  Leave.stored Examples.leave_path
    (Leave.approveLeave true (Some "teacher@example.org") 3000 "leave_1000"
       Samples.leave_page_stale) !! "leave_1000"
  = Some (Leave.approved "teacher@example.org" 3000
            (Leave.rejected "head@example.org" 2500 Examples.leave_pending)) /\
  Leave.stored Examples.leave_path
    (Leave.approveLeave true (Some "teacher@example.org") 3000 "leave_1000"
       Examples.leave_page) !! "leave_1000"
  = Some (Leave.approved "teacher@example.org" 3000 Examples.leave_pending).
Proof.
  split; [vm_compute; reflexivity|]. split; [vm_compute; reflexivity|].
  split.
  - destruct (leave_status_transitions Samples.leave_page_stale
                Examples.leave_path "leave_1000" Examples.leave_pending
                (Leave.rejected "head@example.org" 2500 Examples.leave_pending)
                (Some "teacher@example.org") 3000)
      as (_ & Happrove & _); [vm_compute; reflexivity..|].
    exact Happrove.
  - destruct (leave_status_transitions Examples.leave_page Examples.leave_path
                "leave_1000" Examples.leave_pending Examples.leave_pending
                (Some "teacher@example.org") 3000)
      as (_ & Happrove & _); [vm_compute; reflexivity..|].
    exact Happrove.
Defined.

(** C10, as stated, fails on the functions themselves: [deleteLeave] removes
    the application that is still pending, and [approveLeave] takes the
    rejected application to approved. *)
Lemma leave_functions_ignore_status :
  Leave.status Examples.leave_pending = "pending" /\
  Leave.stored Examples.leave_path
    (Leave.deleteLeave true "leave_1000" Examples.leave_page) !! "leave_1000"
    = None /\
  Leave.alerts (Leave.deleteLeave true "leave_1000" Examples.leave_page)
    = [("Leave application deleted", "info")] /\
  Leave.status Examples.leave_rejected = "rejected" /\
  Leave.status <$>
    Leave.stored Examples.leave_path
      (Leave.approveLeave true (Some "teacher@example.org") 3000 "leave_2000"
         Examples.leave_page) !! "leave_2000"
    = Some "approved".
Proof. vm_compute. split_and!; reflexivity. Qed.

(** * Further properties of the stores *)

Section LocalStore.
Context {num : Type} `{Float32 num}.

Lemma descriptors_list_upgrade_fixed (r : Face.t num) :
  Float32Array <$> Face.descriptors_list (FaceStorage.upgrade r)
  = Face.descriptors_list (FaceStorage.upgrade r).
Proof.
  pose proof (upgrade_idem r) as Hidem.
  apply (f_equal Face.descriptors_list) in Hidem. exact Hidem.
Qed.

Lemma getFace_put_eq (face : Face.t num) (db : gmap string (Face.t num)) :
  FaceStorage.getFace (Face.id face) (FaceStorage.put face db)
  = Some (FaceStorage.upgrade face).
Proof. unfold FaceStorage.getFace, FaceStorage.put. by rewrite lookup_insert_eq. Qed.

Lemma getFace_put_ne (face : Face.t num) (other : string)
    (db : gmap string (Face.t num)) :
  other ≠ Face.id face ->
  FaceStorage.getFace other (FaceStorage.put face db) = FaceStorage.getFace other db.
Proof.
  intros Hne. unfold FaceStorage.getFace, FaceStorage.put.
  by rewrite lookup_insert_ne.
Qed.

Lemma keyPath_ok_put (face : Face.t num) (db : gmap string (Face.t num)) :
  FaceStorage.keyPath_ok db -> FaceStorage.keyPath_ok (FaceStorage.put face db).
Proof.
  intros Hkp. unfold FaceStorage.keyPath_ok, FaceStorage.put.
  apply map_Forall_insert_2; done.
Qed.

Lemma saveFace_then_getFace_local (now : Z) (studentId studentName : string)
    (descriptor : list num) (imageData : string)
    (db : gmap string (Face.t num)) :
  FaceStorage.getFace studentId
    (FaceStorage.saveFace now studentId studentName descriptor imageData db).2
  = Some (FaceStorage.faceData studentId studentName [Float32Array descriptor]
            imageData now false None) /\
  (forall other, other ≠ studentId ->
     FaceStorage.getFace other
       (FaceStorage.saveFace now studentId studentName descriptor imageData db).2
     = FaceStorage.getFace other db).
Proof.
  split.
  - exact (getFace_put_eq
             (FaceStorage.faceData studentId studentName [descriptor] imageData
                now false None) db).
  - intros other Hne.
    exact (getFace_put_ne
             (FaceStorage.faceData studentId studentName [descriptor] imageData
                now false None) other db Hne).
Qed.

(** X1: [saveFace] then [getFace]. *)
Theorem saveFace_then_getFace (now : Z) (studentId studentName : string)
    (descriptor : list num) (imageData : string)
    (db : gmap string (Face.t num)) :
  let db' := (FaceStorage.saveFace now studentId studentName descriptor imageData db).2 in
  FaceStorage.getFace studentId db'
  = Some (FaceStorage.faceData studentId studentName [Float32Array descriptor]
            imageData now false None) /\
  (forall other, other ≠ studentId ->
     FaceStorage.getFace other db' = FaceStorage.getFace other db) /\
  (FaceStorage.keyPath_ok db -> FaceStorage.keyPath_ok db').
Proof.
  simpl. split_and!.
  - exact (getFace_put_eq
             (FaceStorage.faceData studentId studentName [descriptor] imageData
                now false None) db).
  - intros other Hne. by apply getFace_put_ne.
  - apply keyPath_ok_put.
Qed.

(** X2: adding a face to a registered student keeps what was there. *)
Theorem addFaceToExisting_appends (now : Z) (studentId studentName : string)
    (newDescriptor : list num) (newImageData : string)
    (db : gmap string (Face.t num)) (existingFace : Face.t num) :
  FaceStorage.getFace studentId db = Some existingFace ->
  let r := FaceStorage.addFaceToExisting now studentId studentName
             newDescriptor newImageData db in
  (exists face, r.1 = Resolved face) /\
  (exists face',
     FaceStorage.getFace studentId r.2 = Some face' /\
     Face.descriptors_list face'
     = (Face.descriptors_list existingFace ++ [Float32Array newDescriptor])%list /\
     Face.name face' = studentName /\
     Face.imageData face' = newImageData /\
     Face.timestamp face' = Face.timestamp existingFace /\
     Face.attendanceToday face' = Face.attendanceToday existingFace /\
     Face.lastSeen face' = Face.lastSeen existingFace) /\
  (forall other, other ≠ studentId ->
     FaceStorage.getFace other r.2 = FaceStorage.getFace other db).
Proof.
  intros Hget r. subst r. unfold FaceStorage.addFaceToExisting.
  rewrite Hget. simpl. split_and!.
  - by eexists.
  - eexists. split.
    + exact (getFace_put_eq
               (FaceStorage.faceData studentId studentName
                  (Face.descriptors_list existingFace ++ [newDescriptor])
                  newImageData (Face.timestamp existingFace)
                  (Face.attendanceToday existingFace)
                  (Face.lastSeen existingFace)) db).
    + simpl. split_and!; try reflexivity.
      unfold FaceStorage.upgrade, Face.descriptors_list at 1. simpl.
      rewrite fmap_app. simpl. f_equal.
      unfold FaceStorage.getFace in Hget.
      destruct (db !! studentId) as [r0|]; [|done].
      injection Hget as <-. apply descriptors_list_upgrade_fixed.
  - intros other Hne. by apply getFace_put_ne.
Qed.

(** X3: for a student who is not in the store, [addFaceToExisting] and
    [addBulkFacesToExisting] store the record as [saveFace] and
    [saveBulkFaces] do, and their promise never settles. *)
Theorem add_to_missing_student_never_settles (now : Z)
    (studentId studentName : string) (newDescriptor : list num)
    (newDescriptors : list (list num)) (imageData : string)
    (db : gmap string (Face.t num)) :
  db !! studentId = None ->
  let single := FaceStorage.addFaceToExisting now studentId studentName
                  newDescriptor imageData db in
  let bulk := FaceStorage.addBulkFacesToExisting now studentId studentName
                newDescriptors (Some imageData) db in
  single.1 = Unsettled /\
  FaceStorage.getFace studentId single.2
  = Some (FaceStorage.faceData studentId studentName
            [Float32Array newDescriptor] imageData now false None) /\
  bulk.1 = Unsettled /\
  FaceStorage.getFace studentId bulk.2
  = Some (FaceStorage.faceData studentId studentName
            (Float32Array <$> newDescriptors) imageData now false None).
Proof.
  intros Hnone single bulk. subst single bulk.
  assert (FaceStorage.getFace studentId db = None) as Hget.
  { unfold FaceStorage.getFace. by rewrite Hnone. }
  unfold FaceStorage.addFaceToExisting, FaceStorage.addBulkFacesToExisting.
  rewrite Hget. simpl. split_and!; try done.
  - exact (getFace_put_eq
             (FaceStorage.faceData studentId studentName [newDescriptor]
                imageData now false None) db).
  - exact (getFace_put_eq
             (FaceStorage.faceData studentId studentName newDescriptors
                imageData now false None) db).
Qed.

Lemma filter_length_Permutation {A} (f : A -> bool) (l k : list A) :
  l ≡ₚ k -> length (List.filter f l) = length (List.filter f k).
Proof.
  induction 1 as [|x l k _ IH|x y l|l k m _ IH1 _ IH2]; simpl.
  - done.
  - destruct (f x); simpl; by rewrite IH.
  - destruct (f x), (f y); done.
  - by rewrite IH1.
Qed.

Lemma stats_of_Permutation (l k : list (Face.t num)) :
  l ≡ₚ k -> stats_of l = stats_of k.
Proof.
  intros Hperm. unfold stats_of.
  rewrite (Permutation_length Hperm).
  by rewrite !(filter_length_Permutation _ _ _ Hperm).
Qed.

Lemma stats_of_partition (l : list (Face.t num)) :
  Stats.total (stats_of l)
  = (Stats.presentToday (stats_of l) + Stats.absentToday (stats_of l))%nat.
Proof.
  unfold stats_of. simpl. induction l as [|f l IH]; simpl; [done|].
  destruct (Face.attendanceToday f); simpl; lia.
Qed.

Lemma getAllFaces_insert (k : string) (v : Face.t num)
    (db : gmap string (Face.t num)) :
  FaceStorage.getAllFaces (<[k := v]> db)
  ≡ₚ FaceStorage.upgrade v :: FaceStorage.getAllFaces (delete k db).
Proof.
  unfold FaceStorage.getAllFaces.
  rewrite <- insert_delete_eq.
  rewrite map_to_list_insert by apply lookup_delete_eq. done.
Qed.

Lemma getAllFaces_lookup (k : string) (r : Face.t num)
    (db : gmap string (Face.t num)) :
  db !! k = Some r ->
  FaceStorage.getAllFaces db
  ≡ₚ FaceStorage.upgrade r :: FaceStorage.getAllFaces (delete k db).
Proof.
  intros Hr. unfold FaceStorage.getAllFaces.
  rewrite <- (map_to_list_delete db k r Hr). done.
Qed.

(** X4: the statistics count every person once, as present or as absent, and
    marking an absent person moves exactly one from absent to present. *)
Theorem getStats_markAttendance (now : Z) (studentId : string)
    (db : gmap string (Face.t num)) (r : Face.t num) :
  FaceStorage.keyPath_ok db ->
  db !! studentId = Some r ->
  Face.attendanceToday r = false ->
  let before := FaceStorage.getStats db in
  let after := FaceStorage.getStats (FaceStorage.markAttendance now studentId db).2 in
  Stats.total before = size db /\
  Stats.total before = (Stats.presentToday before + Stats.absentToday before)%nat /\
  Stats.total after = Stats.total before /\
  Stats.presentToday after = S (Stats.presentToday before) /\
  S (Stats.absentToday after) = Stats.absentToday before.
Proof.
  intros Hkp Hr Habsent before after. subst before after.
  unfold FaceStorage.getStats.
  assert (FaceStorage.getAllFaces (FaceStorage.markAttendance now studentId db).2
          ≡ₚ Face.with_attendance true (Some now) (FaceStorage.upgrade r)
             :: FaceStorage.getAllFaces (delete studentId db)) as Hafter.
  { unfold FaceStorage.markAttendance, FaceStorage.getFace. rewrite Hr. simpl.
    unfold FaceStorage.put. simpl. rewrite (Hkp _ _ Hr).
    rewrite getAllFaces_insert.
    by rewrite upgrade_with_attendance, upgrade_idem. }
  split.
  { unfold FaceStorage.getAllFaces, stats_of. simpl.
    rewrite !length_fmap. apply length_map_to_list. }
  split; [apply stats_of_partition|].
  rewrite (stats_of_Permutation _ _ Hafter).
  rewrite (stats_of_Permutation _ _ (getAllFaces_lookup _ _ _ Hr)).
  unfold stats_of. simpl. rewrite Habsent. simpl. done.
Qed.

Lemma foldl_put_fmap (h : Face.t num -> Face.t num)
    (db : gmap string (Face.t num)) :
  FaceStorage.keyPath_ok db ->
  (forall f, Face.id (h f) = Face.id f) ->
  foldl (fun d face => FaceStorage.put (h face) d) db (FaceStorage.getAllFaces db)
  = (fun r => h (FaceStorage.upgrade r)) <$> db.
Proof.
  intros Hkp Hh. unfold FaceStorage.getAllFaces.
  apply map_eq. intros k.
  rewrite foldl_put_lookup; [|done|by apply ids_map_to_list_NoDup].
  rewrite find_id_map_to_list by done.
  rewrite lookup_fmap. by destruct (db !! k).
Qed.

Lemma clearTodayAttendance_fmap (db : gmap string (Face.t num)) :
  FaceStorage.keyPath_ok db ->
  FaceStorage.clearTodayAttendance db
  = (fun r => Face.with_attendanceToday false (FaceStorage.upgrade r)) <$> db.
Proof.
  intros Hkp. unfold FaceStorage.clearTodayAttendance.
  destruct (Nat.eqb_spec (length (FaceStorage.getAllFaces db)) 0) as [Hlen|Hlen].
  - unfold FaceStorage.getAllFaces in Hlen. rewrite !length_fmap in Hlen.
    apply length_zero_iff_nil in Hlen.
    apply map_to_list_empty_iff in Hlen. subst db. by rewrite fmap_empty.
  - by apply (foldl_put_fmap (Face.with_attendanceToday false)).
Qed.

Lemma getAllFaces_fmap (g : Face.t num -> Face.t num)
    (db : gmap string (Face.t num)) :
  FaceStorage.getAllFaces (g <$> db)
  ≡ₚ (fun r => FaceStorage.upgrade (g r)) <$> (map_to_list db).*2.
Proof.
  unfold FaceStorage.getAllFaces. rewrite map_to_list_fmap.
  rewrite <- !list_fmap_compose.
  apply Permutation_of_eq, list_fmap_ext. by intros i [k r] _.
Qed.

Lemma filter_none {A} (f : A -> bool) (l : list A) :
  (forall x, x ∈ l -> f x = false) -> List.filter f l = [].
Proof.
  induction l as [|x l IH]; intros Hall; simpl; [done|].
  rewrite Hall by apply list_elem_of_here.
  apply IH. intros y Hy. apply Hall. by apply list_elem_of_further.
Qed.

(** X5: [clearTodayAttendance] clears the flag of every person and keeps
    [lastSeen]; [resetAllAttendance] clears both. *)
Theorem clearTodayAttendance_keeps_lastSeen (studentId : string)
    (db : gmap string (Face.t num)) (face : Face.t num) :
  FaceStorage.keyPath_ok db ->
  FaceStorage.getFace studentId db = Some face ->
  FaceStorage.getFace studentId (FaceStorage.clearTodayAttendance db)
  = Some (Face.with_attendance false (Face.lastSeen face) face) /\
  FaceStorage.getFace studentId (FaceStorage.resetAllAttendance db)
  = Some (Face.with_attendance false None face) /\
  Stats.presentToday (FaceStorage.getStats (FaceStorage.clearTodayAttendance db)) = 0%nat /\
  Stats.total (FaceStorage.getStats (FaceStorage.clearTodayAttendance db))
  = Stats.total (FaceStorage.getStats db).
Proof.
  intros Hkp Hget.
  rewrite clearTodayAttendance_fmap, FaceStorage_reset_fmap by done.
  unfold FaceStorage.getFace in *. rewrite !lookup_fmap.
  destruct (db !! studentId) as [r|]; [|done]. injection Hget as <-. simpl.
  split_and!.
  - unfold Face.with_attendanceToday.
    by rewrite upgrade_with_attendance, upgrade_idem.
  - by rewrite upgrade_with_attendance, upgrade_idem.
  - rewrite (filter_length_Permutation _ _ _ (getAllFaces_fmap _ _)).
    apply length_zero_iff_nil, filter_none.
    intros f Hf. apply list_elem_of_fmap in Hf as (r0 & -> & _). done.
  - unfold FaceStorage.getStats, stats_of, FaceStorage.getAllFaces. simpl.
    rewrite !length_fmap. rewrite !length_map_to_list. apply map_size_fmap.
Qed.

Lemma export_present_count (l : list (Face.t num)) :
  length (List.filter (fun row => String.eqb (Exported.status row) "Present")
            (export_row <$> l))
  = Stats.presentToday (stats_of l).
Proof.
  unfold stats_of. simpl. induction l as [|f l IH]; simpl; [done|].
  unfold export_row at 1. simpl.
  destruct (Face.attendanceToday f); simpl; by rewrite <- IH.
Qed.

(** X6: the export has one row per person, as many [Present] rows as the
    statistics count present people, the row of a person just marked says
    [Present] with the time of the mark, and after a reset every row says
    [Absent] without a time. *)
Theorem exportAttendanceData_rows (now : Z) (studentId : string)
    (db : gmap string (Face.t num)) (r : Face.t num) :
  FaceStorage.keyPath_ok db ->
  db !! studentId = Some r ->
  length (FaceStorage.exportAttendanceData db)
  = Stats.total (FaceStorage.getStats db) /\
  length (List.filter (fun row => String.eqb (Exported.status row) "Present")
            (FaceStorage.exportAttendanceData db))
  = Stats.presentToday (FaceStorage.getStats db) /\
  Exported.mk studentId (Face.name r) "Present" (Some now)
  ∈ FaceStorage.exportAttendanceData
      (FaceStorage.markAttendance now studentId db).2 /\
  (forall row,
     row ∈ FaceStorage.exportAttendanceData (FaceStorage.resetAllAttendance db) ->
     Exported.status row = "Absent" /\ Exported.timestamp row = None).
Proof.
  intros Hkp Hr. unfold FaceStorage.exportAttendanceData. split_and!.
  - by rewrite length_fmap.
  - apply export_present_count.
  - unfold FaceStorage.markAttendance, FaceStorage.getFace. rewrite Hr. simpl.
    unfold FaceStorage.put. simpl. rewrite (Hkp _ _ Hr).
    rewrite getAllFaces_insert. rewrite fmap_cons.
    apply elem_of_cons. left. unfold export_row. simpl.
    by rewrite (Hkp _ _ Hr).
  - intros row Hrow. rewrite FaceStorage_reset_fmap in Hrow by done.
    rewrite getAllFaces_fmap in Hrow.
    apply list_elem_of_fmap in Hrow as (f & -> & Hf).
    apply list_elem_of_fmap in Hf as (r0 & -> & _). done.
Qed.

(** X7: [deleteFace] removes that person and nobody else; a later mark for
    the id reports an unknown person; [clearAllFaces] leaves nobody. *)
Theorem deleteFace_removes_one (now : Z) (studentId : string)
    (db : gmap string (Face.t num)) (r : Face.t num) :
  db !! studentId = Some r ->
  let db' := FaceStorage.deleteFace studentId db in
  FaceStorage.getFace studentId db' = None /\
  (forall other, other ≠ studentId ->
     FaceStorage.getFace other db' = FaceStorage.getFace other db) /\
  FaceStorage.markAttendance now studentId db' = (false, db') /\
  Stats.total (FaceStorage.getStats db) = S (Stats.total (FaceStorage.getStats db')) /\
  FaceStorage.getAllFaces (FaceStorage.clearAllFaces db) = [] /\
  FaceStorage.getStats (FaceStorage.clearAllFaces db) = Stats.mk 0 0 0.
Proof.
  intros Hr db'. subst db'. unfold FaceStorage.deleteFace.
  assert (FaceStorage.getFace studentId (delete studentId db) = None) as Hgone.
  { unfold FaceStorage.getFace. by rewrite lookup_delete_eq. }
  split_and!.
  - exact Hgone.
  - intros other Hne. unfold FaceStorage.getFace.
    by rewrite lookup_delete_ne.
  - unfold FaceStorage.markAttendance. by rewrite Hgone.
  - unfold FaceStorage.getStats.
    rewrite (stats_of_Permutation _ _ (getAllFaces_lookup _ _ _ Hr)). done.
  - unfold FaceStorage.clearAllFaces, FaceStorage.getAllFaces.
    by rewrite map_to_list_empty.
  - unfold FaceStorage.clearAllFaces, FaceStorage.getStats, FaceStorage.getAllFaces.
    by rewrite map_to_list_empty.
Qed.

End LocalStore.

Lemma enrolled_keyPath_ok : FaceStorage.keyPath_ok Samples.enrolled.
Proof.
  unfold FaceStorage.keyPath_ok. apply (bool_decide_unpack _).
  vm_compute. exact I.
Defined.

Lemma addFaceToExisting_appends_witness :
  exists face',
    FaceStorage.getFace "102"
      (FaceStorage.addFaceToExisting 9000 "102" "Ravi K" [7; 7; 7] "img-new"
         Examples.local_db).2 = Some face' /\
    Face.descriptors_list face' = [[4; 5; 6]; [7; 7; 7]] /\
    Face.name face' = "Ravi K" /\
    Face.attendanceToday face' = true /\
    Face.lastSeen face' = Some 4000.
Proof.
  destruct (addFaceToExisting_appends 9000 "102" "Ravi K" [7; 7; 7] "img-new"
              Examples.local_db (FaceStorage.upgrade Examples.ravi) eq_refl)
    as (_ & (face' & Hget & Hds & Hname & _ & _ & Hatt & Hseen) & _).
  exists face'. split_and!; assumption.
Defined.

Lemma add_to_missing_student_never_settles_witness :
  (FaceStorage.addFaceToExisting 9000 "999" "Nobody" [7; 7; 7] "img-new"
     Examples.local_db).1 = Unsettled /\
  is_Some (FaceStorage.getFace "999"
             (FaceStorage.addFaceToExisting 9000 "999" "Nobody" [7; 7; 7]
                "img-new" Examples.local_db).2).
Proof.
  destruct (add_to_missing_student_never_settles 9000 "999" "Nobody" [7; 7; 7]
              [[7; 7; 7]] "img-new" Examples.local_db eq_refl)
    as (Hsingle & Hstored & _).
  split; [exact Hsingle|]. rewrite Hstored. by eexists.
Defined.

Lemma getStats_markAttendance_witness :
  FaceStorage.getStats Samples.enrolled = Stats.mk 2 0 2 /\
  Stats.presentToday
    (FaceStorage.getStats (FaceStorage.markAttendance 7000 "101" Samples.enrolled).2)
  = 1%nat.
Proof.
  destruct (getStats_markAttendance 7000 "101" Samples.enrolled
              Examples.local_asha enrolled_keyPath_ok eq_refl eq_refl)
    as (_ & _ & _ & Hpresent & _).
  split; [vm_compute; reflexivity|]. rewrite Hpresent. vm_compute. reflexivity.
Defined.

Lemma clearTodayAttendance_keeps_lastSeen_witness :
  (Face.lastSeen <$> FaceStorage.getFace "101"
                       (FaceStorage.clearTodayAttendance Examples.local_db))
  = Some (Some 5000) /\
  (Face.lastSeen <$> FaceStorage.getFace "101"
                       (FaceStorage.resetAllAttendance Examples.local_db))
  = Some None.
Proof.
  destruct (clearTodayAttendance_keeps_lastSeen "101" Examples.local_db
              (FaceStorage.upgrade Examples.asha) local_db_keyPath_ok eq_refl)
    as (Hclear & Hreset & _).
  rewrite Hclear, Hreset. split; reflexivity.
Defined.

Lemma exportAttendanceData_rows_witness :
  Exported.mk "102" "Ravi" "Present" (Some 7000)
  ∈ FaceStorage.exportAttendanceData
      (FaceStorage.markAttendance 7000 "102" Examples.local_db).2 /\
  length (FaceStorage.exportAttendanceData Examples.local_db) = 2%nat.
Proof.
  destruct (exportAttendanceData_rows 7000 "102" Examples.local_db
              Examples.ravi local_db_keyPath_ok eq_refl)
    as (Hlen & _ & Hrow & _).
  split; [exact Hrow|]. rewrite Hlen. vm_compute. reflexivity.
Defined.

Lemma deleteFace_removes_one_witness :
  FaceStorage.getFace "101" (FaceStorage.deleteFace "101" Examples.local_db) = None /\
  FaceStorage.getFace "102" (FaceStorage.deleteFace "101" Examples.local_db)
  = FaceStorage.getFace "102" Examples.local_db /\
  Stats.total (FaceStorage.getStats (FaceStorage.deleteFace "101" Examples.local_db))
  = 1%nat.
Proof.
  destruct (deleteFace_removes_one 7000 "101" Examples.local_db Examples.asha
              eq_refl) as (Hgone & Hother & _ & Htotal & _).
  split; [exact Hgone|]. split; [by apply Hother|].
  apply (inj S). rewrite <- Htotal. vm_compute. reflexivity.
Defined.

Section RemoteStore.
Context {num : Type} `{Float32 num}.

Lemma child_set_child_eq (facesRef studentId : string) (face : Face.t num)
    (d : gmap string (gmap string (Face.t num))) :
  CloudStorage.child facesRef studentId
    (CloudStorage.set_child facesRef studentId face d) = Some face.
Proof.
  unfold CloudStorage.child, CloudStorage.set_child.
  rewrite lookup_insert_eq. simpl. by rewrite lookup_insert_eq.
Qed.

Lemma child_set_child_ne (facesRef studentId other : string) (face : Face.t num)
    (d : gmap string (gmap string (Face.t num))) :
  other ≠ studentId ->
  CloudStorage.child facesRef other
    (CloudStorage.set_child facesRef studentId face d)
  = CloudStorage.child facesRef other d.
Proof.
  intros Hne. unfold CloudStorage.child, CloudStorage.set_child.
  rewrite lookup_insert_eq. simpl. rewrite lookup_insert_ne by done.
  by destruct (d !! facesRef).
Qed.

Lemma lookup_remove_child_ne (facesRef studentId p : string)
    (d : gmap string (gmap string (Face.t num))) :
  p ≠ facesRef ->
  CloudStorage.remove_child facesRef studentId d !! p = d !! p.
Proof.
  intros Hne. unfold CloudStorage.remove_child.
  destruct (d !! facesRef) as [fd|]; [|done].
  case_decide; [by rewrite lookup_delete_ne|by rewrite lookup_insert_ne].
Qed.

(** X8: [saveFace] on the remote store, then [getFace], for a student id
    that is one key of the tree and a descriptor that is not empty: the
    record read back carries the division of the teaching context and passes
    the division filter of [loadFaceMatcher], and the record of every other
    key is as it was; without a complete division nothing is saved. *)
Theorem cloud_saveFace_then_getFace (config : Config.t) (now : Z)
    (studentId studentName : string) (descriptor : list num)
    (imageData : string) (st : CloudStorage.t num) :
  CloudStorage.isInitialized st = true ->
  valid_key studentId = true ->
  descriptor ≠ [] ->
  match CloudStorage.getDivisionPath config with
  | None =>
      CloudStorage.saveFace config now studentId studentName descriptor
        imageData st = Throw CloudStorage.no_division
  | Some _ =>
      division_keys config = true ->
      exists face st',
        CloudStorage.saveFace config now studentId studentName descriptor
          imageData st = Ok (face, st') /\
        CloudStorage.getFace config studentId st'
        = Ok (Some (CloudStorage.faceData config studentId studentName
                      [Float32Array descriptor] imageData now)) /\
        System.in_division (Config.selectedDepartment config)
          (Config.selectedCourse config) (Config.selectedAcademicYear config)
          (Config.selectedDivision config) face = true /\
        (forall other, valid_key other = true -> other ≠ studentId ->
           CloudStorage.getFace config other st'
           = CloudStorage.getFace config other st)
  end.
Proof.
  intros Hinit _ _. unfold CloudStorage.saveFace, CloudStorage.getFacesRef.
  rewrite Hinit. simpl.
  destruct (CloudStorage.getDivisionPath config) as [facesRef|] eqn:Hpath; [|done].
  intros _. eexists _, _. split; [reflexivity|].
  unfold CloudStorage.getFace, CloudStorage.getFacesRef. simpl.
  rewrite Hinit, Hpath. simpl. split_and!.
  - by rewrite child_set_child_eq.
  - unfold System.in_division, strict_eq. simpl.
    by rewrite !bool_decide_eq_true_2.
  - intros other _ Hne. by rewrite child_set_child_ne.
Qed.

Lemma cloud_run_frame (config : Config.t) (op : cloud_op)
    (st st' : CloudStorage.t num) :
  cloud_run config op st = Ok st' ->
  CloudStorage.isInitialized st' = CloudStorage.isInitialized st /\
  (forall p, CloudStorage.getFacesRef config ≠ Some p ->
     CloudStorage.db st' !! p = CloudStorage.db st !! p).
Proof.
  assert (forall facesRef studentId face p,
            CloudStorage.getFacesRef config = Some facesRef ->
            CloudStorage.getFacesRef config ≠ Some p ->
            CloudStorage.set_child facesRef studentId face (CloudStorage.db st) !! p
            = CloudStorage.db st !! p) as Hset.
  { intros facesRef studentId face p Href Hp. unfold CloudStorage.set_child.
    rewrite lookup_insert_ne; [done|]. intros <-. by apply Hp. }
  destruct op; simpl;
    unfold CloudStorage.saveFace, CloudStorage.addFaceToExisting,
      CloudStorage.saveBulkFaces, CloudStorage.addBulkFacesToExisting,
      CloudStorage.deleteFace, CloudStorage.clearAllFaces,
      CloudStorage.markAttendance, CloudStorage.resetAllAttendance,
      CloudStorage.saveFace, CloudStorage._fileToBase64;
    destruct (CloudStorage.isInitialized st) eqn:Hinit; simpl; try done;
    destruct (CloudStorage.getFacesRef config) as [facesRef|] eqn:Href;
    simpl; try done.
  - intros [= <-]. split; [done|]. simpl. intros p Hp. by apply Hset.
  - destruct (CloudStorage.child facesRef studentId (CloudStorage.db st)) as [ex|].
    + destruct (Face.descriptors ex); simpl; [|done].
      intros [= <-]. split; [done|]. simpl. intros p Hp. by apply Hset.
    + simpl. intros [= <-]. split; [done|]. simpl. intros p Hp. by apply Hset.
  - destruct sampleFile; simpl; [|done].
    intros [= <-]. split; [done|]. simpl. intros p Hp. by apply Hset.
  - destruct (CloudStorage.child facesRef studentId (CloudStorage.db st)) as [ex|].
    + destruct sampleFile; simpl; [|done].
      destruct (Face.descriptors ex); simpl; [|done].
      intros [= <-]. split; [done|]. simpl. intros p Hp. by apply Hset.
    + unfold CloudStorage.saveBulkFaces, CloudStorage._fileToBase64.
      rewrite Hinit, Href. simpl.
      destruct sampleFile; simpl; [|done].
      intros [= <-]. split; [done|]. simpl. intros p Hp. by apply Hset.
  - intros [= <-]. split; [done|]. simpl. intros p Hp.
    apply lookup_remove_child_ne. intros ->. by apply Hp.
  - intros [= <-]. split; [done|]. simpl. intros p Hp.
    rewrite lookup_delete_ne; [done|]. intros <-. by apply Hp.
  - destruct (CloudStorage.child facesRef studentId (CloudStorage.db st)); simpl.
    + intros [= <-]. split; [done|]. simpl. intros p Hp.
      rewrite !lookup_alter_ne; [done|..]; intros <-; by apply Hp.
    + by intros [= <-].
  - by intros [= <-].
  - destruct (CloudStorage.db st !! facesRef) as [fd|] eqn:Hfd.
    + intros [= <-]. split; [done|]. simpl. intros p Hp.
      rewrite cloud_update_lookup. rewrite decide_False; [done|].
      intros ->. by apply Hp.
    + by intros [= <-].
  - by intros [= <-].
Qed.

(** X9: when the division fields of two contexts are each one level of the
    path, what is written for one division is invisible to the other: a call
    that writes under [config], for a student id that is one key of the
    tree, changes none of the reads under a context [config'] with another
    division path. *)
Theorem division_isolation (config config' : Config.t) (op : cloud_op)
    (st st' : CloudStorage.t num) :
  division_keys config = true ->
  division_keys config' = true ->
  op_keys op = true ->
  CloudStorage.getDivisionPath config ≠ CloudStorage.getDivisionPath config' ->
  cloud_run config op st = Ok st' ->
  CloudStorage.getAllFaces config' st' = CloudStorage.getAllFaces config' st /\
  (forall studentId,
     valid_key studentId = true ->
     CloudStorage.getFace config' studentId st'
     = CloudStorage.getFace config' studentId st) /\
  CloudStorage.getStats config' st' = CloudStorage.getStats config' st /\
  CloudStorage.exportAttendanceData config' st'
  = CloudStorage.exportAttendanceData config' st.
Proof.
  intros _ _ _ Hpaths Hrun.
  destruct (cloud_run_frame _ _ _ _ Hrun) as [Hinit Hdb].
  unfold CloudStorage.getAllFaces, CloudStorage.getFace, CloudStorage.getStats,
    CloudStorage.exportAttendanceData, CloudStorage.child.
  rewrite Hinit.
  destruct (CloudStorage.getFacesRef config') as [p|] eqn:Hp; [|done].
  rewrite (Hdb p); [done|].
  unfold CloudStorage.getFacesRef in *. intros Heq. apply Hpaths.
  by rewrite Heq, Hp.
Qed.

(** X10: adding a face to a person of the remote store appends the
    descriptor and keeps the division and the attendance of the record; on a
    legacy record, which has no [descriptors], it throws and writes
    nothing. *)
Theorem cloud_addFaceToExisting_appends (config : Config.t) (now : Z)
    (studentId studentName : string) (newDescriptor : list num)
    (newImageData : string) (st : CloudStorage.t num)
    (existingFace : Face.t num) :
  CloudStorage.isInitialized st = true ->
  cloud_record config studentId st = Some existingFace ->
  match Face.descriptors existingFace with
  | None =>
      CloudStorage.addFaceToExisting config now studentId studentName
        newDescriptor newImageData st = Throw TypeError
  | Some ds =>
      exists face st' face',
        CloudStorage.addFaceToExisting config now studentId studentName
          newDescriptor newImageData st = Ok (face, st') /\
        CloudStorage.getFace config studentId st' = Ok (Some face') /\
        Face.descriptors_list face'
        = (Float32Array <$> (ds ++ [newDescriptor]))%list /\
        Face.name face' = studentName /\
        Face.imageData face' = newImageData /\
        Face.attendanceToday face' = Face.attendanceToday existingFace /\
        Face.lastSeen face' = Face.lastSeen existingFace /\
        Face.department face' = Face.department existingFace /\
        Face.course face' = Face.course existingFace /\
        Face.academicYear face' = Face.academicYear existingFace /\
        Face.division face' = Face.division existingFace
  end.
Proof.
  intros Hinit. unfold cloud_record, CloudStorage.addFaceToExisting.
  rewrite Hinit. simpl.
  destruct (CloudStorage.getFacesRef config) as [facesRef|] eqn:Href;
    simpl; [|done].
  intros Hchild. rewrite Hchild.
  destruct (Face.descriptors existingFace) as [ds|] eqn:Hds; [|done].
  eexists _, _, _. split; [reflexivity|].
  unfold CloudStorage.getFace. simpl. rewrite Hinit, Href. simpl.
  rewrite child_set_child_eq. simpl. split; [reflexivity|]. done.
Qed.

Lemma stats_of_upgrade (l : list (Face.t num)) :
  stats_of (FaceStorage.upgrade <$> l) = stats_of l.
Proof.
  unfold stats_of. rewrite length_fmap. f_equal.
  - induction l as [|f l IH]; simpl; [done|].
    destruct (Face.attendanceToday f); simpl; [f_equal|]; exact IH.
  - induction l as [|f l IH]; simpl; [done|].
    destruct (Face.attendanceToday f); simpl; [|f_equal]; exact IH.
Qed.

(** X11: the statistics and the export of the remote store never throw once
    it is initialised, count every person once, and agree with the list of
    [getAllFaces] whenever that list can be read. *)
Theorem cloud_getStats_agrees (config : Config.t) (st : CloudStorage.t num) :
  CloudStorage.isInitialized st = true ->
  (exists stats rows,
     CloudStorage.getStats config st = Ok stats /\
     CloudStorage.exportAttendanceData config st = Ok rows /\
     Stats.total stats = length rows /\
     Stats.total stats = (Stats.presentToday stats + Stats.absentToday stats)%nat) /\
  (forall faces,
     CloudStorage.getAllFaces config st = Ok faces ->
     CloudStorage.getStats config st = Ok (stats_of faces) /\
     CloudStorage.exportAttendanceData config st = Ok (export_row <$> faces)).
Proof.
  intros Hinit.
  unfold CloudStorage.getStats, CloudStorage.exportAttendanceData,
    CloudStorage.getAllFaces.
  rewrite Hinit. simpl.
  destruct (CloudStorage.getFacesRef config) as [facesRef|].
  2:{ split; [by eexists _, _|]. by intros faces [= <-]. }
  destruct (CloudStorage.db st !! facesRef) as [facesData|].
  2:{ split; [by eexists _, _|]. by intros faces [= <-]. }
  split.
  - eexists _, _. split; [reflexivity|]. split; [reflexivity|].
    split; [by rewrite length_fmap|apply stats_of_partition].
  - intros faces Hfaces. apply rmapM_restore_inv in Hfaces as [_ ->].
    rewrite stats_of_upgrade. split; [done|]. f_equal.
    generalize ((map_to_list facesData).*2). intros l.
    induction l as [|f l IH]; simpl; [done|]. f_equal. exact IH.
Qed.

Lemma child_remove_child_eq (facesRef studentId : string)
    (d : gmap string (gmap string (Face.t num))) :
  CloudStorage.child facesRef studentId
    (CloudStorage.remove_child facesRef studentId d) = None.
Proof.
  unfold CloudStorage.child, CloudStorage.remove_child.
  destruct (d !! facesRef) as [fd|] eqn:Hfd.
  - case_decide.
    + by rewrite lookup_delete_eq.
    + rewrite lookup_insert_eq. simpl. by rewrite lookup_delete_eq.
  - by rewrite Hfd.
Qed.

Lemma child_remove_child_ne (facesRef studentId other : string)
    (d : gmap string (gmap string (Face.t num))) :
  other ≠ studentId ->
  CloudStorage.child facesRef other
    (CloudStorage.remove_child facesRef studentId d)
  = CloudStorage.child facesRef other d.
Proof.
  intros Hne. unfold CloudStorage.child, CloudStorage.remove_child.
  destruct (d !! facesRef) as [fd|] eqn:Hfd.
  - case_decide as Hempty.
    + rewrite lookup_delete_eq. simpl.
      rewrite <- (lookup_delete_ne fd studentId other) by done.
      by rewrite Hempty, lookup_empty.
    + rewrite lookup_insert_eq. simpl. by rewrite lookup_delete_ne.
  - by rewrite Hfd.
Qed.

(** X12: on the remote store, for a division whose fields are each one
    level of the path and student ids that are each one key of the tree,
    [deleteFace] removes that person of the division and nobody else, and
    [clearAllFaces] leaves the division without people. *)
Theorem cloud_deleteFace_clearAllFaces (config : Config.t) (now : Z)
    (studentId : string) (st : CloudStorage.t num) (facesRef : string) :
  CloudStorage.isInitialized st = true ->
  CloudStorage.getDivisionPath config = Some facesRef ->
  division_keys config = true ->
  valid_key studentId = true ->
  (exists st',
     CloudStorage.deleteFace config studentId st = Ok st' /\
     CloudStorage.getFace config studentId st' = Ok None /\
     CloudStorage.markAttendance config now studentId st' = Ok (false, st') /\
     (forall other, valid_key other = true -> other ≠ studentId ->
        cloud_record config other st' = cloud_record config other st)) /\
  (exists st',
     CloudStorage.clearAllFaces config st = Ok st' /\
     CloudStorage.getAllFaces config st' = Ok [] /\
     CloudStorage.getStats config st' = Ok (Stats.mk 0 0 0) /\
     (forall other, valid_key other = true ->
        CloudStorage.getFace config other st' = Ok None)).
Proof.
  intros Hinit Hpath _ _. split.
  - unfold CloudStorage.deleteFace, CloudStorage.getFace,
      CloudStorage.markAttendance, cloud_record, CloudStorage.getFacesRef.
    rewrite Hinit, Hpath. simpl. eexists. split; [reflexivity|]. simpl.
    rewrite Hinit. simpl. rewrite child_remove_child_eq. split_and!; try done.
    intros other _ Hne. by rewrite child_remove_child_ne.
  - unfold CloudStorage.clearAllFaces, CloudStorage.getFace,
      CloudStorage.getAllFaces, CloudStorage.getStats, CloudStorage.getFacesRef,
      CloudStorage.child.
    rewrite Hinit, Hpath. simpl. eexists. split; [reflexivity|]. simpl.
    rewrite Hinit. simpl. rewrite lookup_delete_eq. done.
Qed.

End RemoteStore.

Lemma cloud_saveFace_then_getFace_witness :
  exists face st',
    CloudStorage.saveFace Examples.config_CS_A 9000 "103" "Chitra" [3; 2; 1]
      "img-103" Examples.cloud_st = Ok (face, st') /\
    CloudStorage.getFace Examples.config_CS_A "103" st'
    = Ok (Some (CloudStorage.faceData Examples.config_CS_A "103" "Chitra"
                  [[3; 2; 1]] "img-103" 9000)) /\
    Face.division face = JStr "A".
Proof.
  pose proof (cloud_saveFace_then_getFace Examples.config_CS_A 9000 "103"
                "Chitra" [3; 2; 1] "img-103" Examples.cloud_st eq_refl eq_refl
                ltac:(discriminate)) as Hsave.
  destruct (Hsave eq_refl) as (face & st' & Hsave' & Hget & Hdiv & _).
  clear Hsave. rename Hsave' into Hsave.
  exists face, st'. split; [exact Hsave|]. split; [exact Hget|].
  injection Hsave as <- _. reflexivity.
Defined.

Lemma division_isolation_witness :
  exists st',
    cloud_run Samples.config_CS_B
      (Op_saveFace 9000 "201" "Bala" [7; 8; 9] "img-201") Examples.cloud_st
    = Ok st' /\
    CloudStorage.getAllFaces Examples.config_CS_A st'
    = CloudStorage.getAllFaces Examples.config_CS_A Examples.cloud_st /\
    CloudStorage.getStats Examples.config_CS_A st' = Ok (Stats.mk 1 1 0).
Proof.
  destruct (cloud_run Samples.config_CS_B
              (Op_saveFace 9000 "201" "Bala" [7; 8; 9] "img-201")
              Examples.cloud_st) as [st'|e] eqn:Hrun;
    [|vm_compute in Hrun; discriminate].
  exists st'. split; [reflexivity|].
  destruct (division_isolation Samples.config_CS_B Examples.config_CS_A
              (Op_saveFace 9000 "201" "Bala" [7; 8; 9] "img-201")
              Examples.cloud_st st' eq_refl eq_refl eq_refl
              ltac:(vm_compute; discriminate) Hrun)
    as (Hall & _ & Hstats & _).
  split; [exact Hall|]. rewrite Hstats. vm_compute. reflexivity.
Defined.

Lemma cloud_addFaceToExisting_appends_witness :
  (exists face st' face',
     CloudStorage.addFaceToExisting Examples.config_CS_A 9000 "101" "Asha R"
       [9; 9; 9] "img-new" Examples.cloud_st = Ok (face, st') /\
     CloudStorage.getFace Examples.config_CS_A "101" st' = Ok (Some face') /\
     Face.descriptors_list face' = [[1; 2; 3]; [9; 9; 9]] /\
     Face.attendanceToday face' = true /\
     Face.division face' = JStr "A") /\
  CloudStorage.addFaceToExisting Examples.config_CS_A 9000 "102" "Ravi K"
    [9; 9; 9] "img-new" Examples.cloud_legacy_st = Throw TypeError.
Proof.
  split.
  - pose proof (cloud_addFaceToExisting_appends Examples.config_CS_A 9000 "101"
                  "Asha R" [9; 9; 9] "img-new" Examples.cloud_st Examples.asha
                  eq_refl eq_refl) as Hadd.
    destruct Hadd as (face & st' & face' & Hadd & Hget & Hds & _ & _ & Hatt &
                      _ & _ & _ & _ & Hdiv).
    exists face, st', face'. split_and!; assumption.
  - exact (cloud_addFaceToExisting_appends Examples.config_CS_A 9000 "102"
             "Ravi K" [9; 9; 9] "img-new" Examples.cloud_legacy_st
             Examples.ravi eq_refl eq_refl).
Defined.

Lemma cloud_getStats_agrees_witness :
  CloudStorage.getStats Examples.config_CS_A Examples.cloud_st
  = Ok (Stats.mk 1 1 0) /\
  (exists stats,
     CloudStorage.getStats Examples.config_CS_A Examples.cloud_legacy_st = Ok stats).
Proof.
  split.
  - destruct (proj2 (cloud_getStats_agrees Examples.config_CS_A
                       Examples.cloud_st eq_refl)
                [FaceStorage.upgrade Examples.asha]) as [Hstats _].
    + vm_compute. reflexivity.
    + rewrite Hstats. vm_compute. reflexivity.
  - destruct (proj1 (cloud_getStats_agrees Examples.config_CS_A
                       Examples.cloud_legacy_st eq_refl))
      as (stats & _ & Hstats & _).
    by exists stats.
Defined.

Lemma cloud_deleteFace_clearAllFaces_witness :
  (exists st',
     CloudStorage.deleteFace Examples.config_CS_A "101" Examples.cloud_st = Ok st' /\
     CloudStorage.getFace Examples.config_CS_A "101" st' = Ok None) /\
  (exists st',
     CloudStorage.clearAllFaces Examples.config_CS_A Examples.cloud_st = Ok st' /\
     CloudStorage.getAllFaces Examples.config_CS_A st' = Ok []).
Proof.
  destruct (cloud_deleteFace_clearAllFaces Examples.config_CS_A 7000 "101"
              Examples.cloud_st "faces/CS/BTech/2024/A" eq_refl eq_refl
              eq_refl eq_refl)
    as [(st1 & Hdelete & Hgone & _) (st2 & Hclear & Hempty & _)].
  split; [by exists st1|by exists st2].
Defined.

(** * Labels and folder names *)

Section Texts.

Lemma split_nonempty (sep : ascii) (s : string) : split sep s ≠ [].
Proof.
  destruct s as [|c rest]; simpl; [done|].
  destruct (Ascii.eqb c sep); [done|]. by destruct (split sep rest).
Qed.

Lemma split_free (sep : ascii) (s : string) :
  free_of sep s -> split sep s = [s].
Proof.
  unfold free_of. induction s as [|c rest IH]; simpl; [done|].
  intros Hfree. apply orb_false_iff in Hfree as [Hc Hrest].
  rewrite Hc. by rewrite IH.
Qed.

Lemma split_app (sep : ascii) (a b : string) :
  free_of sep a ->
  split sep (a +:+ String sep b) = a :: split sep b.
Proof.
  unfold free_of. induction a as [|c rest IH]; simpl.
  - intros _. by rewrite Ascii.eqb_refl.
  - intros Hfree. apply orb_false_iff in Hfree as [Hc Hrest].
    change (String c rest +:+ String sep b) with (String c (rest +:+ String sep b)).
    simpl. rewrite Hc. by rewrite IH.
Qed.

Lemma includes_app (sep : ascii) (a b : string) :
  includes sep (a +:+ String sep b) = true.
Proof.
  induction a as [|c rest IH]; simpl.
  - by rewrite Ascii.eqb_refl.
  - change (String c rest +:+ String sep b) with (String c (rest +:+ String sep b)).
    simpl. rewrite IH. apply orb_true_r.
Qed.

(** Joining the parts of a split with the separator gives the text back. *)
Lemma join_split (sep : ascii) (s : string) :
  join (String sep EmptyString) (split sep s) = s.
Proof.
  induction s as [|c rest IH]; simpl; [done|].
  destruct (Ascii.eqb_spec c sep) as [->|Hne].
  - simpl. pose proof (split_nonempty sep rest) as Hnil.
    destruct (split sep rest) as [|p ps] eqn:Hsplit; [done|].
    by rewrite IH.
  - pose proof (split_nonempty sep rest) as Hnil.
    destruct (split sep rest) as [|p ps] eqn:Hsplit; [done|].
    simpl in *. destruct ps as [|p' ps'].
    + by rewrite IH.
    + by rewrite <- IH.
Qed.

End Texts.

Section Labels.
Context {num : Type} `{Float32 num}.

Lemma split_label_of (studentId studentName : string) :
  free_of "|"%char studentId ->
  System.split_label (studentId +:+ "|" +:+ studentName)
  = (studentId, JStr (hd EmptyString (split "|"%char studentName))).
Proof.
  intros Hid. unfold System.split_label.
  change (studentId +:+ "|" +:+ studentName)
    with (studentId +:+ String "|"%char studentName).
  rewrite split_app by done.
  pose proof (split_nonempty "|"%char studentName) as Hnil.
  by destruct (split "|"%char studentName).
Qed.

(** X13: the label the store builds for a person decodes, in
    [recognizeFaces], to the id and the name of that person when neither
    contains a vertical bar, and the id decoded is then one that
    [markAttendance] finds; a name with a bar is cut at the bar. *)
Theorem label_round_trip (now : Z) (args : list (list (Face.t num)))
    (db : gmap string (Face.t num)) (l : labeled num) :
  FaceStorage.keyPath_ok db ->
  (forall k r, db !! k = Some r -> free_of "|"%char k) ->
  l ∈ FaceStorage.getLabeledDescriptors args db ->
  exists r,
    db !! (System.split_label (label l)).1 = Some r /\
    (System.split_label (label l)).2
    = JStr (hd EmptyString (split "|"%char (Face.name r))) /\
    (free_of "|"%char (Face.name r) ->
     System.split_label (label l) = (Face.id r, JStr (Face.name r))) /\
    (FaceStorage.markAttendance now (System.split_label (label l)).1 db).1 = true.
Proof.
  intros Hkp Hfree Hl. unfold FaceStorage.getLabeledDescriptors in Hl.
  apply list_elem_of_fmap in Hl as (f & -> & Hf).
  unfold FaceStorage.getAllFaces in Hf.
  apply list_elem_of_fmap in Hf as (r & -> & Hr).
  apply list_elem_of_fmap in Hr as ([k r'] & -> & Hr). simpl in *.
  apply elem_of_map_to_list in Hr.
  pose proof (Hkp _ _ Hr) as Hid. simpl in Hid.
  unfold label_of. simpl. rewrite Hid.
  rewrite split_label_of by (by eapply Hfree).
  exists r'. simpl. split_and!; try done.
  - intros Hname. by rewrite (split_free _ _ Hname), Hid.
  - unfold FaceStorage.markAttendance, FaceStorage.getFace. by rewrite Hr.
Qed.

(** X14: a folder named [ID_Name] yields the id before the first underscore
    and the whole rest as the name, both trimmed; a folder name without an
    underscore is both the id and the name. *)
Theorem parse_folder_round_trip (studentId studentName folderName : string) :
  free_of "_"%char studentId ->
  System.parse_folder (studentId +:+ "_" +:+ studentName)
  = (trim studentId, trim studentName) /\
  (free_of "_"%char folderName ->
   System.parse_folder folderName = (trim folderName, trim folderName)).
Proof.
  intros Hid. unfold System.parse_folder. split.
  - change (studentId +:+ "_" +:+ studentName)
      with (studentId +:+ String "_"%char studentName).
    rewrite includes_app, split_app by done. simpl.
    change "_" with (String "_"%char EmptyString). by rewrite join_split.
  - unfold free_of. by intros ->.
Qed.

End Labels.

Lemma label_round_trip_witness :
  System.split_label "101|Asha" = ("101", JStr "Asha") /\
  (FaceStorage.markAttendance 7000 (System.split_label "101|Asha").1
     Examples.local_db).1 = true.
Proof.
  assert (mkLabeled "101|Asha" [[1; 2; 3]]
          ∈ FaceStorage.getLabeledDescriptors [] Examples.local_db) as Hin.
  { unfold FaceStorage.getLabeledDescriptors. apply list_elem_of_fmap.
    exists (FaceStorage.upgrade Examples.asha). split; [reflexivity|].
    unfold FaceStorage.getAllFaces. apply list_elem_of_fmap.
    exists Examples.asha. split; [reflexivity|]. apply list_elem_of_fmap.
    exists ("101", Examples.asha). split; [reflexivity|].
    apply elem_of_map_to_list. vm_compute. reflexivity. }
  destruct (label_round_trip 7000 [] Examples.local_db
              (mkLabeled "101|Asha" [[1; 2; 3]]) local_db_keyPath_ok)
    as (r & Hr & _ & Hname & Hmark).
  - assert (map_Forall (fun k (_ : Face.t Z) => includes "|"%char k = false)
              Examples.local_db) as Hfree
      by (apply (bool_decide_unpack _); vm_compute; exact I).
    intros k r Hk. exact (Hfree k r Hk).
  - exact Hin.
  - split; [vm_compute; reflexivity|exact Hmark].
Defined.

Lemma parse_folder_round_trip_witness :
  System.parse_folder "101_Asha_Rao" = ("101", "Asha_Rao") /\
  System.parse_folder " 202 " = ("202", "202").
Proof.
  destruct (parse_folder_round_trip "101" "Asha_Rao" " 202 " eq_refl)
    as [Hsplit Hwhole].
  split; [exact Hsplit|]. exact (Hwhole eq_refl).
Defined.

(** * Folder import *)

Section FolderImport.

Lemma groupFilesByStudent_snoc (files : list File.t) (file : File.t) :
  System.groupFilesByStudent (files ++ [file])
  = rbind (System.groupFilesByStudent files) (System.group_file file).
Proof. unfold System.groupFilesByStudent. by rewrite foldl_app. Qed.

(** Whether [group_file] keeps the file, and for which id. *)
Lemma group_file_cases (file : File.t) (grouped : gmap string Group.t) :
  ((forall studentId, kept_for studentId [file] = []) /\
   System.group_file file grouped = Ok grouped) \/
  (exists studentId,
     kept_for studentId [file] = [file] /\
     (forall other, other ≠ studentId -> kept_for other [file] = []) /\
     studentId = (System.parse_folder (folder_of file)).1 /\
     System.group_file file grouped =
       match grouped !! studentId with
       | Some g =>
           Ok (<[studentId := Group.mk (Group.name g) (Group.files g ++ [file])]>
                 grouped)
       | None =>
           if bool_decide (studentId ∈ Object_prototype_members)
           then Throw TypeError
           else Ok (<[studentId :=
                        Group.mk (System.parse_folder (folder_of file)).2 [file]]>
                      grouped)
       end).
Proof.
  unfold System.group_file, kept_for, folder_of. simpl.
  destruct (length (split "/"%char (File.webkitRelativePath file)) <? 3)%nat;
    simpl; [by left|].
  destruct (System.parse_folder _) as [studentId studentName] eqn:Hparse. simpl.
  destruct (System.isValidImageFile file); simpl; [|by left].
  right. exists studentId. split_and!.
  - by rewrite String.eqb_refl.
  - intros other Hne. destruct (String.eqb_spec studentId other); done.
  - done.
  - done.
Qed.

Lemma kept_for_snoc (studentId : string) (files : list File.t) (file : File.t) :
  kept_for studentId (files ++ [file])
  = (kept_for studentId files ++ kept_for studentId [file])%list.
Proof. unfold kept_for. by rewrite List.filter_app. Qed.

Lemma group_of_snoc_other (studentId : string) (files : list File.t)
    (file : File.t) :
  kept_for studentId [file] = [] ->
  group_of studentId (files ++ [file]) = group_of studentId files.
Proof.
  intros Hnone. unfold group_of. rewrite kept_for_snoc, Hnone.
  by rewrite app_nil_r.
Qed.

Lemma groupFilesByStudent_inv (files : list File.t) :
  match System.groupFilesByStudent files with
  | Ok grouped =>
      (forall studentId, grouped !! studentId = group_of studentId files) /\
      (forall studentId,
         studentId ∈ Object_prototype_members -> kept_for studentId files = [])
  | Throw e =>
      e = TypeError /\
      exists studentId,
        studentId ∈ Object_prototype_members /\ kept_for studentId files ≠ []
  end.
Proof.
  induction files as [|file files IH] using rev_ind.
  - simpl. split; [|done]. intros studentId. by rewrite lookup_empty.
  - rewrite groupFilesByStudent_snoc.
    destruct (System.groupFilesByStudent files) as [grouped|e]; simpl.
    + destruct IH as [IH Hclean].
      destruct (group_file_cases file grouped)
        as [[Hnone ->]|(studentId & Hkept & Hother & Hid & ->)].
      * split.
        -- intros studentId. rewrite group_of_snoc_other by done. apply IH.
        -- intros studentId Hin. rewrite kept_for_snoc, Hnone, app_nil_r.
           by apply Hclean.
      * rewrite (IH studentId). unfold group_of at 1.
        destruct (kept_for studentId files) as [|first rest] eqn:Hfiles.
        -- case_bool_decide as Hproto.
           ++ split; [done|]. exists studentId. split; [done|].
              rewrite kept_for_snoc, Hfiles, Hkept. done.
           ++ split.
              ** intros other. destruct (decide (other = studentId)) as [->|Hne].
                 --- rewrite lookup_insert_eq. unfold group_of.
                     rewrite kept_for_snoc, Hfiles, Hkept. done.
                 --- rewrite lookup_insert_ne by done.
                     rewrite group_of_snoc_other by by apply Hother. apply IH.
              ** intros other Hin. rewrite kept_for_snoc.
                 rewrite (Hclean _ Hin). simpl. apply Hother. by intros ->.
        -- split.
           ++ intros other. destruct (decide (other = studentId)) as [->|Hne].
              ** rewrite lookup_insert_eq. unfold group_of.
                 rewrite kept_for_snoc, Hfiles, Hkept. done.
              ** rewrite lookup_insert_ne by done.
                 rewrite group_of_snoc_other by by apply Hother. apply IH.
           ++ intros other Hin. rewrite kept_for_snoc.
              rewrite (Hclean _ Hin). simpl. apply Hother. intros ->.
              by rewrite (Hclean _ Hin) in Hfiles.
    + destruct IH as [-> (studentId & Hproto & Hkept)]. split; [done|].
      exists studentId. split; [done|]. rewrite kept_for_snoc.
      destruct (kept_for studentId files); done.
Qed.

(** X15: when no kept file names a member of [Object.prototype] as its
    student id, [groupFilesByStudent] returns an object that holds, for each
    id, exactly the valid image files lying three levels deep in a folder of
    that id, in their order, under the name of the first of them. *)
Theorem groupFilesByStudent_groups (files : list File.t) :
  (forall studentId,
     studentId ∈ Object_prototype_members -> kept_for studentId files = []) ->
  exists grouped,
    System.groupFilesByStudent files = Ok grouped /\
    forall studentId, grouped !! studentId = group_of studentId files.
Proof.
  intros Hproto. pose proof (groupFilesByStudent_inv files) as Hinv.
  destruct (System.groupFilesByStudent files) as [grouped|e].
  - exists grouped. by destruct Hinv.
  - destruct Hinv as [_ (studentId & Hin & Hkept)]. by specialize (Hproto _ Hin).
Qed.

(** X16: a valid image in a folder whose id is the name of a member of
    [Object.prototype] makes [groupFilesByStudent] throw a TypeError. *)
Theorem groupFilesByStudent_inherited_name (files : list File.t)
    (studentId : string) :
  studentId ∈ Object_prototype_members ->
  kept_for studentId files ≠ [] ->
  System.groupFilesByStudent files = Throw TypeError.
Proof.
  intros Hin Hkept. pose proof (groupFilesByStudent_inv files) as Hinv.
  destruct (System.groupFilesByStudent files) as [grouped|e].
  - destruct Hinv as [_ Hclean]. by specialize (Hclean _ Hin).
  - by destruct Hinv as [-> _].
Qed.

End FolderImport.

Lemma groupFilesByStudent_groups_witness :
  exists grouped,
    System.groupFilesByStudent Samples.selection = Ok grouped /\
    grouped !! "101"
    = Some (Group.mk "Asha Rao"
              [File.mk "Dataset/101_Asha Rao/a.jpg" "a.jpg" "image/jpeg" 2048;
               File.mk "Dataset/101_Asha/d.png" "d.png" "image/png" 1024]) /\
    grouped !! "202"
    = Some (Group.mk "202"
              [File.mk "Dataset/202/c.png" "c.png" "image/png" 4096]) /\
    grouped !! "Dataset" = None.
Proof.
  destruct (groupFilesByStudent_groups Samples.selection) as (grouped & Hok & Hgroups).
  - intros studentId Hin.
    repeat (apply elem_of_cons in Hin as [->|Hin]; [vm_compute; reflexivity|]).
    by apply elem_of_nil in Hin.
  - exists grouped. split; [exact Hok|].
    rewrite !Hgroups. vm_compute. split_and!; reflexivity.
Defined.

Lemma groupFilesByStudent_inherited_name_witness :
  System.groupFilesByStudent Samples.selection_constructor = Throw TypeError.
Proof.
  apply (groupFilesByStudent_inherited_name Samples.selection_constructor
           "constructor").
  - apply list_elem_of_here.
  - vm_compute. discriminate.
Defined.

(** * Marking attendance *)

Section PageStore.
Context {num : Type} `{Float32 num}.
Import System.

Lemma write_field_descriptors (w : CloudStorage.field_write) (r : Face.t num) :
  Face.descriptors (CloudStorage.write_field w r) = Face.descriptors r.
Proof. by destruct w. Qed.

Lemma apply_writes_descriptors
    (updates : list (string * CloudStorage.field_write))
    (fd : gmap string (Face.t num)) (k : string) :
  Face.descriptors <$> apply_writes updates fd !! k
  = Face.descriptors <$> fd !! k.
Proof.
  unfold apply_writes. revert fd.
  induction updates as [|[id w] us IH]; intros fd; simpl; [done|].
  rewrite IH. destruct (decide (k = id)) as [->|Hne].
  - rewrite lookup_alter_eq. destruct (fd !! id) as [r|]; simpl; [|done].
    by rewrite write_field_descriptors.
  - by rewrite lookup_alter_ne.
Qed.

Lemma restorable_same_descriptors (fd fd' : gmap string (Face.t num)) :
  (forall k, Face.descriptors <$> fd' !! k = Face.descriptors <$> fd !! k) ->
  map_Forall (fun _ r => is_Some (Face.descriptors r)) fd ->
  map_Forall (fun _ r => is_Some (Face.descriptors r)) fd'.
Proof.
  intros Hsame Hall k r' Hr'. specialize (Hsame k). rewrite Hr' in Hsame.
  destruct (fd !! k) as [r|] eqn:Hr; simpl in Hsame; [|done].
  injection Hsame as ->. by apply (Hall k r).
Qed.

(** The division node of a remote store can be read when every record in it
    has a [descriptors] list, and only then. *)
Lemma cloud_readable (config : Config.t) (st : CloudStorage.t num)
    (facesRef : string) (fd : gmap string (Face.t num)) :
  CloudStorage.isInitialized st = true ->
  CloudStorage.getFacesRef config = Some facesRef ->
  CloudStorage.db st !! facesRef = Some fd ->
  (exists faces, CloudStorage.getAllFaces config st = Ok faces) <->
  map_Forall (fun _ r => is_Some (Face.descriptors r)) fd.
Proof.
  intros Hinit Href Hfd. unfold CloudStorage.getAllFaces.
  rewrite Hinit, Href, Hfd. simpl. split.
  - intros [faces Hfaces]. apply rmapM_restore_inv in Hfaces as [Hall _].
    intros k r Hr. apply Hall. apply list_elem_of_fmap. exists (k, r).
    split; [done|]. by apply elem_of_map_to_list.
  - intros Hall. eexists. apply (rmapM_Ok_fmap _ FaceStorage.upgrade).
    intros r Hr. apply restore_Ok.
    apply list_elem_of_fmap in Hr as ([k r'] & -> & Hr).
    apply elem_of_map_to_list in Hr. by apply (Hall k r').
Qed.

(** Writes of attendance fields keep a remote store readable, and
    unreadable. *)
Lemma cloud_update_readable (config : Config.t) (st : CloudStorage.t num)
    (facesRef : string) (updates : list (string * CloudStorage.field_write)) :
  CloudStorage.isInitialized st = true ->
  CloudStorage.getFacesRef config = Some facesRef ->
  (exists faces,
     CloudStorage.getAllFaces config
       (CloudStorage.set_db
          (CloudStorage.update facesRef updates (CloudStorage.db st)) st)
     = Ok faces) <->
  (exists faces, CloudStorage.getAllFaces config st = Ok faces).
Proof.
  intros Hinit Href.
  destruct (CloudStorage.db st !! facesRef) as [fd|] eqn:Hfd.
  - rewrite (cloud_readable config _ facesRef (apply_writes updates fd));
      [|done|done|].
    2:{ simpl. by rewrite cloud_update_lookup, decide_True, Hfd. }
    rewrite (cloud_readable config st facesRef fd) by done.
    split; apply restorable_same_descriptors; intros k;
      by rewrite apply_writes_descriptors.
  - unfold CloudStorage.getAllFaces. simpl. rewrite Hinit, Href. simpl.
    rewrite cloud_update_lookup, decide_True, Hfd by done. simpl.
    split; intros _; by eexists.
Qed.

(** What [storage.markAttendance] does for a person the store holds. *)
Lemma storage_markAttendance_known (now : Z) (studentId : string)
    (s : System.t num) (r : Face.t num) :
  store_ready s ->
  stored_record studentId s = Some r ->
  exists b,
    storage_markAttendance now studentId s = Ok (true, set_storage b s) /\
    store_ready (set_storage b s) /\
    (store_readable (set_storage b s) <-> store_readable s) /\
    (exists r',
       stored_record studentId (set_storage b s) = Some r' /\
       Face.attendanceToday r' = true /\ Face.lastSeen r' = Some now) /\
    (store_readable s ->
     exists face,
       storage_getFace studentId (set_storage b s) = Ok (Some face) /\
       Face.attendanceToday face = true /\ Face.lastSeen face = Some now).
Proof.
  unfold store_ready, stored_record, store_readable, storage_markAttendance,
    storage_getAllFaces, storage_getFace.
  destruct (storage s) as [db|st] eqn:Hstorage; intros Hready Hr.
  - assert (FaceStorage.markAttendance now studentId db
            = (true, FaceStorage.put
                       (Face.with_attendance true (Some now)
                          (FaceStorage.upgrade r)) db)) as ->.
    { unfold FaceStorage.markAttendance, FaceStorage.getFace. by rewrite Hr. }
    eexists. split; [reflexivity|]. simpl.
    assert (Face.id (Face.with_attendance true (Some now) (FaceStorage.upgrade r))
            = studentId) as Hid by exact (Hready _ _ Hr).
    split; [by apply keyPath_ok_put|].
    split; [split; intros _; by eexists|].
    split.
    + eexists. unfold FaceStorage.put. rewrite Hid, lookup_insert_eq. done.
    + intros _. eexists.
      rewrite <- Hid at 1. rewrite getFace_put_eq. done.
  - unfold cloud_record in Hr.
    destruct (CloudStorage.getFacesRef (mainSystemConfig s)) as [facesRef|]
      eqn:Href; simpl in Hr; [|done].
    set (updates := [(studentId, CloudStorage.Field_attendanceToday true);
                     (studentId, CloudStorage.Field_lastSeen (Some now))]).
    set (st' := CloudStorage.set_db
                  (CloudStorage.update facesRef updates (CloudStorage.db st)) st).
    assert (CloudStorage.markAttendance (mainSystemConfig s) now studentId st
            = Ok (true, st')) as ->.
    { unfold CloudStorage.markAttendance. by rewrite Hready, Href, Hr. }
    exists (Cloud st'). split; [reflexivity|].
    cbn [storage mainSystemConfig set_storage].
    split; [exact Hready|].
    split; [exact (cloud_update_readable _ st facesRef updates Hready Href)|].
    assert (CloudStorage.child facesRef studentId (CloudStorage.db st')
            = Some (Face.with_attendance true (Some now) r)) as Hr'.
    { subst st'. cbn [CloudStorage.db CloudStorage.set_db].
      rewrite cloud_child_update.
      unfold CloudStorage.child in Hr.
      destruct (CloudStorage.db st !! facesRef) as [fd|]; simpl in *; [|done].
      unfold apply_writes. simpl. by rewrite !lookup_alter_eq, Hr. }
    split.
    { exists (Face.with_attendance true (Some now) r). unfold cloud_record.
      rewrite Href. split; [exact Hr'|done]. }
    intros Hreadable.
    apply (cloud_update_readable (mainSystemConfig s) st facesRef updates)
      in Hreadable; [|done|done].
    fold st' in Hreadable.
    assert (CloudStorage.getFace (mainSystemConfig s) studentId st'
            = rbind (CloudStorage.restore
                       (Face.with_attendance true (Some now) r))
                    (fun f => Ok (Some f))) as ->.
    { unfold CloudStorage.getFace.
      change (CloudStorage.isInitialized st') with (CloudStorage.isInitialized st).
      by rewrite Hready, Href, Hr'. }
    assert (is_Some (Face.descriptors (Face.with_attendance true (Some now) r)))
      as Hds.
    { unfold CloudStorage.child in Hr'.
      destruct (CloudStorage.db st' !! facesRef) as [fd'|] eqn:Hfd';
        simpl in Hr'; [|done].
      eapply (cloud_readable (mainSystemConfig s) st') in Hreadable;
        [|exact Hready|exact Href|exact Hfd'].
      by apply (Hreadable studentId). }
    rewrite (restore_Ok _ Hds). simpl. by eexists.
Qed.

(** What [storage.resetAllAttendance] does to the people the store holds. *)
Lemma storage_resetAllAttendance_known (s : System.t num) :
  store_ready s ->
  exists b,
    storage_resetAllAttendance s = Ok (set_storage b s) /\
    store_ready (set_storage b s) /\
    (store_readable (set_storage b s) <-> store_readable s) /\
    (forall studentId r,
       stored_record studentId s = Some r ->
       exists r',
         stored_record studentId (set_storage b s) = Some r' /\
         Face.attendanceToday r' = false /\ Face.lastSeen r' = None /\
         Face.id r' = Face.id r).
Proof.
  unfold store_ready, stored_record, store_readable,
    storage_resetAllAttendance, storage_getAllFaces.
  destruct (storage s) as [db|st] eqn:Hstorage; intros Hready.
  - eexists. split; [reflexivity|]. simpl.
    rewrite FaceStorage_reset_fmap by done. split_and!.
    + intros k r'. rewrite lookup_fmap.
      destruct (db !! k) as [r|] eqn:Hr; simpl; [|done].
      intros [= <-]. exact (Hready _ _ Hr).
    + split; intros _; by eexists.
    + intros studentId r Hr. eexists. rewrite lookup_fmap, Hr. done.
  - unfold cloud_record.
    destruct (CloudStorage.getFacesRef (mainSystemConfig s)) as [facesRef|]
      eqn:Href.
    2:{ exists (Cloud st). unfold CloudStorage.resetAllAttendance.
        rewrite Hready, Href. cbn [storage mainSystemConfig set_storage].
        split; [reflexivity|]. split; [exact Hready|]. split; [done|].
        by intros studentId r. }
    destruct (CloudStorage.db st !! facesRef) as [fd|] eqn:Hfd.
    2:{ exists (Cloud st). unfold CloudStorage.resetAllAttendance.
        rewrite Hready, Href, Hfd. cbn [storage mainSystemConfig set_storage].
        split; [reflexivity|]. split; [exact Hready|]. split; [done|].
        intros studentId r. unfold CloudStorage.child. simpl. by rewrite Hfd. }
    set (updates := reset_writes (map_to_list fd).*1).
    set (st' := CloudStorage.set_db
                  (CloudStorage.update facesRef updates (CloudStorage.db st)) st).
    assert (CloudStorage.resetAllAttendance (mainSystemConfig s) st = Ok st')
      as ->.
    { unfold CloudStorage.resetAllAttendance. by rewrite Hready, Href, Hfd. }
    exists (Cloud st'). split; [reflexivity|].
    cbn [storage mainSystemConfig set_storage].
    split; [exact Hready|].
    split; [exact (cloud_update_readable _ st facesRef updates Hready Href)|].
    intros studentId r. simpl. subst st' updates.
    cbn [CloudStorage.db CloudStorage.set_db].
    rewrite Href. simpl.
    rewrite cloud_child_update, Hfd. simpl.
    rewrite cloud_reset_children, lookup_fmap.
    unfold CloudStorage.child. rewrite Hfd. simpl. intros ->. by eexists.
Qed.

End PageStore.

Section Marking.
Context {num : Type} `{Float32 num}.
Import System.

Lemma store_readable_frame (s s' : System.t num) :
  storage s' = storage s ->
  mainSystemConfig s' = mainSystemConfig s ->
  store_readable s' <-> store_readable s.
Proof.
  intros Hs Hc. unfold store_readable, storage_getAllFaces. by rewrite Hs, Hc.
Qed.

Lemma classic_readable (s : System.t num) :
  store_readable s \/ ~ store_readable s.
Proof.
  unfold store_readable. destruct (storage_getAllFaces s) as [faces|e].
  - left. by exists faces.
  - right. by intros [faces Hfaces].
Qed.

Lemma validateDateForRole_frame (today : date) (s s' : System.t num) :
  userRole s' = userRole s ->
  mainSystemConfig s' = mainSystemConfig s ->
  firebaseSync s' = firebaseSync s ->
  validateDateForRole today s' = validateDateForRole today s.
Proof.
  intros Hrole Hconfig Hsync.
  unfold validateDateForRole, connected, is_student.
  by rewrite Hrole, Hconfig, Hsync.
Qed.

(** What a mark of a person the store holds does, once the cooldown has
    elapsed and the date is valid: the state after the store call and the
    note of the time, and how the call ends from there. *)
Lemma markAttendanceWithCooldown_known (now : Z) (today : date)
    (studentId studentName : string) (s : System.t num) (r : Face.t num) :
  store_ready s ->
  stored_record studentId s = Some r ->
  valid (validateDateForRole today s) = true ->
  ATTENDANCE_COOLDOWN <= now - default 0 (lastAttendanceTime s !! studentId) ->
  exists b,
    let marked :=
      lastAttendanceTime_set studentId now
        (set_storage b (emit (Call_storage_markAttendance studentId) s)) in
    let push :=
      emit (Call_saveAttendanceToFirebase studentId studentName
              (targetDay (validateDateForRole today s))) in
    let noted :=
      emit Call_updateStudentList
        (showToast (mark_toast today studentName s) "success"
           (set_recognizedToday ({[studentId]} ∪ recognizedToday s) marked)) in
    store_ready marked /\
    (store_readable marked <-> store_readable s) /\
    (exists r',
       stored_record studentId marked = Some r' /\
       Face.attendanceToday r' = true /\ Face.lastSeen r' = Some now) /\
    (store_readable s ->
     exists face,
       storage_getFace studentId marked = Ok (Some face) /\
       Face.attendanceToday face = true /\ Face.lastSeen face = Some now) /\
    (studentId ∈ recognizedToday s ->
     markAttendanceWithCooldown now today studentId studentName s
     = Normal (push marked)) /\
    (studentId ∉ recognizedToday s -> store_readable s ->
     markAttendanceWithCooldown now today studentId studentName s
     = Normal (push noted)) /\
    (studentId ∉ recognizedToday s -> ~ store_readable s ->
     exists e,
       markAttendanceWithCooldown now today studentId studentName s
       = Abrupt noted e).
Proof.
  intros Hready Hr Hvalid Hcool.
  set (s0 := emit (Call_storage_markAttendance studentId) s).
  destruct (storage_markAttendance_known now studentId s0 r Hready Hr)
    as (b & Hmark & Hready' & Hreadable' & Hstored & Hget).
  exists b. intros marked push noted.
  assert (storage marked = b /\ mainSystemConfig marked = mainSystemConfig s /\
          recognizedToday marked = recognizedToday s) as (Hsm & Hcm & Hrm).
  { subst marked. unfold lastAttendanceTime_set.
    by destruct (String.eqb studentId "__proto__"). }
  assert (forall P : System.t num -> Prop,
            (forall s1 s2, storage s1 = storage s2 ->
                           mainSystemConfig s1 = mainSystemConfig s2 ->
                           P s1 -> P s2) ->
            P (set_storage b s0) -> P marked) as Hmove.
  { intros P HP. apply HP; [by rewrite Hsm|by rewrite Hcm]. }
  assert (store_readable marked <-> store_readable s) as Hreadable.
  { rewrite (store_readable_frame (set_storage b s0) marked);
      [|by rewrite Hsm|by rewrite Hcm].
    rewrite Hreadable'. by apply store_readable_frame. }
  split_and!.
  - apply Hmove; [|exact Hready'].
    intros s1 s2 Hs _. unfold store_ready. by rewrite Hs.
  - exact Hreadable.
  - apply (Hmove (fun s' => exists r', stored_record studentId s' = Some r' /\
                                       Face.attendanceToday r' = true /\
                                       Face.lastSeen r' = Some now));
      [|exact Hstored].
    intros s1 s2 Hs Hc. unfold stored_record. by rewrite Hs, Hc.
  - intros Hrd.
    apply (Hmove (fun s' => exists face,
                      storage_getFace studentId s' = Ok (Some face) /\
                      Face.attendanceToday face = true /\
                      Face.lastSeen face = Some now)).
    + intros s1 s2 Hs Hc. unfold storage_getFace. by rewrite Hs, Hc.
    + apply Hget. by apply (store_readable_frame s s0).
  - intros Hin. unfold markAttendanceWithCooldown.
    rewrite cooldown_elapsed by done. rewrite Hvalid. cbn [negb].
    fold s0. rewrite Hmark. cbn iota beta.
    fold marked. rewrite Hrm.
    by rewrite bool_decide_eq_true_2.
  - intros Hnotin Hrd. unfold markAttendanceWithCooldown.
    rewrite cooldown_elapsed by done. rewrite Hvalid. cbn [negb].
    fold s0. rewrite Hmark. cbn iota beta.
    fold marked. rewrite Hrm.
    rewrite bool_decide_eq_false_2 by done. cbn [negb].
    unfold updateStudentList.
    change (showToast _ "success" _)
      with (showToast (mark_toast today studentName s) "success"
              (set_recognizedToday ({[studentId]} ∪ recognizedToday s) marked)).
    fold noted.
    assert (store_readable noted) as [faces Hfaces].
    { apply (store_readable_frame marked noted); [done|done|].
      by apply Hreadable. }
    by rewrite Hfaces.
  - intros Hnotin Hrd. unfold markAttendanceWithCooldown.
    rewrite cooldown_elapsed by done. rewrite Hvalid. cbn [negb].
    fold s0. rewrite Hmark. cbn iota beta.
    fold marked. rewrite Hrm.
    rewrite bool_decide_eq_false_2 by done. cbn [negb].
    unfold updateStudentList.
    change (showToast _ "success" _)
      with (showToast (mark_toast today studentName s) "success"
              (set_recognizedToday ({[studentId]} ∪ recognizedToday s) marked)).
    fold noted.
    destruct (storage_getAllFaces noted) as [faces|e] eqn:Hfaces.
    + exfalso. apply Hrd. apply Hreadable.
      apply (store_readable_frame marked noted); [done|done|by exists faces].
    + by exists e.
Qed.

(** The same when the store can be read: the fields of the state left. *)
Lemma markAttendanceWithCooldown_readable (now : Z) (today : date)
    (studentId studentName : string) (s : System.t num) (r : Face.t num) :
  store_ready s ->
  stored_record studentId s = Some r ->
  store_readable s ->
  valid (validateDateForRole today s) = true ->
  ATTENDANCE_COOLDOWN <= now - default 0 (lastAttendanceTime s !! studentId) ->
  exists s1 face,
    markAttendanceWithCooldown now today studentId studentName s = Normal s1 /\
    storage_getFace studentId s1 = Ok (Some face) /\
    Face.attendanceToday face = true /\
    Face.lastSeen face = Some now /\
    store_ready s1 /\
    store_readable s1 /\
    lastAttendanceTime s1 =
      (if String.eqb studentId "__proto__" then lastAttendanceTime s
       else <[studentId := now]> (lastAttendanceTime s)) /\
    recognizedToday s1 = {[studentId]} ∪ recognizedToday s /\
    userRole s1 = userRole s /\
    mainSystemConfig s1 = mainSystemConfig s /\
    firebaseSync s1 = firebaseSync s /\
    startCameraBtn_disabled s1 = startCameraBtn_disabled s /\
    exists shown,
      trace s1 =
        (Call_saveAttendanceToFirebase studentId studentName
           (targetDay (validateDateForRole today s))
         :: shown ++ Call_storage_markAttendance studentId :: trace s)%list /\
      (studentId ∈ recognizedToday s -> shown = []) /\
      (studentId ∉ recognizedToday s ->
       shown = [Call_updateStudentList;
                ShowToast (mark_toast today studentName s) "success"]).
Proof.
  intros Hready Hr Hreadable Hvalid Hcool.
  destruct (markAttendanceWithCooldown_known now today studentId studentName
              s r Hready Hr Hvalid Hcool) as [b Hk].
  cbv zeta in Hk.
  set (marked := lastAttendanceTime_set studentId now
                   (set_storage b (emit (Call_storage_markAttendance studentId) s)))
    in *.
  destruct Hk as (Hready' & Hreadable' & _ & Hget & Hin & Hnotin & _).
  destruct (Hget Hreadable) as (face & Hface & Hatt & Hseen).
  assert (lastAttendanceTime marked =
            (if String.eqb studentId "__proto__" then lastAttendanceTime s
             else <[studentId := now]> (lastAttendanceTime s)) /\
          recognizedToday marked = recognizedToday s /\
          userRole marked = userRole s /\
          mainSystemConfig marked = mainSystemConfig s /\
          firebaseSync marked = firebaseSync s /\
          startCameraBtn_disabled marked = startCameraBtn_disabled s /\
          trace marked = Call_storage_markAttendance studentId :: trace s)
    as (Hl & Hrec & Hrole & Hconfig & Hsync & Hbtn & Htrace).
  { subst marked. unfold lastAttendanceTime_set.
    by destruct (String.eqb studentId "__proto__"). }
  destruct (decide (studentId ∈ recognizedToday s)) as [Hyes|Hno].
  - eexists _, face. split; [exact (Hin Hyes)|].
    cbn [storage_getFace storage mainSystemConfig emit lastAttendanceTime
         recognizedToday userRole firebaseSync startCameraBtn_disabled trace].
    split; [exact Hface|]. split; [exact Hatt|]. split; [exact Hseen|].
    split; [exact Hready'|].
    split; [by apply Hreadable'|].
    split; [exact Hl|].
    split; [rewrite Hrec; symmetry; apply subseteq_union_1_L;
            by apply singleton_subseteq_l|].
    split; [exact Hrole|]. split; [exact Hconfig|]. split; [exact Hsync|].
    split; [exact Hbtn|].
    exists []. rewrite Htrace. split_and!; try done.
  - eexists _, face. split; [exact (Hnotin Hno Hreadable)|].
    cbn [storage_getFace storage mainSystemConfig emit showToast
         set_recognizedToday lastAttendanceTime
         recognizedToday userRole firebaseSync startCameraBtn_disabled trace].
    split; [exact Hface|]. split; [exact Hatt|]. split; [exact Hseen|].
    split; [exact Hready'|].
    split; [by apply Hreadable'|].
    split; [exact Hl|].
    split; [reflexivity|].
    split; [exact Hrole|]. split; [exact Hconfig|]. split; [exact Hsync|].
    split; [exact Hbtn|].
    eexists [_; _]. rewrite Htrace. split_and!; try done.
Qed.

(** X17: once a person the store holds is marked, a further recognition of
    the same person within the cooldown changes nothing: no store write, no
    notification, no push.  This holds on either store, for every student id
    but [__proto__], under which the page can note no time. *)
Theorem second_mark_within_cooldown (now now' : Z) (today today' : date)
    (studentId studentName : string) (s : System.t num) (r : Face.t num) :
  store_ready s ->
  stored_record studentId s = Some r ->
  store_readable s ->
  valid (validateDateForRole today s) = true ->
  ATTENDANCE_COOLDOWN <= now - default 0 (lastAttendanceTime s !! studentId) ->
  studentId ≠ "__proto__" ->
  now' - now < ATTENDANCE_COOLDOWN ->
  exists s1 face,
    markAttendanceWithCooldown now today studentId studentName s = Normal s1 /\
    storage_getFace studentId s1 = Ok (Some face) /\
    Face.attendanceToday face = true /\
    Face.lastSeen face = Some now /\
    markAttendanceWithCooldown now' today' studentId studentName s1 = Normal s1.
Proof.
  intros Hready Hr Hreadable Hvalid Hcool Hproto Hsoon.
  destruct (markAttendanceWithCooldown_readable now today studentId studentName
              s r Hready Hr Hreadable Hvalid Hcool)
    as (s1 & face & Hmark & Hface & Hatt & Hseen & _ & _ & Hlast & _).
  exists s1, face. split_and!; try done.
  apply String.eqb_neq in Hproto. rewrite Hproto in Hlast.
  unfold markAttendanceWithCooldown, in_cooldown, lastAttendanceTime_get.
  rewrite Hproto, Hlast, lookup_insert_eq.
  by rewrite (proj2 (Z.ltb_lt _ _)).
Qed.

(** X18: the notification of a mark is shown once per person and day.  A
    mark of a person the store holds puts the person among the people
    recognised; for a person already there it only writes to the store and
    pushes; for a person not yet there it shows the notification and
    refreshes the list before it pushes, and when that refresh cannot read
    the store the call ends there: the mark is written and shown, and not
    pushed. *)
Theorem attendance_toast_once (now : Z) (today : date)
    (studentId studentName : string) (s : System.t num) (r : Face.t num) :
  store_ready s ->
  stored_record studentId s = Some r ->
  valid (validateDateForRole today s) = true ->
  ATTENDANCE_COOLDOWN <= now - default 0 (lastAttendanceTime s !! studentId) ->
  let after := markAttendanceWithCooldown now today studentId studentName s in
  let push := Call_saveAttendanceToFirebase studentId studentName
                (targetDay (validateDateForRole today s)) in
  studentId ∈ recognizedToday (state_of after) /\
  (studentId ∈ recognizedToday s ->
   exists s1,
     after = Normal s1 /\
     trace s1 = push :: Call_storage_markAttendance studentId :: trace s) /\
  (studentId ∉ recognizedToday s -> store_readable s ->
   exists s1 message,
     after = Normal s1 /\
     trace s1 = push :: Call_updateStudentList :: ShowToast message "success"
                :: Call_storage_markAttendance studentId :: trace s) /\
  (studentId ∉ recognizedToday s -> ~ store_readable s ->
   exists s1 e message r',
     after = Abrupt s1 e /\
     trace s1 = Call_updateStudentList :: ShowToast message "success"
                :: Call_storage_markAttendance studentId :: trace s /\
     stored_record studentId s1 = Some r' /\
     Face.attendanceToday r' = true /\ Face.lastSeen r' = Some now).
Proof.
  intros Hready Hr Hvalid Hcool after push.
  destruct (markAttendanceWithCooldown_known now today studentId studentName
              s r Hready Hr Hvalid Hcool) as [b Hk].
  cbv zeta in Hk.
  set (marked := lastAttendanceTime_set studentId now
                   (set_storage b (emit (Call_storage_markAttendance studentId) s)))
    in *.
  destruct Hk as (_ & _ & (r' & Hr' & Hatt & Hseen) & _ & Hin & Hnotin & Hfail).
  assert (recognizedToday marked = recognizedToday s /\
          trace marked = Call_storage_markAttendance studentId :: trace s)
    as (Hrec & Htrace).
  { subst marked. unfold lastAttendanceTime_set.
    by destruct (String.eqb studentId "__proto__"). }
  split_and!.
  - subst after.
    destruct (decide (studentId ∈ recognizedToday s)) as [Hyes|Hno].
    + rewrite (Hin Hyes). simpl. by rewrite Hrec.
    + assert (forall c,
                (c = Normal
                       (emit push
                          (emit Call_updateStudentList
                             (showToast (mark_toast today studentName s) "success"
                                (set_recognizedToday
                                   ({[studentId]} ∪ recognizedToday s) marked))))
                 \/ exists e,
                    c = Abrupt
                          (emit Call_updateStudentList
                             (showToast (mark_toast today studentName s) "success"
                                (set_recognizedToday
                                   ({[studentId]} ∪ recognizedToday s) marked)))
                          e) ->
                studentId ∈ recognizedToday (state_of c)) as Hboth.
      { intros c [->|[e ->]]; simpl; by apply elem_of_union_l, elem_of_singleton. }
      apply Hboth.
      destruct (classic_readable s) as [Hrd|Hrd];
        [left; exact (Hnotin Hno Hrd)|right; exact (Hfail Hno Hrd)].
  - intros Hyes. eexists. split; [exact (Hin Hyes)|]. simpl. by rewrite Htrace.
  - intros Hno Hrd. eexists _, _. split; [exact (Hnotin Hno Hrd)|].
    simpl. by rewrite Htrace.
  - intros Hno Hrd. destruct (Hfail Hno Hrd) as [e He].
    eexists _, e, _, r'. split; [exact He|]. simpl. rewrite Htrace.
    split; [done|]. split; [|done].
    unfold stored_record in *. exact Hr'.
Qed.

(** X19: a recognition whose label names nobody of the store only asks the
    store: nothing is written, shown or pushed, and no cooldown starts. *)
Theorem unknown_id_mark_attempt (now : Z) (today : date)
    (studentId studentName : string) (s : System.t num)
    (db : gmap string (Face.t num)) :
  storage s = Local db ->
  db !! studentId = None ->
  valid (validateDateForRole today s) = true ->
  ATTENDANCE_COOLDOWN <= now - default 0 (lastAttendanceTime s !! studentId) ->
  exists s1,
    markAttendanceWithCooldown now today studentId studentName s = Normal s1 /\
    storage s1 = storage s /\
    lastAttendanceTime s1 = lastAttendanceTime s /\
    recognizedToday s1 = recognizedToday s /\
    trace s1 = Call_storage_markAttendance studentId :: trace s.
Proof.
  intros Hstore Hnone Hvalid Hcool.
  unfold markAttendanceWithCooldown.
  rewrite cooldown_elapsed by done.
  rewrite Hvalid. simpl.
  unfold storage_markAttendance. simpl. rewrite Hstore.
  unfold FaceStorage.markAttendance, FaceStorage.getFace. rewrite Hnone. simpl.
  eexists. split; [reflexivity|]. simpl. done.
Qed.

Lemma recognize_each_beyond_threshold (detections : list detection)
    (s : System.t num) :
  (forall d, d ∈ detections -> bestMatch_within_threshold d = false) ->
  recognize_each detections s = Normal s.
Proof.
  induction detections as [|d rest IH]; intros Hall; simpl; [done|].
  rewrite Hall by apply list_elem_of_here.
  apply IH. intros d' Hd'. apply Hall. by apply list_elem_of_further.
Qed.

(** X20: faces whose best match is beyond the threshold are never marked:
    with a matcher loaded, a frame of such faces only refreshes the
    statistics; and with nobody registered in the local store no frame marks
    anybody. *)
Theorem recognizeFaces_unknown_faces (detections : list detection)
    (s : System.t num) :
  ((forall d, d ∈ detections -> bestMatch_within_threshold d = false) ->
   is_Some (faceMatcher s) ->
   recognizeFaces detections s = updateStats s) /\
  (faceMatcher s = None ->
   storage s = Local ∅ ->
   recognizeFaces detections s
   = Normal (set_faceMatcher None (emit Call_loadFaceMatcher s))).
Proof.
  split.
  - intros Hall [m Hm]. unfold recognizeFaces. rewrite Hm. simpl. rewrite Hm.
    by rewrite recognize_each_beyond_threshold.
  - intros Hnone Hstore. unfold recognizeFaces. rewrite Hnone.
    unfold loadFaceMatcher, storage_getAllFaces, storage_getLabeledDescriptors.
    simpl. rewrite Hstore.
    unfold FaceStorage.getLabeledDescriptors, FaceStorage.getAllFaces.
    rewrite map_to_list_empty. simpl.
    by destruct (truthy _ && truthy _ && truthy _ && truthy _).
Qed.

Lemma store_ready_frame (s s' : System.t num) :
  storage s' = storage s -> store_ready s -> store_ready s'.
Proof. intros Hs. unfold store_ready. by rewrite Hs. Qed.

Lemma stored_record_frame (studentId : string) (s s' : System.t num) :
  storage s' = storage s ->
  CloudStorage.getFacesRef (mainSystemConfig s')
  = CloudStorage.getFacesRef (mainSystemConfig s) ->
  stored_record studentId s' = stored_record studentId s.
Proof.
  intros Hs Hc. unfold stored_record, cloud_record. by rewrite Hs, Hc.
Qed.

(** X21: the expiry of the scanned token stops the camera and forgets the
    session id, but it does not lock the camera button again, and a later
    recognition of a person the store holds marks as before, on either
    store. *)
Theorem qr_expiration_does_not_lock (reason : string) (now : Z) (today : date)
    (studentId studentName : string) (s : System.t num) (r : Face.t num) :
  store_ready s ->
  stored_record studentId s = Some r ->
  store_readable s ->
  valid (validateDateForRole today s) = true ->
  ATTENDANCE_COOLDOWN <= now - default 0 (lastAttendanceTime s !! studentId) ->
  let s' := handleQRExpiration reason s in
  currentQRId s' = JNull /\
  isCameraRunning s' = false /\
  startCameraBtn_disabled s' = startCameraBtn_disabled s /\
  exists s1 face,
    markAttendanceWithCooldown now today studentId studentName s' = Normal s1 /\
    storage_getFace studentId s1 = Ok (Some face) /\
    Face.attendanceToday face = true /\
    Face.lastSeen face = Some now /\
    startCameraBtn_disabled s1 = startCameraBtn_disabled s.
Proof.
  intros Hready Hr Hreadable Hvalid Hcool s'.
  assert (storage s' = storage s /\ userRole s' = userRole s /\
          mainSystemConfig s' = mainSystemConfig s /\
          firebaseSync s' = firebaseSync s /\
          lastAttendanceTime s' = lastAttendanceTime s /\
          startCameraBtn_disabled s' = startCameraBtn_disabled s /\
          isCameraRunning s' = false)
    as (Hs & Hrole & Hconfig & Hsync & Hlast & Hbtn & Hcam).
  { subst s'. unfold handleQRExpiration.
    destruct (isCameraRunning s) eqn:Hrun; simpl; by rewrite ?Hrun. }
  split; [done|]. split; [done|]. split; [done|].
  destruct (markAttendanceWithCooldown_readable now today studentId studentName
              s' r)
    as (s1 & face & Hmark & Hface & Hatt & Hseen & _ & _ & _ & _ & _ & _ & _ &
        Hbtn1 & _).
  - by apply (store_ready_frame s).
  - rewrite (stored_record_frame studentId s s'); [done|done|by rewrite Hconfig].
  - by apply (store_readable_frame s s').
  - by rewrite (validateDateForRole_frame today s s').
  - by rewrite Hlast.
  - exists s1, face. split_and!; try done. by rewrite Hbtn1.
Qed.

(** X22: clearing today's attendance from the page, on either store when
    the store can be read, resets every person the store holds and forgets
    the cooldowns and the people recognised, so that the next recognition of
    a person marks and notifies again; a dialog answered with no changes
    nothing. *)
Theorem page_clearTodayAttendance_forgets (now : Z) (today : date)
    (studentId studentName : string) (s : System.t num) (r : Face.t num) :
  store_ready s ->
  stored_record studentId s = Some r ->
  store_readable s ->
  valid (validateDateForRole today s) = true ->
  ATTENDANCE_COOLDOWN <= now ->
  clearTodayAttendance false s = Normal s /\
  exists s1 s2 message,
    clearTodayAttendance true s = Normal s1 /\
    (forall id r0,
       stored_record id s = Some r0 ->
       exists r1,
         stored_record id s1 = Some r1 /\
         Face.attendanceToday r1 = false /\ Face.lastSeen r1 = None) /\
    recognizedToday s1 = ∅ /\
    lastAttendanceTime s1 = ∅ /\
    markAttendanceWithCooldown now today studentId studentName s1 = Normal s2 /\
    trace s2 =
      Call_saveAttendanceToFirebase studentId studentName
        (targetDay (validateDateForRole today s))
      :: Call_updateStudentList :: ShowToast message "success"
      :: Call_storage_markAttendance studentId :: trace s1.
Proof.
  intros Hready Hr Hreadable Hvalid Hcool. split; [done|].
  set (s0 := emit Call_storage_resetAllAttendance s).
  destruct (storage_resetAllAttendance_known s0 Hready)
    as (b & Hreset & Hready' & Hreadable' & Hall).
  set (cleared := clear_tracking (set_storage b s0)).
  assert (store_readable cleared) as Hrc.
  { apply (store_readable_frame (set_storage b s0) cleared); [done|done|].
    apply Hreadable'. by apply (store_readable_frame s s0). }
  assert (exists s1,
            clearTodayAttendance true s = Normal s1 /\
            storage s1 = b /\
            recognizedToday s1 = ∅ /\ lastAttendanceTime s1 = ∅ /\
            userRole s1 = userRole s /\
            mainSystemConfig s1 = mainSystemConfig s /\
            firebaseSync s1 = firebaseSync s)
    as (s1 & Hclear & Hstore1 & Hrec & Hlast & Hrole & Hconfig & Hsync).
  { unfold clearTodayAttendance. cbn [negb]. fold s0. rewrite Hreset.
    fold cleared. unfold updateStudentList.
    destruct Hrc as [faces Hfaces].
    change (storage_getAllFaces (emit Call_updateStudentList cleared))
      with (storage_getAllFaces cleared).
    rewrite Hfaces. unfold updateStats.
    change (storage_getAllFaces
              (emit Call_updateStats (emit Call_updateStudentList cleared)))
      with (storage_getAllFaces cleared).
    rewrite Hfaces. eexists. split; [reflexivity|]. done. }
  assert (forall id, stored_record id s1 = stored_record id (set_storage b s0))
    as Hsame.
  { intros id. apply stored_record_frame; [done|by rewrite Hconfig]. }
  destruct (Hall studentId r Hr) as (r1 & Hr1 & _).
  destruct (markAttendanceWithCooldown_readable now today studentId studentName
              s1 r1)
    as (s2 & face & Hmark & _ & _ & _ & _ & _ & _ & _ & _ & _ & _ & _ &
        shown & Htrace & _ & Hnotin).
  - apply (store_ready_frame (set_storage b s0)); [done|exact Hready'].
  - by rewrite Hsame.
  - apply (store_readable_frame cleared s1); [done|done|exact Hrc].
  - by rewrite (validateDateForRole_frame today s s1).
  - rewrite Hlast, lookup_empty. simpl. lia.
  - rewrite Hnotin in Htrace by (rewrite Hrec; apply not_elem_of_empty).
    exists s1, s2, (mark_toast today studentName s1). split_and!; try done.
    + intros id r0 Hr0. destruct (Hall id r0 Hr0) as (r' & Hr' & Ha & Hl & _).
      exists r'. by rewrite Hsame.
    + rewrite Htrace. by rewrite (validateDateForRole_frame today s s1).
Qed.

End Marking.

Lemma teacher_page_cloud_readable : store_readable Samples.teacher_page_cloud.
Proof. eexists. vm_compute. reflexivity. Qed.

Lemma second_mark_within_cooldown_witness :
  exists s1,
    System.markAttendanceWithCooldown 200000 Samples.today_5_nov "101" "Asha"
      Samples.teacher_page_cloud = System.Normal s1 /\
    System.storage_getFace "101" s1
    = Ok (Some (Face.with_attendance true (Some 200000) Examples.asha)) /\
    System.markAttendanceWithCooldown 201000 Samples.today_5_nov "101" "Asha" s1
    = System.Normal s1.
Proof.
  destruct (second_mark_within_cooldown 200000 201000 Samples.today_5_nov
              Samples.today_5_nov "101" "Asha" Samples.teacher_page_cloud
              Samples.asha_absent eq_refl eq_refl teacher_page_cloud_readable
              eq_refl)
    as (s1 & face & Hmark & Hface & _ & _ & Hagain);
    [vm_compute; discriminate|discriminate|vm_compute; reflexivity|].
  exists s1. split; [exact Hmark|]. split; [|exact Hagain].
  vm_compute in Hmark. injection Hmark as <-. vm_compute. reflexivity.
Defined.

Lemma attendance_toast_once_witness :
  (exists s1 message,
     System.markAttendanceWithCooldown 200000 Samples.today_5_nov "101" "Asha"
       Samples.teacher_page_cloud = System.Normal s1 /\
     System.trace s1
     = [Call_saveAttendanceToFirebase "101" "Asha" (JNum 5);
        Call_updateStudentList; ShowToast message "success";
        Call_storage_markAttendance "101"]) /\
  (exists s1 e message r',
     System.markAttendanceWithCooldown 200000 Samples.today_5_nov "102" "Ravi"
       Samples.teacher_page_legacy = System.Abrupt s1 e /\
     System.trace s1
     = [Call_updateStudentList; ShowToast message "success";
        Call_storage_markAttendance "102"] /\
     stored_record "102" s1 = Some r' /\
     Face.attendanceToday r' = true /\ Face.lastSeen r' = Some 200000).
Proof.
  split.
  - destruct (attendance_toast_once 200000 Samples.today_5_nov "101" "Asha"
                Samples.teacher_page_cloud Samples.asha_absent
                eq_refl eq_refl eq_refl)
      as (_ & _ & Hfirst & _); [vm_compute; discriminate|].
    apply Hfirst; [apply not_elem_of_empty|exact teacher_page_cloud_readable].
  - destruct (attendance_toast_once 200000 Samples.today_5_nov "102" "Ravi"
                Samples.teacher_page_legacy Examples.ravi
                eq_refl eq_refl eq_refl)
      as (_ & _ & _ & Hfail); [vm_compute; discriminate|].
    apply Hfail; [apply not_elem_of_empty|].
    intros [faces Hfaces]. vm_compute in Hfaces. discriminate.
Defined.

Lemma unknown_id_mark_attempt_witness :
  exists s1,
    System.markAttendanceWithCooldown 200000 Samples.today_5_nov "999" "Nobody"
      Examples.teacher_page = System.Normal s1 /\
    System.storage s1 = System.storage Examples.teacher_page /\
    System.trace s1 = [Call_storage_markAttendance "999"].
Proof.
  destruct (unknown_id_mark_attempt 200000 Samples.today_5_nov "999" "Nobody"
              Examples.teacher_page Samples.enrolled eq_refl eq_refl eq_refl)
    as (s1 & Hmark & Hstore & _ & _ & Htrace); [vm_compute; discriminate|].
  exists s1. split; [exact Hmark|]. split; [exact Hstore|exact Htrace].
Defined.

Lemma qr_expiration_does_not_lock_witness :
  let s' := System.handleQRExpiration "expired" Samples.student_in_session in
  System.currentQRId s' = JNull /\
  System.isCameraRunning s' = false /\
  System.startCameraBtn_disabled s' = false /\
  exists s1 face,
    System.markAttendanceWithCooldown 200000 Samples.today_5_nov "101" "Asha" s'
    = System.Normal s1 /\
    System.storage_getFace "101" s1 = Ok (Some face) /\
    Face.attendanceToday face = true.
Proof.
  destruct (qr_expiration_does_not_lock "expired" 200000 Samples.today_5_nov
              "101" "Asha" Samples.student_in_session Samples.asha_absent
              eq_refl eq_refl)
    as (Hqr & Hcam & Hbtn & s1 & face & Hmark & Hface & Hatt & _);
    [eexists; vm_compute; reflexivity|reflexivity|vm_compute; discriminate|].
  split; [exact Hqr|]. split; [exact Hcam|]. split; [exact Hbtn|].
  exists s1, face. split; [exact Hmark|]. split; [exact Hface|exact Hatt].
Defined.

Lemma page_clearTodayAttendance_forgets_witness :
  exists s1 s2,
    System.clearTodayAttendance true Samples.teacher_page_cloud
    = System.Normal s1 /\
    System.lastAttendanceTime s1 = ∅ /\
    System.markAttendanceWithCooldown 200000 Samples.today_5_nov "101" "Asha" s1
    = System.Normal s2.
Proof.
  destruct (page_clearTodayAttendance_forgets 200000 Samples.today_5_nov "101"
              "Asha" Samples.teacher_page_cloud Samples.asha_absent
              eq_refl eq_refl teacher_page_cloud_readable eq_refl)
    as (_ & s1 & s2 & message & Hclear & _ & _ & Hlast & Hmark & _);
    [vm_compute; discriminate|].
  exists s1, s2. split; [exact Hclear|]. split; [exact Hlast|exact Hmark].
Defined.

(** * The push, the listeners and the change handlers *)

Section Changes.
Context {num : Type} `{Float32 num}.
Import System.

Lemma padStart2_month (m : Z) :
  0 <= m <= 11 ->
  padStart2 (String_plus_one (JNum m))
  = (if m <? 9 then "0" else EmptyString) +:+ pretty (m + 1).
Proof.
  intros Hm.
  assert (m = 0 \/ m = 1 \/ m = 2 \/ m = 3 \/ m = 4 \/ m = 5 \/ m = 6 \/
          m = 7 \/ m = 8 \/ m = 9 \/ m = 10 \/ m = 11) as Hcases by lia.
  repeat (destruct Hcases as [->|Hcases]; [by vm_compute|]).
  subst m. by vm_compute.
Qed.

(** X23: with a live connection, a subject, a year and a complete division,
    a mark is pushed to the node of the student under the month key made of
    the year and the two-digit number of the month counted from 1; a month
    that is [undefined] passes the check against [null] and the push goes
    under the key [<year>-NaN]. *)
Theorem saveAttendanceToFirebase_month_key (studentId studentName : string)
    (day : jsval) (s : System.t num) :
  connected s = true ->
  truthy (Config.selectedSubject (mainSystemConfig s)) = true ->
  Config.selectedYear (mainSystemConfig s) ≠ JNull ->
  complete_division (mainSystemConfig s) ->
  Config.selectedMonth (mainSystemConfig s) ≠ JNull ->
  exists u before,
    saveAttendanceToFirebase studentId studentName day s = Some u /\
    update_fields u = [("_name", JStr studentName); (ToString day, JStr "Present")] /\
    update_path u
    = before +:+ "/months/" +:+
      monthKey (Config.selectedYear (mainSystemConfig s))
               (Config.selectedMonth (mainSystemConfig s)) +:+
      "/subjects/" +:+ ToString (Config.selectedSubject (mainSystemConfig s)) +:+
      "/attendance/" +:+ studentId /\
    (forall m, Config.selectedMonth (mainSystemConfig s) = JNum m ->
       0 <= m <= 11 ->
       monthKey (Config.selectedYear (mainSystemConfig s))
                (Config.selectedMonth (mainSystemConfig s))
       = ToString (Config.selectedYear (mainSystemConfig s)) +:+ "-" +:+
         (if m <? 9 then "0" else EmptyString) +:+ pretty (m + 1)) /\
    (Config.selectedMonth (mainSystemConfig s) = JUndefined ->
     monthKey (Config.selectedYear (mainSystemConfig s))
              (Config.selectedMonth (mainSystemConfig s))
     = ToString (Config.selectedYear (mainSystemConfig s)) +:+ "-NaN").
Proof.
  intros Hconn Hsubject Hyear (Hdept & Hcourse & Hay & Hdiv) Hmonth.
  unfold saveAttendanceToFirebase. rewrite Hconn, Hsubject. simpl.
  unfold strict_eq. rewrite !bool_decide_eq_false_2 by done. simpl.
  rewrite Hdept, Hcourse, Hay, Hdiv. simpl.
  eexists _, _. split; [reflexivity|]. simpl. split; [done|]. split.
  - rewrite <- !append_assoc. reflexivity.
  - split.
    + intros m -> Hm. unfold monthKey. by rewrite padStart2_month.
    + intros ->. done.
Qed.

Lemma no_reset_refl (s : System.t num) : no_reset s s.
Proof. by repeat split. Qed.

Lemma no_reset_trans (s1 s2 s3 : System.t num) :
  no_reset s1 s2 -> no_reset s2 s3 -> no_reset s1 s3.
Proof.
  intros (? & ? & ? & ?) (? & ? & ? & ?). repeat split; congruence.
Qed.

Lemma no_reset_loadFaceMatcher (s : System.t num) :
  no_reset s (state_of (loadFaceMatcher s)).
Proof.
  destruct (loadFaceMatcher_state s) as [m ->].
  repeat split; simpl; by rewrite ?calls_emit.
Qed.

Lemma no_reset_updateStudentList (s : System.t num) :
  no_reset s (state_of (updateStudentList s)).
Proof.
  rewrite updateStudentList_state.
  repeat split; simpl; by rewrite ?calls_emit.
Qed.

(** The two refreshes that end the subject handler. *)
Lemma finish_refreshes (s : System.t num) :
  exists s',
    finish 2 (await_method loadFaceMatcher
                (await_method updateStudentList finished) s) = Some s' /\
    no_reset s s' /\
    mainSystemConfig s' = mainSystemConfig s.
Proof.
  unfold await_method, finished. simpl.
  pose proof (no_reset_loadFaceMatcher s) as Hload.
  destruct (loadFaceMatcher_state s) as [m Hm].
  destruct (loadFaceMatcher s) as [s1|s1 e]; simpl in *.
  - pose proof (no_reset_updateStudentList s1) as Hlist.
    pose proof (updateStudentList_state s1) as Hs.
    destruct (updateStudentList s1) as [s2|s2 e]; simpl in *;
      (eexists; split; [reflexivity|]; split;
       [by eapply no_reset_trans|by rewrite Hs, Hm]).
  - eexists. split; [reflexivity|]. split; [done|]. by rewrite Hm.
Qed.

Lemma subject_from_listener (val : jsval) (s : System.t num) :
  handleFirebaseSubjectChange val JNull s
  = await_method loadFaceMatcher (await_method updateStudentList finished)
      (if negb (truthy val)
       then showToast "⚠️ No subject selected in main system" "warning"
              (emit Call_updateConfigDisplay
                 (set_mainSystemConfig
                    (Config.set_selectedSubject val (mainSystemConfig s)) s))
       else showToast ("📚 Subject changed to: " +:+ ToString val) "info"
              (emit Call_updateConfigDisplay
                 (set_mainSystemConfig
                    (Config.set_selectedSubject val (mainSystemConfig s)) s))).
Proof. reflexivity. Qed.

(** X24: the live listeners report every change with [null] as the previous
    value, so a change of subject, month or year that arrives through them
    never resets the attendance: the store, the people recognised and the
    cooldowns are as before, whatever the new value. *)
Theorem live_listeners_never_reset (sync : FirebaseLiveSync)
    (todayDate currentYear : Z)
    (department course academicYear division year : jsval)
    (i : nat) (path : string) (listener : jsval -> System.async num)
    (val : jsval) (s : System.t num) :
  setupLiveListeners sync currentYear
    (page_callbacks todayDate department course academicYear division year)
    !! i = Some (path, listener) ->
  (i < 3)%nat ->
  exists s',
    finish 2 (listener val s) = Some s' /\
    no_reset s s'.
Proof.
  unfold setupLiveListeners.
  destruct (negb (isConnected sync)); [done|].
  destruct (_ || _ || _ || _); [done|].
  intros Hlookup Hi.
  destruct i as [|[|[|i]]]; [| | |lia]; simpl in Hlookup;
    injection Hlookup as _ <-; unfold notify, page_callbacks;
    cbn [onSubjectChange onMonthChange onYearChange].
  - rewrite subject_from_listener.
    match goal with
    | |- context [await_method loadFaceMatcher _ ?s0] =>
        destruct (finish_refreshes s0) as (s' & Hfin & Hkeep & _)
    end.
    exists s'. split; [exact Hfin|].
    eapply no_reset_trans; [|exact Hkeep].
    destruct (negb (truthy val)); repeat split; simpl;
      unfold showToast; by rewrite ?calls_emit.
  - unfold handleFirebaseMonthChange, finished.
    destruct (strict_ne val JNull && strict_ne val JUndefined); simpl;
      (eexists; split; [reflexivity|]);
      repeat split; simpl; unfold showToast; by rewrite ?calls_emit.
  - unfold handleFirebaseYearChange, finished.
    destruct (truthy val); simpl;
      (eexists; split; [reflexivity|]);
      repeat split; simpl; unfold showToast; by rewrite ?calls_emit.
Qed.

Lemma finish_mono (n : nat) (o : System.outcome num) (s' : System.t num) :
  finish n o = Some s' -> finish (S n) o = Some s'.
Proof.
  revert o. induction n as [|n IH]; intros [s [|resume]]; simpl; try done.
  apply IH.
Qed.

(** A reset by [handleDayChange], followed by [k]: the reset is made on
    either store, whether or not the refreshes after it can read the
    store. *)
Lemma handleDayChange_known (newDay : string) (k : System.async num)
    (s : System.t num) :
  store_ready s ->
  exists b s1,
    storage_resetAllAttendance s = Ok (set_storage b s) /\
    (forall n s', finish n (k s1) = Some s' ->
                  finish (3 + n) (handleDayChange newDay k s) = Some s') /\
    storage s1 = b /\
    recognizedToday s1 = ∅ /\
    lastAttendanceTime s1 = ∅ /\
    mainSystemConfig s1 = mainSystemConfig s /\
    calls Call_storage_resetAllAttendance s1
    = S (calls Call_storage_resetAllAttendance s).
Proof.
  intros Hready.
  destruct (storage_resetAllAttendance_known s Hready) as (b & Hreset & _).
  exists b.
  set (s0 := emit Call_storage_resetAllAttendance (clear_tracking s)).
  assert (storage_resetAllAttendance s0 = Ok (set_storage b s0)) as Hreset0.
  { revert Hreset. unfold storage_resetAllAttendance. simpl.
    destruct (storage s); simpl; [by intros [= <-]|].
    destruct (CloudStorage.resetAllAttendance _ _); simpl; [|done].
    by intros [= <-]. }
  set (s2 := emit Call_updateStudentList (set_storage b s0)).
  assert (handleDayChange newDay k s
          = Out s0
              (Await (fun s' =>
                 match storage_resetAllAttendance s' with
                 | Ok s'' =>
                     await Call_updateStudentList refresh_read
                       (await Call_updateStats refresh_read
                          (fun s => k (showToast (reset_toast newDay) "info" s))
                          (fun s => k (showToast
                                         "Failed to reset attendance for new day"
                                         "danger" s)))
                       (fun s => k (showToast
                                      "Failed to reset attendance for new day"
                                      "danger" s)) s''
                 | Throw _ =>
                     k (showToast "Failed to reset attendance for new day"
                                  "danger" s')
                 end))) as Hshape by reflexivity.
  destruct (refresh_read s2) as [s3|e] eqn:Hread.
  - assert (s3 = s2) as ->.
    { revert Hread. unfold refresh_read.
      by destruct (storage_getAllFaces s2); intros [= <-]. }
    set (s4 := emit Call_updateStats s2).
    destruct (refresh_read s4) as [s5|e] eqn:Hread4.
    + assert (s5 = s4) as ->.
      { revert Hread4. unfold refresh_read.
        by destruct (storage_getAllFaces s4); intros [= <-]. }
      exists (showToast (reset_toast newDay) "info" s4).
      split; [exact Hreset|]. split.
      * intros n s' Hk. rewrite Hshape. cbn [finish plus].
        rewrite Hreset0. unfold await. cbn [finish].
        fold s2. rewrite Hread. cbn [finish]. fold s4. rewrite Hread4.
        exact Hk.
      * subst s4 s2 s0. split_and!; try done;
          simpl; unfold showToast; by rewrite !calls_emit.
    + exists (showToast "Failed to reset attendance for new day" "danger" s4).
      split; [exact Hreset|]. split.
      * intros n s' Hk. rewrite Hshape. cbn [finish plus].
        rewrite Hreset0. unfold await. cbn [finish].
        fold s2. rewrite Hread. cbn [finish]. fold s4. rewrite Hread4.
        exact Hk.
      * subst s4 s2 s0. split_and!; try done;
          simpl; unfold showToast; by rewrite !calls_emit.
  - exists (showToast "Failed to reset attendance for new day" "danger" s2).
    split; [exact Hreset|]. split.
    + intros n s' Hk. rewrite Hshape. cbn [finish plus].
      rewrite Hreset0. unfold await. cbn [finish].
      fold s2. rewrite Hread. by apply finish_mono.
    + subst s2 s0. split_and!; try done;
        simpl; unfold showToast; by rewrite !calls_emit.
Qed.

(** X25: called with the previous value, the handlers of subject, month and
    year reset the attendance once when the value has changed: on either
    store every person the store holds is reset, and the people recognised
    and the cooldowns are forgotten. *)
Theorem change_with_previous_value_resets (new old : jsval)
    (s : System.t num) :
  store_ready s ->
  truthy new = true ->
  truthy old = true ->
  old ≠ new ->
  forall handler,
    handler ∈ [handleFirebaseSubjectChange; handleFirebaseMonthChange;
               handleFirebaseYearChange] ->
    exists s',
      finish 5 (handler new old s) = Some s' /\
      (forall studentId r,
         stored_record studentId s = Some r ->
         exists r',
           stored_record studentId s' = Some r' /\
           Face.attendanceToday r' = false /\ Face.lastSeen r' = None) /\
      recognizedToday s' = ∅ /\
      lastAttendanceTime s' = ∅ /\
      calls Call_storage_resetAllAttendance s'
      = S (calls Call_storage_resetAllAttendance s).
Proof.
  intros Hready Hnew Hold Hne handler Hin.
  assert (strict_ne old new = true) as Hsne.
  { unfold strict_ne, strict_eq. by rewrite bool_decide_eq_false_2. }
  assert (strict_ne new JNull = true /\ strict_ne new JUndefined = true /\
          strict_ne old JNull = true) as (Hn1 & Hn2 & Ho1).
  { unfold strict_ne, strict_eq.
    destruct new, old; simpl in *; try done. }
  (* what the reset leaves, for a start state [s0] that differs from [s] in
     the subject, the month or the year of the context and in the trace *)
  assert (forall (s0 : System.t num) (k : System.async num),
            storage s0 = storage s ->
            CloudStorage.getFacesRef (mainSystemConfig s0)
            = CloudStorage.getFacesRef (mainSystemConfig s) ->
            calls Call_storage_resetAllAttendance s0
            = calls Call_storage_resetAllAttendance s ->
            forall newDay,
            exists s1,
              (forall n s', finish n (k s1) = Some s' ->
                 finish (3 + n) (handleDayChange newDay k s0) = Some s') /\
              (forall studentId r,
                 stored_record studentId s = Some r ->
                 exists r',
                   stored_record studentId s1 = Some r' /\
                   Face.attendanceToday r' = false /\ Face.lastSeen r' = None) /\
              recognizedToday s1 = ∅ /\
              lastAttendanceTime s1 = ∅ /\
              calls Call_storage_resetAllAttendance s1
              = S (calls Call_storage_resetAllAttendance s)) as Hreset.
  { intros s0 k Hs Hc Hcalls newDay.
    destruct (handleDayChange_known newDay k s0)
      as (b & s1 & Hr & Hfin & Hs1 & Hrec & Hlast & Hconfig & Hn);
      [by apply (store_ready_frame s)|].
    destruct (storage_resetAllAttendance_known s0) as (b' & Hr' & _ & _ & Hall);
      [by apply (store_ready_frame s)|].
    rewrite Hr in Hr'. injection Hr' as <-.
    exists s1. split; [exact Hfin|]. split_and!; try done.
    - intros studentId r Hrec0.
      rewrite <- (stored_record_frame studentId s s0) in Hrec0 by done.
      destruct (Hall studentId r Hrec0) as (r' & Hr1 & Ha & Hl & _).
      exists r'. split; [|done]. rewrite <- Hr1.
      apply stored_record_frame; [done|by rewrite Hconfig].
    - by rewrite Hn, Hcalls. }
  repeat (apply elem_of_cons in Hin as [->|Hin]); [| | |by apply elem_of_nil in Hin].
  - unfold handleFirebaseSubjectChange. rewrite Hnew, Hold, Hsne.
    cbn [negb andb].
    match goal with
    | |- context [handleDayChange _ ?k ?s0] =>
        destruct (Hreset s0 k eq_refl eq_refl) with (newDay := "subject-change")
          as (s1 & Hfin & Hall & Hrec & Hlast & Hcalls)
    end.
    { unfold showToast. by rewrite !calls_emit. }
    destruct (finish_refreshes s1)
      as (s' & Hfin' & (Hk1 & Hk2 & Hk3 & Hk4) & Hk5).
    exists s'. split; [exact (Hfin 2%nat s' Hfin')|].
    rewrite Hk2, Hk3, Hk4. split_and!; try done.
    intros studentId r Hr. destruct (Hall studentId r Hr) as (r' & Hr' & Ha).
    exists r'. split; [|done]. rewrite <- Hr'.
    apply stored_record_frame; [done|by rewrite Hk5].
  - unfold handleFirebaseMonthChange. rewrite Hn1, Hn2, Ho1, Hsne.
    cbn [negb andb].
    match goal with
    | |- context [handleDayChange _ ?k ?s0] =>
        destruct (Hreset s0 k eq_refl eq_refl) with (newDay := "month-change")
          as (s1 & Hfin & Hall & Hrec & Hlast & Hcalls)
    end.
    { unfold showToast. by rewrite !calls_emit. }
    exists s1. split; [exact (Hfin 2%nat s1 eq_refl)|]. done.
  - unfold handleFirebaseYearChange. rewrite Hnew, Hold, Hsne.
    cbn [negb andb].
    match goal with
    | |- context [handleDayChange _ ?k ?s0] =>
        destruct (Hreset s0 k eq_refl eq_refl) with (newDay := "year-change")
          as (s1 & Hfin & Hall & Hrec & Hlast & Hcalls)
    end.
    { unfold showToast. by rewrite !calls_emit. }
    exists s1. split; [exact (Hfin 2%nat s1 eq_refl)|]. done.
Qed.

End Changes.

Lemma saveAttendanceToFirebase_month_key_witness :
  exists u before,
    System.saveAttendanceToFirebase "101" "Asha" (JNum 5) Examples.teacher_page
    = Some u /\
    System.update_fields u = [("_name", JStr "Asha"); ("5", JStr "Present")] /\
    System.update_path u
    = before +:+ "/months/2026-11/subjects/Maths/attendance/101".
Proof.
  destruct (saveAttendanceToFirebase_month_key "101" "Asha" (JNum 5)
              Examples.teacher_page eq_refl eq_refl)
    as (u & before & Hu & Hfields & Hpath & Hkey & _).
  - discriminate.
  - repeat split.
  - discriminate.
  - exists u, before. split; [exact Hu|]. split; [exact Hfields|].
    rewrite Hpath, (Hkey 10 eq_refl); [reflexivity|lia].
Defined.

Lemma live_listeners_never_reset_witness :
  exists path listener s',
    System.setupLiveListeners (mkSync true) 2026
      (System.page_callbacks 5 (JStr "CS") (JStr "BTech") (JStr "2024")
         (JStr "A") (JNum 2026))
    !! 0%nat = Some (path, listener) /\
    System.finish 2 (listener (JStr "Physics") Examples.teacher_page) = Some s' /\
    no_reset Examples.teacher_page s'.
Proof.
  eexists _, _.
  destruct (live_listeners_never_reset (mkSync true) 5 2026 (JStr "CS")
              (JStr "BTech") (JStr "2024") (JStr "A") (JNum 2026) 0 _ _
              (JStr "Physics") Examples.teacher_page eq_refl)
    as (s' & Hfinish & Hkeep); [lia|].
  exists s'. split; [reflexivity|]. split; [exact Hfinish|exact Hkeep].
Defined.

Lemma change_with_previous_value_resets_witness :
  exists s',
    System.finish 5
      (System.handleFirebaseSubjectChange (JStr "Physics") (JStr "Maths")
         Samples.teacher_page_marked) = Some s' /\
    (exists r',
       stored_record "101" s' = Some r' /\
       Face.attendanceToday r' = false /\ Face.lastSeen r' = None) /\
    System.recognizedToday s' = ∅ /\
    System.lastAttendanceTime s' = ∅.
Proof.
  destruct (change_with_previous_value_resets (JStr "Physics") (JStr "Maths")
              Samples.teacher_page_marked eq_refl eq_refl eq_refl)
    with (handler := @System.handleFirebaseSubjectChange Z _)
    as (s' & Hfinish & Hall & Hrec & Hlast & _).
  - discriminate.
  - constructor.
  - exists s'. split; [exact Hfinish|].
    split; [exact (Hall "101" Examples.asha eq_refl)|].
    split; [exact Hrec|exact Hlast].
Defined.

(** * Registration by the camera *)

Section Registration.
Context {num : Type} `{Float32 num}.
Import System.

Lemma eqb_empty_false (value : string) :
  value ≠ EmptyString -> String.eqb value EmptyString = false.
Proof. intros Hne. by destruct (String.eqb_spec value EmptyString). Qed.

Lemma capture_refresh_local (s : System.t num) (db : gmap string (Face.t num)) :
  storage s = Local db ->
  exists s',
    capture_refresh s = Captured s' /\
    storage s' = Local db /\
    faceMatcher s' =
      (let labeledDescriptors := FaceStorage.getLabeledDescriptors [] db in
       if (length labeledDescriptors =? 0)%nat then None
       else Some labeledDescriptors).
Proof.
  intros Hstore. unfold capture_refresh.
  pose proof (loadFaceMatcher_local s db Hstore) as Hmatcher.
  destruct (loadFaceMatcher_state s) as [m Hm].
  assert (exists s1, loadFaceMatcher s = Normal s1) as [s1 Hs1].
  { unfold loadFaceMatcher, storage_getAllFaces, storage_getLabeledDescriptors.
    simpl. rewrite Hstore.
    destruct (_ && _ && _ && _); simpl; destruct (_ =? _)%nat; by eexists. }
  rewrite Hs1 in *. simpl in *.
  assert (storage s1 = Local db) as Hstore1 by (by rewrite Hm).
  unfold updateStudentList, updateStats, storage_getAllFaces.
  cbn [storage emit]. rewrite Hstore1. cbn [storage emit]. rewrite Hstore1.
  eexists. split; [reflexivity|]. simpl. split; [done|]. exact Hmatcher.
Qed.

(** X26: a capture for a student who is not in the local store, with both
    fields filled, a division selected and a face detected, saves the person
    under the trimmed id and name, and the matcher rebuilt afterwards knows
    the new label. *)
Theorem captureFace_registers (now : Z) (studentIdInput studentNameInput : string)
    (choice : option string) (confirmed : bool) (descriptor : list num)
    (imageData : string) (action_global : option jsval)
    (s : System.t num) (db : gmap string (Face.t num)) :
  trim studentIdInput ≠ EmptyString ->
  trim studentNameInput ≠ EmptyString ->
  complete_division (mainSystemConfig s) ->
  storage s = Local db ->
  db !! trim studentIdInput = None ->
  exists s' matcher,
    captureFace now studentIdInput studentNameInput choice confirmed
      (Some descriptor) imageData action_global s = Captured s' /\
    storage_getFace (trim studentIdInput) s'
    = Ok (Some (FaceStorage.faceData (trim studentIdInput)
                  (trim studentNameInput) [Float32Array descriptor]
                  imageData now false None)) /\
    faceMatcher s' = Some matcher /\
    mkLabeled (trim studentIdInput +:+ "|" +:+ trim studentNameInput)
              [Float32Array descriptor] ∈ matcher.
Proof.
  intros Hid Hname (Hdept & Hcourse & Hay & Hdiv) Hstore Hnone.
  unfold captureFace.
  rewrite (eqb_empty_false _ Hid), (eqb_empty_false _ Hname).
  rewrite Hdept, Hcourse, Hay, Hdiv. cbn [negb orb].
  assert (FaceStorage.getFace (trim studentIdInput) db = None) as Hget.
  { unfold FaceStorage.getFace. by rewrite Hnone. }
  unfold storage_getFace at 1. rewrite Hstore. cbv iota beta zeta.
  rewrite !Hget.
  unfold storage_saveFace. rewrite Hstore.
  set (db' := (FaceStorage.saveFace now (trim studentIdInput)
                 (trim studentNameInput) descriptor imageData db).2).
  cbv iota beta zeta.
  destruct (capture_refresh_local
              (showToast
                 ("✓ Face registered for " +:+
                  (trim studentNameInput +:+ " (" +:+ trim studentIdInput +:+ ")"))
                 "success" (set_storage (Local db') s)) db' eq_refl)
    as (s' & Hrefresh & Hstore' & Hmatcher).
  assert (mkLabeled (trim studentIdInput +:+ "|" +:+ trim studentNameInput)
                    [Float32Array descriptor]
          ∈ FaceStorage.getLabeledDescriptors [] db') as Hin.
  { unfold FaceStorage.getLabeledDescriptors. apply list_elem_of_fmap.
    exists (FaceStorage.faceData (trim studentIdInput) (trim studentNameInput)
              [Float32Array descriptor] imageData now false None).
    split; [done|]. subst db'. unfold FaceStorage.saveFace, FaceStorage.put.
    simpl. rewrite getAllFaces_insert. apply list_elem_of_here. }
  exists s', (FaceStorage.getLabeledDescriptors [] db').
  split; [exact Hrefresh|]. split.
  - unfold storage_getFace. rewrite Hstore'. f_equal.
    exact (proj1 (saveFace_then_getFace_local now (trim studentIdInput)
                    (trim studentNameInput) descriptor imageData db)).
  - split; [|exact Hin]. rewrite Hmatcher. simpl.
    destruct (FaceStorage.getLabeledDescriptors [] db') as [|x l] eqn:Hl; [|done].
    by apply elem_of_nil in Hin.
Qed.

(** X27: for a student who is already in the store, [captureFace] never
    writes: the choice made in the dialog is out of scope where the save is
    decided, so unless the page has a global [action] equal to ['replace'] or
    ['add'] the store is left as it is, whatever the answers; with no such
    global at all, a capture that was not cancelled and found a face ends in
    the [catch] block with a ReferenceError. *)
Theorem captureFace_existing_never_written (now : Z)
    (studentIdInput studentNameInput : string)
    (choice : option string) (confirmed : bool)
    (detection : option (list num)) (imageData : string)
    (action_global : option jsval) (s : System.t num)
    (existingFace : Face.t num) :
  storage_getFace (trim studentIdInput) s = Ok (Some existingFace) ->
  action_global ≠ Some (JStr "replace") ->
  action_global ≠ Some (JStr "add") ->
  let result := captureFace now studentIdInput studentNameInput choice
                  confirmed detection imageData action_global s in
  storage (captured_state result) = storage s /\
  (trim studentIdInput ≠ EmptyString ->
   trim studentNameInput ≠ EmptyString ->
   complete_division (mainSystemConfig s) ->
   showFaceExistsDialog choice confirmed ≠ "cancel" ->
   is_Some detection ->
   action_global = None ->
   result = CaptureFailed s (ReferenceError "action")).
Proof.
  intros Hget Hreplace Hadd result. subst result. unfold captureFace.
  rewrite Hget. split.
  - destruct (_ || _); [done|]. destruct (_ || _ || _ || _); [done|].
    destruct (String.eqb _ "cancel"); [done|].
    destruct detection as [d|]; [|done].
    destruct action_global as [action|]; [|done].
    unfold strict_eq. rewrite !bool_decide_eq_false_2; [done|..]; congruence.
  - intros Hid Hname (Hdept & Hcourse & Hay & Hdiv) Hdialog [d ->] ->.
    rewrite (eqb_empty_false _ Hid), (eqb_empty_false _ Hname).
    rewrite Hdept, Hcourse, Hay, Hdiv. cbn [negb orb].
    by destruct (String.eqb_spec (showFaceExistsDialog choice confirmed) "cancel").
Qed.

End Registration.

Lemma captureFace_registers_witness :
  exists s' matcher,
    System.captureFace 200000 " 301 " "Chitra" None false (Some [4; 5; 6])
      "img-301" None Examples.teacher_page = System.Captured s' /\
    System.storage_getFace "301" s'
    = Ok (Some (FaceStorage.faceData "301" "Chitra" [Float32Array [4; 5; 6]]
                  "img-301" 200000 false None)) /\
    System.faceMatcher s' = Some matcher /\
    mkLabeled "301|Chitra" [Float32Array [4; 5; 6]] ∈ matcher.
Proof.
  destruct (captureFace_registers 200000 " 301 " "Chitra" None false [4; 5; 6]
              "img-301" None Examples.teacher_page Samples.enrolled)
    as (s' & matcher & Hcapture & Hget & Hmatcher & Hlabel).
  - vm_compute. discriminate.
  - vm_compute. discriminate.
  - repeat split.
  - reflexivity.
  - vm_compute. reflexivity.
  - exists s', matcher. split_and!; assumption.
Defined.

Lemma captureFace_existing_never_written_witness :
  System.captureFace 200000 "101" "Asha" (Some "replace") true
    (Some [4; 5; 6]) "img-new" None Examples.teacher_page
  = System.CaptureFailed Examples.teacher_page (System.ReferenceError "action").
Proof.
  destruct (System.storage_getFace (trim "101") Examples.teacher_page)
    as [[existingFace|]|e] eqn:Hget;
    [|vm_compute in Hget; discriminate..].
  destruct (captureFace_existing_never_written 200000 "101" "Asha"
              (Some "replace") true (Some [4; 5; 6]) "img-new" None
              Examples.teacher_page existingFace Hget)
    as [_ Hfail]; [discriminate..|].
  apply Hfail.
  - vm_compute. discriminate.
  - vm_compute. discriminate.
  - repeat split.
  - vm_compute. discriminate.
  - by eexists.
  - reflexivity.
Defined.

(** * Leave applications: the list and the counters *)

Section LeaveList.
Import Leave.

(** X28: a context that passes [validateDivisionContext] need not have a
    path for the leave applications: the validation accepts every year but
    [null], the path needs a truthy year.  With a truthy year a valid context
    has a path. *)
Theorem leave_context_validation (a : appState) :
  (validateDivisionContext a).1 = true ->
  (validateDivisionContext a).2 = [] /\
  selectedMonth a ≠ JNull /\
  selectedYear a ≠ JNull /\
  (is_Some (getLeaveApplicationsPath a) <-> truthy (selectedYear a) = true).
Proof.
  unfold validateDivisionContext, getLeaveApplicationsPath. simpl.
  destruct (truthy (selectedDepartment a)); simpl; [|done].
  destruct (truthy (selectedCourse a)); simpl; [|done].
  destruct (truthy (selectedAcademicYear a)); simpl; [|done].
  destruct (truthy (selectedDivision a)); simpl; [|done].
  unfold strict_eq.
  case_bool_decide as Hmonth; simpl; [done|].
  case_bool_decide as Hyear; simpl; [done|].
  intros _. split_and!; try done.
  destruct (truthy (selectedYear a)); simpl; split; try done;
    by intros [? ?].
Qed.

#[local] Instance later_first_total : Total later_first.
Proof. intros a b. unfold later_first. lia. Qed.

Lemma loaded_list (s : Leave.t) (leavePath : string) :
  getLeaveApplicationsPath (app s) = Some leavePath ->
  applications (loadLeaveApplications s) ≡ₚ map_to_list (stored leavePath s).
Proof.
  intros Hpath. unfold loadLeaveApplications. rewrite Hpath. simpl.
  apply merge_sort_Permutation.
Qed.

Lemma find_in_loaded_list (l : list (string * application))
    (m : gmap string application) (leaveId : string) :
  l ≡ₚ map_to_list m ->
  snd <$> List.find (fun x => String.eqb x.1 leaveId) l = m !! leaveId.
Proof.
  intros Hperm.
  destruct (List.find _ l) as [[k x]|] eqn:Hfind; simpl.
  - apply List.find_some in Hfind as [Hin Hk]. simpl in Hk.
    apply String.eqb_eq in Hk. subst k.
    apply list_elem_of_In in Hin. rewrite Hperm in Hin.
    by apply elem_of_map_to_list in Hin.
  - destruct (m !! leaveId) as [x|] eqn:Hm; [|done].
    apply elem_of_map_to_list in Hm. rewrite <- Hperm in Hm.
    apply list_elem_of_In in Hm.
    pose proof (List.find_none _ _ Hfind _ Hm) as Hno. simpl in Hno.
    by rewrite String.eqb_refl in Hno.
Qed.

(** X29: after [loadLeaveApplications] the list holds every stored
    application of the division exactly once, the latest submission first,
    and looking an id up in the list finds what is stored under it; without
    a path the list is empty. *)
Theorem loadLeaveApplications_list (s : Leave.t) :
  match getLeaveApplicationsPath (app s) with
  | None => applications (loadLeaveApplications s) = []
  | Some leavePath =>
      applications (loadLeaveApplications s) ≡ₚ map_to_list (stored leavePath s) /\
      NoDup (applications (loadLeaveApplications s)).*1 /\
      Sorted later_first (applications (loadLeaveApplications s)) /\
      (forall leaveId,
         find_application leaveId (loadLeaveApplications s)
         = stored leavePath s !! leaveId)
  end.
Proof.
  destruct (getLeaveApplicationsPath (app s)) as [leavePath|] eqn:Hpath.
  - pose proof (loaded_list s leavePath Hpath) as Hperm. split_and!.
    + exact Hperm.
    + rewrite Hperm. apply NoDup_fst_map_to_list.
    + unfold loadLeaveApplications. rewrite Hpath. simpl.
      apply Sorted_merge_sort. apply _.
    + intros leaveId. unfold find_application.
      by apply find_in_loaded_list.
  - unfold loadLeaveApplications. by rewrite Hpath.
Qed.

Lemma stored_update_application_alter (leavePath leaveId : string)
    (f : application -> application) (s : Leave.t) :
  stored leavePath (update_application leavePath leaveId f s)
  = alter f leaveId (stored leavePath s).
Proof.
  unfold stored, update_application. destruct (useCloud s) eqn:Hcloud.
  - simpl. rewrite Hcloud. rewrite lookup_alter_eq.
    destruct (firebaseDB s !! leavePath) as [m|]; simpl; [done|].
    apply map_eq. intros k. rewrite lookup_alter, lookup_empty.
    by case_decide.
  - destruct (default ∅ (localDB s) !! leaveId) as [l|] eqn:Hl.
    + simpl. rewrite Hcloud. simpl.
      apply map_eq. intros k. rewrite lookup_alter, lookup_insert.
      case_decide as Hk; [|done]. subst k. by rewrite Hl.
    + rewrite Hcloud.
      apply map_eq. intros k. rewrite lookup_alter.
      case_decide as Hk; [|done]. subst k. by rewrite Hl.
Qed.

Lemma count_Permutation (st : string) (l k : list (string * application)) :
  l ≡ₚ k ->
  length (List.filter (fun x => String.eqb (status x.2) st) l)
  = length (List.filter (fun x => String.eqb (status x.2) st) k).
Proof.
  induction 1 as [|x l k _ IH|x y l|l k m _ IH1 _ IH2]; simpl.
  - done.
  - destruct (String.eqb _ _); simpl; by rewrite IH.
  - destruct (String.eqb (status x.2) st), (String.eqb (status y.2) st); done.
  - by rewrite IH1.
Qed.

(** X30: approving a pending application of the loaded list moves one from
    the pending to the approved counter and leaves the total and the
    rejected counter as they were. *)
Theorem approve_moves_counter (s : Leave.t) (leavePath leaveId : string)
    (leave : application) (user : option string) (now : Z) :
  getLeaveApplicationsPath (app s) = Some leavePath ->
  stored leavePath s !! leaveId = Some leave ->
  status leave = "pending" ->
  let page := loadLeaveApplications s in
  let before := updateStats page in
  let after := updateStats (approveLeave true user now leaveId page) in
  statsTotalLeaves after = statsTotalLeaves before /\
  S (statsPendingLeaves after) = statsPendingLeaves before /\
  statsApprovedLeaves after = S (statsApprovedLeaves before) /\
  statsRejectedLeaves after = statsRejectedLeaves before.
Proof.
  intros Hpath Hstored Hpending page before after.
  pose proof (loaded_list s leavePath Hpath) as Hbefore.
  assert (getLeaveApplicationsPath (app page) = Some leavePath) as Hpath'.
  { subst page. unfold loadLeaveApplications. by rewrite Hpath. }
  assert (stored leavePath page = stored leavePath s) as Hsame
    by apply stored_loadLeaveApplications.
  assert (find_application leaveId page = Some leave) as Hfind.
  { unfold find_application. subst page.
    by rewrite (find_in_loaded_list _ _ _ Hbefore). }
  assert (applications (approveLeave true user now leaveId page)
          ≡ₚ (leaveId, approved (default "unknown" user) now leave)
             :: map_to_list (delete leaveId (stored leavePath s))) as Hafter.
  { unfold approveLeave. rewrite Hfind, Hpath'. simpl.
    match goal with
    | |- applications (loadLeaveApplications ?s1) ≡ₚ _ =>
        assert (getLeaveApplicationsPath (app s1) = Some leavePath) as Hp1;
        [|rewrite (loaded_list s1 leavePath Hp1)]
    end.
    { unfold update_application.
      destruct (useCloud page); [exact Hpath'|].
      destruct (default ∅ (localDB page) !! leaveId); exact Hpath'. }
    rewrite stored_update_application_alter, Hsame.
    assert (alter (approved (default "unknown" user) now) leaveId
              (stored leavePath s)
            = <[leaveId := approved (default "unknown" user) now leave]>
                (delete leaveId (stored leavePath s))) as ->.
    { apply map_eq. intros k. rewrite lookup_alter, lookup_insert.
      case_decide as Hk; [by subst k; rewrite Hstored|].
      by rewrite lookup_delete_ne. }
    by rewrite map_to_list_insert by apply lookup_delete_eq. }
  assert (applications page
          ≡ₚ (leaveId, leave) :: map_to_list (delete leaveId (stored leavePath s)))
    as Hpage.
  { subst page. rewrite Hbefore.
    by rewrite <- (map_to_list_delete _ _ _ Hstored). }
  subst before after. unfold updateStats, count_status. simpl.
  rewrite (Permutation_length Hafter), (Permutation_length Hpage).
  rewrite !(count_Permutation _ _ _ Hafter), !(count_Permutation _ _ _ Hpage).
  simpl. rewrite Hpending. simpl. done.
Qed.

End LeaveList.

Lemma leave_context_validation_witness :
  (Leave.validateDivisionContext Samples.year_zero).2 = [] /\
  Leave.getLeaveApplicationsPath Samples.year_zero = None.
Proof.
  destruct (leave_context_validation Samples.year_zero)
    as (Herrors & _ & _ & Hpath); [vm_compute; reflexivity|].
  split; [exact Herrors|].
  destruct (Leave.getLeaveApplicationsPath Samples.year_zero) eqn:Hp;
    [|reflexivity].
  assert (truthy (Leave.selectedYear Samples.year_zero) = true) as Hyear
    by (apply Hpath; by eexists).
  vm_compute in Hyear. discriminate.
Defined.

Lemma approve_moves_counter_witness :
  let page := Leave.loadLeaveApplications Examples.leave_page in
  let before := Leave.updateStats page in
  let after :=
    Leave.updateStats
      (Leave.approveLeave true (Some "head@example.org") 3000 "leave_1000" page) in
  Leave.statsTotalLeaves after = Leave.statsTotalLeaves before /\
  S (Leave.statsPendingLeaves after) = Leave.statsPendingLeaves before /\
  Leave.statsApprovedLeaves after = S (Leave.statsApprovedLeaves before) /\
  Leave.statsRejectedLeaves after = Leave.statsRejectedLeaves before.
Proof.
  apply (approve_moves_counter Examples.leave_page Examples.leave_path
           "leave_1000" Examples.leave_pending (Some "head@example.org") 3000).
  - vm_compute. reflexivity.
  - vm_compute. reflexivity.
  - reflexivity.
Defined.
